(** * Onet archive scraper: a shallow embedding of [onet_scraper.py]

    The script is a linear pipeline:
    [get_metadata] crawls one archive page per calendar day and builds a
    table, [create_metadata_file] writes the table as CSV,
    [extract_and_save_articles] fetches every article and writes its text,
    and the [__main__] block validates the two dates and wires the stages.

    Python values are modelled as follows.
    - [str] is [string], a sequence of 8-bit code points.  In that range
      the decimal digits are exactly '0'..'9', so [\d] and [int] are as in
      Python; text with code points from 256 on (among them the decimal
      digits of other scripts, which [\d] and [int] accept too) is outside
      the model.
    - [int] is [Z]; [datetime.date] is a record of three [Z] fields, with
      the ordinal arithmetic of the [datetime] module written out.
    - exceptions are values of [exn]; a computation that may raise returns
      [result].
    - the network, the HTML parser and the file system are outside the
      script: a [World] answers each request and each write, and a parsed
      page is the record of the answers it gives to the queries the script
      makes.
    - logging, requests and file writes are effects on an explicit [state],
      threaded by the monad [M]. *)

From Stdlib Require Import ZArith String Ascii List Lia Bool Sorted.
From stdpp Require Import gmap strings list fin_maps.
Import ListNotations.

Local Open Scope string_scope.
Local Open Scope list_scope.
Local Open Scope Z_scope.

(** ** Exceptions *)

(** The exception classes the script can meet.  [ConnectionError],
    [Timeout] and [HTTPError] are the [requests] classes (all derive from
    [requests.RequestException]); [ParserRejectedMarkup] is the parser's;
    [KeyboardInterrupt] derives from [BaseException] only. *)
Inductive exn_class :=
| ValueError | OverflowError | IndexError | KeyError | TypeError
| AttributeError | OSError | UnicodeEncodeError
| RequestException | ConnectionError | Timeout | HTTPError
| ParserRejectedMarkup
| KeyboardInterrupt.

Record exn := mkExn { exn_cls : exn_class; exn_msg : string }.

(** [isinstance(e, requests.RequestException)]. *)
Definition is_RequestException (e : exn) : bool :=
  match exn_cls e with
  | RequestException | ConnectionError | Timeout | HTTPError => true
  | _ => false
  end.

(** [isinstance(e, Exception)]. *)
Definition is_Exception (e : exn) : bool :=
  match exn_cls e with
  | KeyboardInterrupt => false
  | _ => true
  end.

Inductive result (A : Type) :=
| Ok (a : A)
| Raise (e : exn).
Arguments Ok {A} a.
Arguments Raise {A} e.

Definition rbind {A B} (r : result A) (f : A -> result B) : result B :=
  match r with
  | Ok a => f a
  | Raise e => Raise e
  end.

(** A list comprehension whose element expression may raise. *)
Fixpoint rmap {A B} (f : A -> result B) (l : list A) : result (list B) :=
  match l with
  | [] => Ok []
  | x :: l' =>
      rbind (f x) (fun y => rbind (rmap f l') (fun ys => Ok (y :: ys)))
  end.

(** ** Strings *)

Module PyStr.

(** A decimal digit ([str.isdecimal], the class [\d]) among the 8-bit code
    points: '0'..'9' only. *)
Definition is_digit (c : ascii) : bool :=
  ((48 <=? nat_of_ascii c) && (nat_of_ascii c <=? 57))%nat.

Definition digit_char (d : Z) : ascii := ascii_of_nat (48 + Z.to_nat d).

Definition digit_val (c : ascii) : Z := Z.of_nat (nat_of_ascii c) - 48.

(** The [width] low decimal digits of [n], most significant first. *)
Fixpoint zfill (width : nat) (n : Z) : string :=
  match width with
  | O => ""
  | S w => zfill w (n / 10) +:+ String (digit_char (n mod 10)) ""
  end.

(** The number of decimal digits of [n >= 0], at most [S fuel]. *)
Fixpoint ndigits (fuel : nat) (n : Z) : nat :=
  match fuel with
  | O => 1
  | S f => if n <? 10 then 1%nat else S (ndigits f (n / 10))
  end.

(** [n] written in decimal without padding, for [n >= 0]: what C's
    [%d] prints. *)
Definition decimal (n : Z) : string :=
  zfill (ndigits (Z.to_nat (Z.log2 n)) n) n.

(** [sep.join(parts)]. *)
Fixpoint join (sep : string) (parts : list string) : string :=
  match parts with
  | [] => ""
  | [p] => p
  | p :: ps => p +:+ sep +:+ join sep ps
  end.

(** [s.split(c)] for a one-character separator. *)
Fixpoint split (c : ascii) (s : string) : list string :=
  match s with
  | "" => [""]
  | String a s' =>
      if Ascii.eqb a c then "" :: split c s'
      else match split c s' with
           | [] => [String a ""]
           | p :: ps => String a p :: ps
           end
  end.

(** [s.split(c)[-1]]: [split] never returns the empty list. *)
Definition split_last (c : ascii) (s : string) : string :=
  List.last (split c s) "".

Definition startswith (s : string) (c : ascii) : bool :=
  match s with
  | String a _ => Ascii.eqb a c
  | "" => false
  end.

Fixpoint endswith (s : string) (c : ascii) : bool :=
  match s with
  | "" => false
  | String a "" => Ascii.eqb a c
  | String _ s' => endswith s' c
  end.

(** [str.isspace] on one 8-bit code point. *)
Definition is_space (c : ascii) : bool :=
  let n := nat_of_ascii c in
  (((9 <=? n) && (n <=? 13)) || ((28 <=? n) && (n <=? 32))
   || (n =? 133) || (n =? 160))%nat.

Fixpoint lstrip (s : string) : string :=
  match s with
  | String a s' => if is_space a then lstrip s' else s
  | "" => ""
  end.

Fixpoint rstrip (s : string) : string :=
  match s with
  | "" => ""
  | String a s' =>
      match rstrip s' with
      | "" => if is_space a then "" else String a ""
      | r => String a r
      end
  end.

(** [s.strip()]. *)
Definition strip (s : string) : string := rstrip (lstrip s).

Fixpoint contains (c : ascii) (s : string) : bool :=
  match s with
  | "" => false
  | String a s' => Ascii.eqb a c || contains c s'
  end.


Fixpoint all_digits (s : string) : bool :=
  match s with
  | "" => true
  | String a s' => is_digit a && all_digits s'
  end.

(** The value of a string of decimal digits, left to right. *)
Fixpoint digits_val (acc : Z) (s : string) : Z :=
  match s with
  | "" => acc
  | String a s' => digits_val (10 * acc + digit_val a) s'
  end.

(** [int(s)] on the strings the script passes to it: surrounding white
    space is stripped and the rest must be a non-empty run of decimal
    digits.  (Python also accepts a sign and underscores between digits;
    the script only converts pieces of a string that [is_valid_date]
    accepted, which hold neither.) *)
Definition int (s : string) : result Z :=
  let t := strip s in
  match t with
  | "" => Raise (mkExn ValueError "invalid literal for int() with base 10")
  | _ => if all_digits t then Ok (digits_val 0 t)
         else Raise (mkExn ValueError "invalid literal for int() with base 10")
  end.

End PyStr.

(** ** The [datetime] module: dates as the script uses them *)

Module Calendar.

Definition MINYEAR : Z := 1.
Definition MAXYEAR : Z := 9999.
Definition _MAXORDINAL : Z := 3652059.

Definition _DAYS_IN_MONTH (month : Z) : Z :=
  match month with
  | 1 => 31 | 2 => 28 | 3 => 31 | 4 => 30 | 5 => 31 | 6 => 30
  | 7 => 31 | 8 => 31 | 9 => 30 | 10 => 31 | 11 => 30 | 12 => 31
  | _ => -1
  end.

Definition _DAYS_BEFORE_MONTH (month : Z) : Z :=
  match month with
  | 1 => 0 | 2 => 31 | 3 => 59 | 4 => 90 | 5 => 120 | 6 => 151
  | 7 => 181 | 8 => 212 | 9 => 243 | 10 => 273 | 11 => 304 | 12 => 334
  | _ => -1
  end.

Definition _is_leap (year : Z) : bool :=
  (year mod 4 =? 0) && (negb (year mod 100 =? 0) || (year mod 400 =? 0)).

Definition _days_before_year (year : Z) : Z :=
  let y := year - 1 in
  y * 365 + y / 4 - y / 100 + y / 400.

Definition _days_in_month (year month : Z) : Z :=
  if (month =? 2) && _is_leap year then 29 else _DAYS_IN_MONTH month.

Definition _days_before_month (year month : Z) : Z :=
  _DAYS_BEFORE_MONTH month + (if (2 <? month) && _is_leap year then 1 else 0).

Definition _ymd2ord (year month day : Z) : Z :=
  _days_before_year year + _days_before_month year month + day.

Definition _DI400Y : Z := 146097.
Definition _DI100Y : Z := 36524.
Definition _DI4Y : Z := 1461.

Record date := mkDate { year : Z; month : Z; day : Z }.

(** [date(year, month, day)]: the constructor checks the fields. *)
Definition new_date (y m d : Z) : result date :=
  if negb ((MINYEAR <=? y) && (y <=? MAXYEAR)) then
    Raise (mkExn ValueError "year is out of range")
  else if negb ((1 <=? m) && (m <=? 12)) then
    Raise (mkExn ValueError "month must be in 1..12")
  else if negb ((1 <=? d) && (d <=? _days_in_month y m)) then
    Raise (mkExn ValueError "day is out of range for month")
  else Ok (mkDate y m d).

(** The invariant of every [date] object. *)
Definition valid_date (d : date) : bool :=
  (MINYEAR <=? year d) && (year d <=? MAXYEAR)
  && (1 <=? month d) && (month d <=? 12)
  && (1 <=? day d) && (day d <=? _days_in_month (year d) (month d)).

Definition _ord2ymd (n : Z) : date :=
  let n := n - 1 in
  let n400 := n / _DI400Y in
  let n := n mod _DI400Y in
  let year := n400 * 400 + 1 in
  let n100 := n / _DI100Y in
  let n := n mod _DI100Y in
  let n4 := n / _DI4Y in
  let n := n mod _DI4Y in
  let n1 := n / 365 in
  let n := n mod 365 in
  let year := year + (n100 * 100 + n4 * 4 + n1) in
  if (n1 =? 4) || (n100 =? 4) then mkDate (year - 1) 12 31
  else
    let leapyear := (n1 =? 3) && (negb (n4 =? 24) || (n100 =? 3)) in
    let month := Z.shiftr (n + 50) 5 in
    let preceding :=
      _DAYS_BEFORE_MONTH month + (if (2 <? month) && leapyear then 1 else 0) in
    let '(month, preceding) :=
      if n <? preceding then
        (month - 1,
         preceding - (_DAYS_IN_MONTH (month - 1)
                      + (if (month - 1 =? 2) && leapyear then 1 else 0)))
      else (month, preceding) in
    mkDate year month (n - preceding + 1).

Definition toordinal (d : date) : Z := _ymd2ord (year d) (month d) (day d).

Definition fromordinal (n : Z) : date := _ord2ymd n.

(** [timedelta(days=x)]; only the day count is used. *)
Record timedelta := mkDelta { days : Z }.

(** [d1 - d2] on dates. *)
Definition date_sub (d1 d2 : date) : timedelta :=
  mkDelta (toordinal d1 - toordinal d2).

(** [d + delta]. *)
Definition date_add (d : date) (delta : timedelta) : result date :=
  let o := toordinal d + days delta in
  if (0 <? o) && (o <=? _MAXORDINAL) then Ok (fromordinal o)
  else Raise (mkExn OverflowError "date value out of range").

(** [d.strftime("%Y-%m-%d")].  The format goes to the C library: [%m] and
    [%d] are two digits, zero padded, but glibc's [%Y] is the year as a
    plain decimal number, so a year below 1000 has fewer than four
    digits ([date(999, 12, 31)] gives [999-12-31]). *)
Definition strftime_Ymd (d : date) : string :=
  PyStr.decimal (year d) +:+ "-" +:+ PyStr.zfill 2 (month d) +:+ "-"
  +:+ PyStr.zfill 2 (day d).

(** [d.isoformat()], which is also [str(d)] and how [d] reads inside an
    f-string: ["%04d-%02d-%02d" % (year, month, day)]. *)
Definition isoformat (d : date) : string :=
  PyStr.zfill 4 (year d) +:+ "-" +:+ PyStr.zfill 2 (month d) +:+ "-"
  +:+ PyStr.zfill 2 (day d).

(** [d1 < d2] on dates compares the (year, month, day) triples. *)
Definition date_ltb (d1 d2 : date) : bool :=
  (year d1 <? year d2)
  || ((year d1 =? year d2)
      && ((month d1 <? month d2)
          || ((month d1 =? month d2) && (day d1 <? day d2)))).

Definition date_leb (d1 d2 : date) : bool := negb (date_ltb d2 d1).

(** *** Notions used to state the properties *)

(** The length of a year in days. *)
Definition year_len (y : Z) : Z := if _is_leap y then 366 else 365.

(** The invariant of a [date], as a proposition. *)
Definition valid (d : date) : Prop :=
  (MINYEAR <= year d <= MAXYEAR) /\ (1 <= month d <= 12)
  /\ (1 <= day d <= _days_in_month (year d) (month d)).

(** The tail of [_ord2ymd]: month and day from the day of the year. *)
Definition month_day (leapyear : bool) (n : Z) : Z * Z :=
  let month := Z.shiftr (n + 50) 5 in
  let preceding :=
    _DAYS_BEFORE_MONTH month + (if (2 <? month) && leapyear then 1 else 0) in
  let '(month, preceding) :=
    if n <? preceding then
      (month - 1,
       preceding - (_DAYS_IN_MONTH (month - 1)
                    + (if (month - 1 =? 2) && leapyear then 1 else 0)))
    else (month, preceding) in
  (month, n - preceding + 1).

(** The check that [month_day] lands on a day of the right month. *)
Definition month_day_ok (leapyear : bool) (n : Z) : bool :=
  let '(m, d) := month_day leapyear n in
  (1 <=? m) && (m <=? 12) && (1 <=? d)
  && (d <=? (if (m =? 2) && leapyear then 29 else _DAYS_IN_MONTH m))
  && (_DAYS_BEFORE_MONTH m + (if (2 <? m) && leapyear then 1 else 0) + d =? n + 1).

(** The day at offset [x] from [start_date]. *)
Definition day_at (start_date : date) (x : Z) : date :=
  fromordinal (toordinal start_date + x).

End Calendar.

(** [range(n)]. *)
Definition py_range (n : Z) : list Z := map Z.of_nat (seq 0 (Z.to_nat n)).

(** The first two statements of [get_metadata]: the list of day strings. *)
Definition date_list (start_date end_date : Calendar.date) : result (list string) :=
  let no_of_days := Calendar.days (Calendar.date_sub end_date start_date) in
  rmap (fun x =>
          rbind (Calendar.date_add start_date (Calendar.mkDelta x))
                (fun d => Ok (Calendar.strftime_Ymd d)))
       (py_range (no_of_days + 1)).

(** The order of Python strings, code point by code point. *)
Definition str_lt (a b : string) : Prop := String.ltb a b = true.

(** ** Regular expressions: the fragment [is_valid_date] uses *)

Module Re.

Inductive regex :=
| Bol                          (* ^ *)
| Eol                          (* $ *)
| Digit                        (* \d *)
| Lit (c : ascii)              (* a literal character *)
| Rep (r : regex) (n : nat)    (* r{n} *)
| Seq (r1 r2 : regex).

Definition newline : ascii := ascii_of_nat 10.

(** A matcher state: the number of characters consumed and the rest of
    the subject.  [step r p] lists the states [r] can reach from [p].
    Without the MULTILINE flag, [^] holds at offset 0 only and [$] holds
    at the end of the subject and just before a newline that ends it. *)
Fixpoint step (r : regex) (p : nat * string) : list (nat * string) :=
  match r with
  | Bol => match fst p with O => [p] | S _ => [] end
  | Eol =>
      match snd p with
      | "" => [p]
      | String c "" => if Ascii.eqb c newline then [p] else []
      | _ => []
      end
  | Digit =>
      match snd p with
      | String c s' => if PyStr.is_digit c then [(S (fst p), s')] else []
      | "" => []
      end
  | Lit a =>
      match snd p with
      | String c s' => if Ascii.eqb c a then [(S (fst p), s')] else []
      | "" => []
      end
  | Rep r' n => Nat.iter n (fun ps => flat_map (step r') ps) [p]
  | Seq r1 r2 => flat_map (step r2) (step r1 p)
  end.

(** [bool(re.match(r, s))]: a match anchored at offset 0. *)
Definition re_match (r : regex) (s : string) : bool :=
  match step r (O, s) with
  | [] => false
  | _ :: _ => true
  end.

End Re.

(** The pattern [^\d{4}-\d{2}-\d{2}$]. *)
Definition date_pattern : Re.regex :=
  Re.Seq Re.Bol
    (Re.Seq (Re.Rep Re.Digit 4)
       (Re.Seq (Re.Lit "-")
          (Re.Seq (Re.Rep Re.Digit 2)
             (Re.Seq (Re.Lit "-")
                (Re.Seq (Re.Rep Re.Digit 2) Re.Eol))))).

Definition is_valid_date (date_string : string) : bool :=
  Re.re_match date_pattern date_string.

(** ** The table: the part of [pandas.DataFrame] the script uses *)

(** A cell holds a string or is missing (NaN). *)
Definition cell := option string.

Record DataFrame := mkFrame {
  columns : list string;
  rows : list (list cell)
}.

(** [pd.DataFrame()]. *)
Definition empty_frame : DataFrame := mkFrame [] [].

(** [pd.DataFrame(tuples, columns=cols)] for tuples of strings. *)
Definition frame_of_tuples (tuples : list (list string)) (cols : list string)
  : DataFrame :=
  mkFrame cols (map (map Some) tuples).

Fixpoint assoc_cell (c : string) (cols : list string) (row : list cell) : cell :=
  match cols, row with
  | c' :: cols', v :: row' => if String.eqb c c' then v else assoc_cell c cols' row'
  | _, _ => None
  end.

(** A row of a frame with columns [src], laid out under columns [dst];
    a column the row does not have is NaN. *)
Definition reindex (dst src : list string) (row : list cell) : list cell :=
  map (fun c => assoc_cell c src row) dst.

Definition mem_string (c : string) (l : list string) : bool :=
  existsb (String.eqb c) l.

(** [pd.concat([a, b])]: the columns are the union in order of first
    appearance, the rows of [a] come first. *)
Definition concat (a b : DataFrame) : DataFrame :=
  let cols :=
    columns a ++ filter (fun c => negb (mem_string c (columns a))) (columns b) in
  mkFrame cols
    (map (reindex cols (columns a)) (rows a)
     ++ map (reindex cols (columns b)) (rows b)).

(** [row[name]] on a row yielded by [iterrows]. *)
Definition row_get (cols : list string) (row : list cell) (name : string)
  : result cell :=
  if mem_string name cols then Ok (assoc_cell name cols row)
  else Raise (mkExn KeyError name).

(** [list(zip(a, b, c, d))]: as long as the shortest argument. *)
Fixpoint zip4 (a b c d : list string) : list (list string) :=
  match a, b, c, d with
  | x :: a', y :: b', z :: c', t :: d' => [x; y; z; t] :: zip4 a' b' c' d'
  | _, _, _, _ => []
  end.

(** *** [DataFrame.to_csv(index=False)] *)

Module Csv.

Definition quotechar : ascii := ascii_of_nat 34.
Definition delimiter : ascii := ",".
Definition CR : ascii := ascii_of_nat 13.
Definition LF : ascii := ascii_of_nat 10.

Fixpoint double_quotes (s : string) : string :=
  match s with
  | "" => ""
  | String c s' =>
      if Ascii.eqb c quotechar
      then String c (String c (double_quotes s'))
      else String c (double_quotes s')
  end.

(** QUOTE_MINIMAL: a field is quoted when it holds the delimiter, the
    quote character or a character of the line terminator, which is LF
    (pandas passes [os.linesep]); a lone CR does not quote the field.
    Quotes inside are doubled. *)
Definition needs_quotes (s : string) : bool :=
  PyStr.contains delimiter s || PyStr.contains quotechar s
  || PyStr.contains LF s.

Definition field (s : string) : string :=
  if needs_quotes s
  then String quotechar (double_quotes s) +:+ String quotechar ""
  else s.

(** One record, without its terminator.  A record that would be empty
    although it has a field is written as two quotes. *)
Definition record (fields : list string) : string :=
  match fields with
  | [""] => String quotechar (String quotechar "")
  | _ => PyStr.join (String delimiter "") (map field fields)
  end.

(** [writer.writerow(fields)] with line terminator LF. *)
Definition writerow (fields : list string) : string :=
  record fields +:+ String LF "".


(** A missing cell is written as the empty string ([na_rep]). *)
Definition cell_text (c : cell) : string :=
  match c with
  | Some s => s
  | None => ""
  end.

Fixpoint concat_strings (l : list string) : string :=
  match l with
  | [] => ""
  | s :: l' => s +:+ concat_strings l'
  end.

Definition to_csv (df : DataFrame) : string :=
  writerow (columns df)
  +:+ concat_strings (map (fun r => writerow (map cell_text r)) (rows df)).

End Csv.

(** ** The outside world *)

(** A parsed page is the record of what it answers to the script's
    queries. *)

(** An element of class [itemTime]. *)
Record TimeTag := mkTimeTag {
  (** [time_raw.contents[0].strip()]: raises when the element is empty
      or its first child is not text. *)
  contents0_strip : result string
}.

(** An element of class [itemTitle]. *)
Record TitleTag := mkTitleTag {
  (** [item_raw['href']]: [KeyError] when the attribute is missing. *)
  href : result string;
  (** [item_raw.contents[0]], as the text that ends up in the table:
      [IndexError] when the element is empty. *)
  contents0 : result string
}.

(** The element of class [dayInArchive]. *)
Record DayTag := mkDayTag {
  find_all_itemTime : list TimeTag;      (* find_all(class_="itemTime") *)
  find_all_itemTitle : list TitleTag     (* find_all(class_="itemTitle") *)
}.

Record Soup := mkSoup {
  find_dayInArchive : option DayTag;     (* find(class_='dayInArchive') *)
  find_lead : option string;             (* find(class_="hyphenate lead"), its .text *)
  find_all_p : list string               (* [m.text for m in find_all('p')] *)
}.

(** What the parser gives for the empty text: a document without
    elements. *)
Definition empty_soup : Soup := mkSoup None None [].

Record Response := mkResponse {
  status_code : Z;
  (** What the parser makes of the body the server sent; it may reject
      the markup. *)
  sent_body : result Soup
}.

(** [http.client] reads no body for a 1xx, 204 or 304 answer, whatever
    the server sent: [response.text] is then empty. *)
Definition no_body (status : Z) : bool :=
  ((100 <=? status) && (status <? 200)) || (status =? 204) || (status =? 304).

(** [BeautifulSoup(response.text, 'html.parser')]. *)
Definition parsed (r : Response) : result Soup :=
  if no_body (status_code r) then Ok empty_soup else sent_body r.

(** [response.raise_for_status()]: client and server error codes raise,
    every other code passes.  The message is abbreviated. *)
Definition raise_for_status (url : string) (r : Response) : result unit :=
  if (400 <=? status_code r) && (status_code r <? 500) then
    Raise (mkExn HTTPError ("Client Error for url: " +:+ url))
  else if (500 <=? status_code r) && (status_code r <? 600) then
    Raise (mkExn HTTPError ("Server Error for url: " +:+ url))
  else Ok tt.

Record Request := mkRequest {
  req_url : string;
  req_headers : list (string * string);
  req_timeout : option Z
}.

(** What writing a file does: the directories are made, the file is
    opened for writing and the text is written.  A failure raises; when it
    comes after the file was opened, [left_behind] is what the file then
    holds. *)
Inductive write_outcome :=
| WriteOk
| WriteFails (e : exn) (left_behind : option string).

(** The world answers the [n]-th request and the [n]-th write (counted
    from 0 over the run), so the same URL may be answered differently at
    different times. *)
Record World := mkWorld {
  http_get : nat -> Request -> result Response;
  fs_write : nat -> string -> string -> write_outcome
}.

(** ** State and effects *)

Inductive level := INFO | WARNING | ERROR.

Record state := mkState {
  log : list (level * string);       (* the records logged so far *)
  requests : list Request;           (* the requests issued so far *)
  files : gmap string string;        (* the files written, by path *)
  nwrites : nat                      (* the writes attempted so far *)
}.

Definition initial_state : state := mkState [] [] ∅ O.

Definition add_log (lvl : level) (msg : string) (s : state) : state :=
  mkState (log s ++ [(lvl, msg)]) (requests s) (files s) (nwrites s).

Definition add_request (req : Request) (s : state) : state :=
  mkState (log s) (requests s ++ [req]) (files s) (nwrites s).

(** One more write attempted; [left_behind] is what the file holds
    afterwards, if it was opened at all. *)
Definition add_write (path : string) (left_behind : option string) (s : state)
  : state :=
  mkState (log s) (requests s)
          (match left_behind with
           | Some t => <[path := t]> (files s)
           | None => files s
           end)
          (S (nwrites s)).

Definition M (A : Type) : Type := state -> result A * state.

Definition ret {A} (a : A) : M A := fun s => (Ok a, s).

Definition bind {A B} (m : M A) (f : A -> M B) : M B :=
  fun s =>
    match m s with
    | (Ok a, s') => f a s'
    | (Raise e, s') => (Raise e, s')
    end.

Notation "x <- c1 ;; c2" := (bind c1 (fun x => c2))
  (at level 100, c1 at next level, right associativity).
Notation "c1 ;;; c2" := (bind c1 (fun _ => c2))
  (at level 100, right associativity).

Definition throw {A} (e : exn) : M A := fun s => (Raise e, s).

Definition lift {A} (r : result A) : M A := fun s => (r, s).

(** [try: body  except C as e: handler e], where [catches] decides
    [isinstance(e, C)]. *)
Definition try_except {A} (body : M A) (catches : exn -> bool)
    (handler : exn -> M A) : M A :=
  fun s =>
    match body s with
    | (Ok a, s') => (Ok a, s')
    | (Raise e, s') => if catches e then handler e s' else (Raise e, s')
    end.

(** A [for] loop whose body updates the loop's local variables. *)
Fixpoint for_each {A L} (l : list A) (body : L -> A -> M L) (loc : L) : M L :=
  match l with
  | [] => ret loc
  | x :: l' => loc' <- body loc x ;; for_each l' body loc'
  end.

Definition logging (lvl : level) (msg : string) : M unit :=
  fun s => (Ok tt, add_log lvl msg s).

Section Script.

Variable w : World.

(** [requests.get(url, headers=..., timeout=...)]. *)
Definition requests_get (req : Request) : M Response :=
  fun s => (http_get w (length (requests s)) req, add_request req s).

(** [os.makedirs(dirname(path), exist_ok=True)] and writing [text] to a
    file opened at [path] for writing. *)
Definition write_file (path text : string) : M unit :=
  fun s =>
    match fs_write w (nwrites s) path text with
    | WriteOk => (Ok tt, add_write path (Some text) s)
    | WriteFails e left_behind => (Raise e, add_write path left_behind s)
    end.

(** *** [get_metadata] *)

(** The variables of [get_metadata] that live across loop iterations. *)
Record locals := mkLocals {
  times : list string;
  urls : list string;
  titles : list string;
  result_df : DataFrame
}.

Definition metadata_columns : list string := ["date"; "time"; "url"; "title"].

(** The request [get_metadata] issues for one archive page. *)
Definition archive_request (headers : list (string * string)) (url : string)
  : Request :=
  mkRequest url headers (Some 10).

(** The two values read from one [itemTitle] element, in the order the
    loop body reads them. *)
Definition title_item (item_raw : TitleTag) : result (string * string) :=
  rbind (href item_raw) (fun u =>
  rbind (contents0 item_raw) (fun t => Ok (u, t))).

(** One iteration of [for url in urls_list]. *)
Definition get_metadata_body (headers : list (string * string))
    (loc : locals) (url : string) : M locals :=
  fetched <-
    try_except
      (response <- requests_get (archive_request headers url) ;;
       lift (raise_for_status url response) ;;;
       ret (Some response))
      is_RequestException
      (fun e =>
         logging ERROR ("Error fetching URL " +:+ url +:+ ". Error: " +:+ exn_msg e) ;;;
         ret None) ;;
  match fetched with
  | None => ret loc                                   (* continue *)
  | Some response =>
      content <- lift (parsed response) ;;
      match find_dayInArchive content with
      | None =>
          throw (mkExn AttributeError
                   "'NoneType' object has no attribute 'find_all'")
      | Some dayInArchive =>
          new_times <- lift (rmap contents0_strip (find_all_itemTime dayInArchive)) ;;
          let times := times loc ++ new_times in
          new_items <- lift (rmap title_item (find_all_itemTitle dayInArchive)) ;;
          let urls := urls loc ++ map fst new_items in
          let titles := titles loc ++ map snd new_items in
          let archive_date := PyStr.split_last "/" url in
          let result :=
            concat (result_df loc)
              (frame_of_tuples
                 (zip4 (repeat archive_date (length titles)) times urls titles)
                 metadata_columns) in
          ret (mkLocals times urls titles result)
      end
  end.

Definition archive_url (date : string) : string :=
  "https://wiadomosci.onet.pl/archiwum/" +:+ date.

Definition get_metadata (start_date end_date : Calendar.date)
    (headers : list (string * string)) : M DataFrame :=
  date_list <- lift (date_list start_date end_date) ;;
  let urls_list := map archive_url date_list in
  loc <- for_each urls_list (get_metadata_body headers)
           (mkLocals [] [] [] empty_frame) ;;
  ret (result_df loc).

(** *** [create_metadata_file] *)

Definition create_metadata_file (start_date end_date : Calendar.date)
    (path : string) (metadata : DataFrame) : M unit :=
  let filepath := path +:+ "/onet_metadata.csv" in
  write_file filepath (Csv.to_csv metadata) ;;;
  logging INFO ("New file created: " +:+ filepath).

(** *** [extract_and_save_articles] *)

(** [os.path.join(a, b, c)] on POSIX. *)
Definition os_path_join2 (a b : string) : string :=
  if PyStr.startswith b "/" then b
  else if match a with "" => true | _ => PyStr.endswith a "/" end then a +:+ b
  else a +:+ "/" +:+ b.

Definition os_path_join (a b c : string) : string :=
  os_path_join2 (os_path_join2 a b) c.

(** How a cell reads inside an f-string. *)
Definition cell_str (c : cell) : string :=
  match c with
  | Some s => s
  | None => "nan"
  end.

(** The request [extract_and_save_articles] issues for one article. *)
Definition article_request (url : string) : Request := mkRequest url [] None.

(** Where the text of an article goes. *)
Definition article_path (path date url : string) : string :=
  os_path_join path date (PyStr.split_last "/" url +:+ ".txt").

(** The [try] block of one iteration of the article loop. *)
Definition extract_try (path : string) (cols : list string)
    (article_details : list cell) (url_cell : cell) : M unit :=
  let url := cell_str url_cell in
  response <- requests_get (article_request url) ;;
  content <- lift (parsed response) ;;
  match find_lead content with
  | None => logging WARNING ("No lead found for URL: " +:+ url)   (* continue *)
  | Some lead =>
      let main_body := find_all_p content in
      let full_text := lead +:+ " " +:+ PyStr.join " " main_body in
      date_cell <- lift (row_get cols article_details "date") ;;
      match url_cell, date_cell with
      | None, _ =>
          throw (mkExn AttributeError "'float' object has no attribute 'split'")
      | Some _, None =>
          throw (mkExn TypeError "expected str, bytes or os.PathLike object, not float")
      | Some u, Some d =>
          let filepath := article_path path d u in
          write_file filepath full_text ;;;
          logging INFO ("Data extracted and saved for URL: " +:+ url)
      end
  end.

(** One iteration of [for _, article_details in metadata.iterrows()]. *)
Definition extract_body (path : string) (cols : list string)
    (_ : unit) (article_details : list cell) : M unit :=
  url_cell <- lift (row_get cols article_details "url") ;;
  let url := cell_str url_cell in
  try_except
    (extract_try path cols article_details url_cell)
    is_Exception
    (fun e =>
       logging ERROR ("Error processing URL " +:+ url +:+ ". Error: " +:+ exn_msg e)).

Definition extract_and_save_articles (start_date end_date : Calendar.date)
    (path : string) (metadata : DataFrame) : M unit :=
  logging INFO ("Starting data extraction for dates: "
                +:+ Calendar.isoformat start_date +:+ " to "
                +:+ Calendar.isoformat end_date) ;;;
  for_each (rows metadata) (extract_body path (columns metadata)) tt ;;;
  logging INFO ("Finished data extraction for dates: "
                +:+ Calendar.isoformat start_date +:+ " to "
                +:+ Calendar.isoformat end_date).

(** *** The [__main__] block *)

Record Args := mkArgs {
  arg_start_date : string;
  arg_end_date : string;
  arg_path : string
}.

(** [date] applied to the [int] of every piece of [s.split('-')]. *)
Definition parse_date (s : string) : result Calendar.date :=
  rbind (rmap PyStr.int (PyStr.split "-" s)) (fun fields =>
    match fields with
    | [y; m; d] => Calendar.new_date y m d
    | _ => Raise (mkExn TypeError "function takes exactly 3 arguments")
    end).

Definition user_agent : list (string * string) :=
  [("User-Agent",
    "Mozilla/5.0 (Windows NT 10.0; Win64; x64) AppleWebKit/537.36 (KHTML, like Gecko) Chrome/91.0.4472.124 Safari/537.36")].

(** The three stages, run on the parsed dates. *)
Definition pipeline (args : Args) (start_date_obj end_date_obj : Calendar.date)
  : M Z :=
  logging INFO ("Starting metadata scraping for dates: "
                +:+ arg_start_date args +:+ " to " +:+ arg_end_date args) ;;;
  metadata <- get_metadata start_date_obj end_date_obj user_agent ;;
  create_metadata_file start_date_obj end_date_obj (arg_path args) metadata ;;;
  extract_and_save_articles start_date_obj end_date_obj (arg_path args) metadata ;;;
  ret 0.

(** The process: [Ok c] is exit status [c]; [Raise e] is an uncaught
    exception, which ends the process with a traceback. *)
Definition main (args : Args) : M Z :=
  if negb (is_valid_date (arg_start_date args) && is_valid_date (arg_end_date args))
  then
    logging ERROR "Dates should be in the format YYYY-MM-DD." ;;;
    ret 1                                              (* exit(1) *)
  else
    start_date_obj <- lift (parse_date (arg_start_date args)) ;;
    end_date_obj <- lift (parse_date (arg_end_date args)) ;;
    pipeline args start_date_obj end_date_obj.

End Script.

(** ** Worlds for the examples *)

Fixpoint lookup_page (url : string) (pages : list (string * result Response))
  : result Response :=
  match pages with
  | [] => Raise (mkExn ConnectionError "Max retries exceeded")
  | (u, r) :: pages' => if String.eqb url u then r else lookup_page url pages'
  end.

(** A world that answers by URL from a table, refuses everything else and
    lets every write succeed. *)
Definition table_world (pages : list (string * result Response)) : World :=
  mkWorld (fun _ req => lookup_page (req_url req) pages) (fun _ _ _ => WriteOk).

(** An archive page that lists the given (time, url, title) triples. *)
Definition archive_page (items : list (string * string * string)) : Soup :=
  mkSoup
    (Some (mkDayTag
             (map (fun i => mkTimeTag (Ok (fst (fst i)))) items)
             (map (fun i => mkTitleTag (Ok (snd (fst i))) (Ok (snd i))) items)))
    None [].

(** The table row of one item found on a day's page. *)
Definition metadata_row (date : string) (item : string * string * string)
  : list cell :=
  [Some date; Some (fst (fst item)); Some (snd (fst item)); Some (snd item)].

(** An archive page without the day container. *)
Definition bare_page : Soup := mkSoup None None [].

(** An article page with a lead and paragraphs. *)
Definition article_page (lead : option string) (paragraphs : list string) : Soup :=
  mkSoup None lead paragraphs.

Definition ok_page (page : Soup) : result Response := Ok (mkResponse 200 (Ok page)).

(** A world that answers like [table_world] but refuses every write. *)
Definition readonly_world (pages : list (string * result Response)) : World :=
  mkWorld (fun _ req => lookup_page (req_url req) pages)
          (fun _ _ _ => WriteFails (mkExn OSError "Permission denied") None).

(** ** Notions for the properties of whole runs *)

(** A table as [get_metadata] builds it: no columns at all or the four
    columns, and every row four present cells whose first is one of
    [dates]. *)
Definition table_ok (dates : list string) (df : DataFrame) : Prop :=
  (df = empty_frame \/ columns df = metadata_columns)
  /\ Forall (fun row => exists d t u ti,
                row = [Some d; Some t; Some u; Some ti] /\ In d dates)
       (rows df).

(** The request for [url], the [n]-th of the run, fails the way the
    [except] clause of [get_metadata] catches. *)
Definition fetch_fails (w : World) (n : nat) (headers : list (string * string))
    (url : string) : Prop :=
  (exists e, http_get w n (archive_request headers url) = Raise e
             /\ is_RequestException e = true)
  \/ (exists r, http_get w n (archive_request headers url) = Ok r
                /\ 400 <= status_code r < 600).

(** The request for [url], the [n]-th of the run, is answered with a page
    whose day container lists [items]. *)
Definition fetch_lists (w : World) (n : nat) (headers : list (string * string))
    (url : string) (items : list (string * string * string)) : Prop :=
  exists r lead ps,
    http_get w n (archive_request headers url) = Ok r
    /\ raise_for_status url r = Ok tt
    /\ parsed r = Ok (mkSoup (find_dayInArchive (archive_page items)) lead ps).

(** The world answers the days in turn, from request [n] on: [None] is a
    day whose fetch fails, [Some items] a day whose page lists [items]. *)
Fixpoint answers (w : World) (headers : list (string * string)) (n : nat)
    (days : list (string * option (list (string * string * string)))) : Prop :=
  match days with
  | [] => True
  | (date, a) :: rest =>
      match a with
      | None => fetch_fails w n headers (archive_url date)
      | Some items => fetch_lists w n headers (archive_url date) items
      end
      /\ answers w headers (S n) rest
  end.

(** The days that were fetched, in order. *)
Fixpoint fetched_days
    (days : list (string * option (list (string * string * string))))
  : list (string * list (string * string * string)) :=
  match days with
  | [] => []
  | (date, Some items) :: rest => (date, items) :: fetched_days rest
  | (_, None) :: rest => fetched_days rest
  end.

(** The days whose fetch failed. *)
Fixpoint skipped_days
    (days : list (string * option (list (string * string * string))))
  : list string :=
  match days with
  | [] => []
  | (date, None) :: rest => date :: skipped_days rest
  | (_, Some _) :: rest => skipped_days rest
  end.

(** The rows of a run over fetched days when [prev] holds the items of the
    days before: each day lists, under its own date, all items found so
    far. *)
Fixpoint acc_rows (prev : list (string * string * string))
    (days : list (string * list (string * string * string))) : list (list cell) :=
  match days with
  | [] => []
  | (date, items) :: rest =>
      map (metadata_row date) (prev ++ items) ++ acc_rows (prev ++ items) rest
  end.

(** The text of an article as the specification words it: the lead's
    text, a single space, then the paragraph texts with a single space
    between neighbours.  After the first paragraph every paragraph comes
    with one space before it. *)
Definition spec_article_text (lead : string) (paragraphs : list string) : string :=
  match paragraphs with
  | [] => lead +:+ " "
  | p :: rest =>
      lead +:+ " " +:+ p +:+ Csv.concat_strings (map (String.append " ") rest)
  end.



(** Every exception the world raises derives from [Exception]. *)
Definition only_exceptions (w : World) : Prop :=
  (forall n req e, http_get w n req = Raise e -> is_Exception e = true)
  /\ (forall n req r e, http_get w n req = Ok r -> parsed r = Raise e ->
                        is_Exception e = true)
  /\ (forall n path text e left_behind,
        fs_write w n path text = WriteFails e left_behind ->
        is_Exception e = true).

(** * Properties *)

(** ** Strings *)

#[local] Arguments String.append !s1 s2 : simpl nomatch.

Module StrFacts.
Import PyStr.

Lemma append_assoc (a b c : string) : (a +:+ b) +:+ c = a +:+ (b +:+ c).
Proof. induction a as [|x a IH]; cbn; [reflexivity | now rewrite IH]. Qed.

Lemma append_nil_r (a : string) : a +:+ "" = a.
Proof. induction a as [|x a IH]; cbn; [reflexivity | now rewrite IH]. Qed.

Lemma digit_cases k :
  0 <= k < 10 ->
  k = 0 \/ k = 1 \/ k = 2 \/ k = 3 \/ k = 4 \/ k = 5 \/ k = 6 \/ k = 7
  \/ k = 8 \/ k = 9.
Proof. lia. Qed.

Ltac each_digit k H :=
  destruct (digit_cases k H) as [->|[->|[->|[->|[->|[->|[->|[->|[->| ->]]]]]]]]].

Lemma is_digit_digit_char k : 0 <= k < 10 -> is_digit (digit_char k) = true.
Proof. intros H. each_digit k H; reflexivity. Qed.

Lemma digit_val_digit_char k : 0 <= k < 10 -> digit_val (digit_char k) = k.
Proof. intros H. each_digit k H; reflexivity. Qed.

Lemma is_digit_cases c :
  is_digit c = true -> exists k, 0 <= k < 10 /\ c = digit_char k.
Proof.
  intros H. exists (digit_val c).
  destruct c as [[] [] [] [] [] [] [] []]; try discriminate H;
    (split; [vm_compute; split; [discriminate | reflexivity] | reflexivity]).
Qed.

Lemma digit_not_space c : is_digit c = true -> is_space c = false.
Proof.
  intros H. destruct (is_digit_cases c H) as (k & Hk & ->).
  each_digit k Hk; reflexivity.
Qed.

Lemma digit_not_char c (x : ascii) :
  is_digit x = false -> is_digit c = true -> Ascii.eqb c x = false.
Proof.
  intros Hx Hc. destruct (Ascii.eqb_spec c x) as [->|]; [congruence|reflexivity].
Qed.

Lemma all_digits_app a b :
  all_digits (a +:+ b) = all_digits a && all_digits b.
Proof.
  induction a as [|x a IH]; cbn; [reflexivity|].
  rewrite IH. apply andb_assoc.
Qed.

Lemma all_digits_zfill w n : all_digits (zfill w n) = true.
Proof.
  revert n. induction w as [|w IH]; intros n; cbn; [reflexivity|].
  rewrite all_digits_app, IH. cbn.
  rewrite is_digit_digit_char; [reflexivity|].
  apply Z.mod_pos_bound. lia.
Qed.

Lemma length_app a b :
  String.length (a +:+ b) = (String.length a + String.length b)%nat.
Proof. induction a as [|x a IH]; cbn; [reflexivity | now rewrite IH]. Qed.

Lemma length_zfill w n : String.length (zfill w n) = w.
Proof.
  revert n. induction w as [|w IH]; intros n; cbn; [reflexivity|].
  rewrite length_app, IH. cbn. lia.
Qed.

Lemma all_digits_contains c s :
  is_digit c = false -> all_digits s = true -> contains c s = false.
Proof.
  intros Hc. induction s as [|x s IH]; cbn; [reflexivity|].
  intros H. apply andb_true_iff in H as [Hx Hs].
  rewrite (digit_not_char x c Hc Hx), IH by assumption. reflexivity.
Qed.

Lemma contains_app c a b :
  contains c (a +:+ b) = contains c a || contains c b.
Proof.
  induction a as [|x a IH]; cbn; [reflexivity|].
  rewrite IH. apply orb_assoc.
Qed.

(** *** [split] *)

Lemma split_no_sep c s : contains c s = false -> split c s = [s].
Proof.
  induction s as [|x s IH]; cbn; [reflexivity|].
  intros H. apply orb_false_iff in H as [Hx Hs].
  rewrite Hx, IH by assumption. reflexivity.
Qed.

Lemma split_app_sep c p s :
  contains c p = false -> split c (p +:+ String c s) = p :: split c s.
Proof.
  induction p as [|x p IH]; cbn.
  - intros _. rewrite Ascii.eqb_refl. reflexivity.
  - intros H. apply orb_false_iff in H as [Hx Hp].
    rewrite Hx, IH by assumption. reflexivity.
Qed.

(** *** [strip] and [int] on digit strings *)

Lemma lstrip_digits s : all_digits s = true -> lstrip s = s.
Proof.
  destruct s as [|x s]; cbn; [reflexivity|].
  intros H. apply andb_true_iff in H as [Hx _].
  rewrite (digit_not_space x Hx). reflexivity.
Qed.

Lemma rstrip_digits s : all_digits s = true -> rstrip s = s.
Proof.
  induction s as [|x s IH]; cbn; [reflexivity|].
  intros H. apply andb_true_iff in H as [Hx Hs].
  rewrite IH by assumption.
  destruct s; [rewrite (digit_not_space x Hx)|]; reflexivity.
Qed.

Lemma digits_val_app acc a b :
  digits_val acc (a +:+ b) = digits_val (digits_val acc a) b.
Proof. revert acc. induction a as [|x a IH]; intros acc; cbn; [reflexivity | apply IH]. Qed.

Lemma digits_val_zfill w acc n :
  digits_val acc (zfill w n) = acc * 10 ^ Z.of_nat w + n mod 10 ^ Z.of_nat w.
Proof.
  revert acc n. induction w as [|w IH]; intros acc n.
  - cbn. rewrite Z.mod_1_r. lia.
  - cbn [zfill]. rewrite digits_val_app, IH. cbn [digits_val].
    rewrite digit_val_digit_char by (apply Z.mod_pos_bound; lia).
    rewrite Nat2Z.inj_succ, Z.pow_succ_r by lia.
    set (p := 10 ^ Z.of_nat w).
    assert (0 < p) by (apply Z.pow_pos_nonneg; lia).
    rewrite Z.rem_mul_r by lia. lia.
Qed.

Lemma int_zfill w n :
  (0 < w)%nat -> 0 <= n < 10 ^ Z.of_nat w -> int (zfill w n) = Ok n.
Proof.
  intros Hw Hn. unfold int, strip.
  rewrite lstrip_digits, rstrip_digits by apply all_digits_zfill.
  rewrite all_digits_zfill, digits_val_zfill, Z.mod_small by assumption.
  pose proof (length_zfill w n) as L.
  destruct (zfill w n); [cbn in L; lia|]. f_equal; lia.
Qed.

(** *** Order *)

Lemma compare_refl s : String.compare s s = Eq.
Proof.
  induction s as [|x s IH]; cbn; [reflexivity|].
  unfold Ascii.compare. rewrite N.compare_refl. exact IH.
Qed.

Lemma compare_app a a' b b' :
  String.length a = String.length a' ->
  String.compare (a +:+ b) (a' +:+ b') =
  match String.compare a a' with
  | Eq => String.compare b b'
  | c => c
  end.
Proof.
  revert a'. induction a as [|x a IH]; intros [|x' a'] L; cbn in *;
    try discriminate; [reflexivity|].
  destruct (Ascii.compare x x'); [apply IH; lia | reflexivity..].
Qed.

Lemma compare_digit_char j k :
  0 <= j < 10 -> 0 <= k < 10 -> j < k ->
  Ascii.compare (digit_char j) (digit_char k) = Lt.
Proof.
  intros Hj Hk Hlt. each_digit j Hj; each_digit k Hk;
    try lia; reflexivity.
Qed.

(** Zero-padded numbers of one width compare as the numbers do. *)
Lemma compare_zfill w x y :
  0 <= x -> x < y -> y < 10 ^ Z.of_nat w ->
  String.compare (zfill w x) (zfill w y) = Lt.
Proof.
  revert x y. induction w as [|w IH]; intros x y Hx Hxy Hy.
  - cbn in Hy. lia.
  - cbn [zfill]. rewrite compare_app by (rewrite !length_zfill; reflexivity).
    rewrite Nat2Z.inj_succ, Z.pow_succ_r in Hy by lia.
    destruct (Z.eq_dec (x / 10) (y / 10)) as [E|N].
    + rewrite E, compare_refl. cbn.
      rewrite compare_digit_char;
        [reflexivity | apply Z.mod_pos_bound; lia
         | apply Z.mod_pos_bound; lia | ].
      Z.to_euclidean_division_equations; lia.
    + rewrite IH; [reflexivity | | | ];
        Z.to_euclidean_division_equations; lia.
Qed.
End StrFacts.

(** ** The calendar *)

Module CalendarFacts.
Import Calendar.

Ltac zdiv := Z.to_euclidean_division_equations; lia.

Lemma is_leap_spec y :
  _is_leap y = true <-> (y mod 4 = 0 /\ (y mod 100 <> 0 \/ y mod 400 = 0)).
Proof.
  unfold _is_leap.
  rewrite andb_true_iff, orb_true_iff, negb_true_iff.
  rewrite !Z.eqb_eq, Z.eqb_neq. tauto.
Qed.

Lemma days_before_year_succ y :
  _days_before_year (y + 1) = _days_before_year y + year_len y.
Proof.
  unfold _days_before_year, year_len.
  destruct (_is_leap y) eqn:E.
  - apply is_leap_spec in E. zdiv.
  - assert (N : ~ (y mod 4 = 0 /\ (y mod 100 <> 0 \/ y mod 400 = 0))).
    { rewrite <- is_leap_spec. congruence. }
    zdiv.
Qed.

Lemma year_len_bounds y : 365 <= year_len y <= 366.
Proof. unfold year_len. destruct (_is_leap y); lia. Qed.

(** A later year starts after the whole of an earlier one. *)
Lemma days_before_year_mono y1 y2 :
  y1 < y2 -> _days_before_year y1 + year_len y1 <= _days_before_year y2.
Proof.
  intros H.
  replace y2 with (y1 + 1 + Z.of_nat (Z.to_nat (y2 - y1 - 1))) by lia.
  induction (Z.to_nat (y2 - y1 - 1)) as [|k IH].
  - rewrite Z.add_0_r, days_before_year_succ. lia.
  - replace (y1 + 1 + Z.of_nat (S k)) with (y1 + 1 + Z.of_nat k + 1) by lia.
    rewrite days_before_year_succ.
    pose proof (year_len_bounds (y1 + 1 + Z.of_nat k)). lia.
Qed.

Lemma month_cases m :
  1 <= m <= 12 ->
  m = 1 \/ m = 2 \/ m = 3 \/ m = 4 \/ m = 5 \/ m = 6 \/
  m = 7 \/ m = 8 \/ m = 9 \/ m = 10 \/ m = 11 \/ m = 12.
Proof. lia. Qed.

Ltac each_month m H :=
  destruct (month_cases m H) as [->|[->|[->|[->|[->|[->|[->|[->|[->|[->|[->| ->]]]]]]]]]]].

(** A later month starts after the whole of an earlier one. *)
Lemma days_before_month_mono y m1 m2 :
  1 <= m1 <= 12 -> 1 <= m2 <= 12 -> m1 < m2 ->
  _days_before_month y m1 + _days_in_month y m1 <= _days_before_month y m2.
Proof.
  intros H1 H2 Hlt. unfold _days_before_month, _days_in_month.
  destruct (_is_leap y);
    each_month m1 H1; each_month m2 H2; cbn; lia.
Qed.

(** The last month ends with the year. *)
Lemma days_in_year y m :
  1 <= m <= 12 ->
  0 <= _days_before_month y m /\
  _days_before_month y m + _days_in_month y m <= year_len y.
Proof.
  intros H. unfold _days_before_month, _days_in_month, year_len.
  destruct (_is_leap y); each_month m H; cbn; lia.
Qed.

Lemma valid_date_spec d : valid_date d = true <-> valid d.
Proof.
  unfold valid_date, valid.
  rewrite !andb_true_iff, !Z.leb_le. tauto.
Qed.

Lemma date_ltb_spec d1 d2 :
  date_ltb d1 d2 = true <->
  year d1 < year d2 \/
  (year d1 = year d2 /\
   (month d1 < month d2 \/ (month d1 = month d2 /\ day d1 < day d2))).
Proof.
  unfold date_ltb.
  rewrite !orb_true_iff, !andb_true_iff, !orb_true_iff, !andb_true_iff,
    !Z.ltb_lt, !Z.eqb_eq. tauto.
Qed.

(** [toordinal] is strictly increasing on dates. *)
Lemma toordinal_lt d1 d2 :
  valid d1 -> valid d2 -> date_ltb d1 d2 = true ->
  toordinal d1 < toordinal d2.
Proof.
  intros (Hy1 & Hm1 & Hd1) (Hy2 & Hm2 & Hd2) Hlt.
  apply date_ltb_spec in Hlt. unfold toordinal, _ymd2ord.
  destruct Hlt as [Hy | [Hy [Hm | [Hm Hd]]]].
  - pose proof (days_before_year_mono _ _ Hy).
    pose proof (days_in_year (year d1) _ Hm1).
    pose proof (days_in_year (year d2) _ Hm2). lia.
  - rewrite Hy in *.
    pose proof (days_before_month_mono (year d2) _ _ Hm1 Hm2 Hm). lia.
  - rewrite Hy, Hm. lia.
Qed.

Lemma date_trichotomy d1 d2 :
  date_ltb d1 d2 = true \/ d1 = d2 \/ date_ltb d2 d1 = true.
Proof.
  rewrite !date_ltb_spec. destruct d1 as [y1 m1 e1], d2 as [y2 m2 e2]; cbn.
  destruct (Z.lt_total y1 y2) as [?|[->|?]]; [lia | | lia].
  destruct (Z.lt_total m1 m2) as [?|[->|?]]; [lia | | lia].
  destruct (Z.lt_total e1 e2) as [?|[->|?]]; [lia | | lia].
  right; left; reflexivity.
Qed.

Lemma toordinal_inj d1 d2 :
  valid d1 -> valid d2 -> toordinal d1 = toordinal d2 -> d1 = d2.
Proof.
  intros V1 V2 E.
  destruct (date_trichotomy d1 d2) as [H|[H|H]]; [ | exact H | ].
  - pose proof (toordinal_lt _ _ V1 V2 H). lia.
  - pose proof (toordinal_lt _ _ V2 V1 H). lia.
Qed.

Lemma toordinal_lt_iff d1 d2 :
  valid d1 -> valid d2 ->
  (date_ltb d1 d2 = true <-> toordinal d1 < toordinal d2).
Proof.
  intros V1 V2. split; [apply toordinal_lt; assumption|].
  intros H. destruct (date_trichotomy d1 d2) as [L|[L|L]]; [exact L| |].
  - subst. lia.
  - pose proof (toordinal_lt _ _ V2 V1 L). lia.
Qed.

Lemma toordinal_range d : valid d -> 1 <= toordinal d <= _MAXORDINAL.
Proof.
  intros V.
  assert (Vmin : valid (mkDate 1 1 1)) by (apply valid_date_spec; reflexivity).
  assert (Vmax : valid (mkDate 9999 12 31)) by (apply valid_date_spec; reflexivity).
  split.
  - destruct (date_trichotomy (mkDate 1 1 1) d) as [L|[L|L]].
    + pose proof (toordinal_lt _ _ Vmin V L) as H.
      change (toordinal (mkDate 1 1 1)) with 1 in H. lia.
    + subst. vm_compute. discriminate.
    + apply date_ltb_spec in L. destruct V as (? & ? & ?).
      unfold MINYEAR in *. cbn in L. lia.
  - destruct (date_trichotomy d (mkDate 9999 12 31)) as [L|[L|L]].
    + pose proof (toordinal_lt _ _ V Vmax L) as H.
      change (toordinal (mkDate 9999 12 31)) with 3652059 in H.
      unfold _MAXORDINAL. lia.
    + subst. vm_compute. discriminate.
    + apply date_ltb_spec in L. destruct V as (? & ? & Hd).
      unfold MAXYEAR in *. cbn in L.
      assert (month d = 12) as E12 by lia.
      rewrite E12 in Hd.
      assert (_days_in_month (year d) 12 = 31) as E31.
      { unfold _days_in_month. cbn. reflexivity. }
      lia.
Qed.

Lemma month_day_table leapyear :
  forallb (month_day_ok leapyear) (map Z.of_nat (seq 0 365)) = true.
Proof. destruct leapyear; vm_compute; reflexivity. Qed.

Lemma month_day_spec leapyear n :
  0 <= n < 365 ->
  let '(m, d) := month_day leapyear n in
  1 <= m <= 12
  /\ 1 <= d <= (if (m =? 2) && leapyear then 29 else _DAYS_IN_MONTH m)
  /\ _DAYS_BEFORE_MONTH m + (if (2 <? m) && leapyear then 1 else 0) + d = n + 1.
Proof.
  intros Hn.
  pose proof (month_day_table leapyear) as T.
  rewrite forallb_forall in T.
  specialize (T n).
  assert (I : In n (map Z.of_nat (seq 0 365))).
  { apply in_map_iff. exists (Z.to_nat n). split; [lia|].
    apply in_seq. lia. }
  specialize (T I). unfold month_day_ok in T.
  destruct (month_day leapyear n) as [m d].
  rewrite !andb_true_iff, !Z.leb_le, Z.eqb_eq in T. lia.
Qed.

Lemma ord2ymd_unfold n :
  _ord2ymd n =
  let n0 := n - 1 in
  let n400 := n0 / 146097 in
  let r1 := n0 mod 146097 in
  let n100 := r1 / 36524 in
  let r2 := r1 mod 36524 in
  let n4 := r2 / 1461 in
  let r3 := r2 mod 1461 in
  let n1 := r3 / 365 in
  let r4 := r3 mod 365 in
  let y := n400 * 400 + 1 + (n100 * 100 + n4 * 4 + n1) in
  if (n1 =? 4) || (n100 =? 4) then mkDate (y - 1) 12 31
  else
    let leapyear := (n1 =? 3) && (negb (n4 =? 24) || (n100 =? 3)) in
    mkDate y (fst (month_day leapyear r4)) (snd (month_day leapyear r4)).
Proof.
  unfold _ord2ymd, month_day, _DI400Y, _DI100Y, _DI4Y. cbv zeta.
  destruct ((_ =? 4) || (_ =? 4)); [reflexivity|].
  destruct (_ <? _); reflexivity.
Qed.

(** [_ord2ymd] inverts [_ymd2ord] and returns a well-formed date. *)
Lemma ord2ymd_spec n :
  1 <= n ->
  exists d, _ord2ymd n = d
  /\ 1 <= year d /\ 1 <= month d <= 12
  /\ 1 <= day d <= _days_in_month (year d) (month d)
  /\ toordinal d = n.
Proof.
  intros Hn. eexists. split; [reflexivity|].
  rewrite ord2ymd_unfold. cbv zeta.
  set (n0 := n - 1).
  assert (H0 : 0 <= n0) by (unfold n0; lia).
  pose proof (Z.div_mod n0 146097 ltac:(lia)) as E1.
  pose proof (Z.mod_pos_bound n0 146097 ltac:(lia)) as B1.
  set (n400 := n0 / 146097) in *. set (r1 := n0 mod 146097) in *.
  assert (0 <= n400) by (apply Z.div_pos; lia).
  pose proof (Z.div_mod r1 36524 ltac:(lia)) as E2.
  pose proof (Z.mod_pos_bound r1 36524 ltac:(lia)) as B2.
  set (n100 := r1 / 36524) in *. set (r2 := r1 mod 36524) in *.
  assert (0 <= n100 <= 4) by lia.
  pose proof (Z.div_mod r2 1461 ltac:(lia)) as E3.
  pose proof (Z.mod_pos_bound r2 1461 ltac:(lia)) as B3.
  set (n4 := r2 / 1461) in *. set (r3 := r2 mod 1461) in *.
  assert (0 <= n4 <= 24) by lia.
  pose proof (Z.div_mod r3 365 ltac:(lia)) as E4.
  pose proof (Z.mod_pos_bound r3 365 ltac:(lia)) as B4.
  set (n1 := r3 / 365) in *. set (r4 := r3 mod 365) in *.
  assert (0 <= n1 <= 4) by lia.
  clearbody n400 r1 n100 r2 n4 r3 n1 r4.
  destruct ((n1 =? 4) || (n100 =? 4)) eqn:Sp.
  - (* the last day of a leap year *)
    apply orb_true_iff in Sp. rewrite !Z.eqb_eq in Sp.
    unfold toordinal, _ymd2ord, _days_before_month, _days_in_month; cbn -[Z.mul Z.add Z.sub Z.div Z.modulo _is_leap _days_before_year].
    assert (L : _is_leap (n400 * 400 + 1 + (n100 * 100 + n4 * 4 + n1) - 1) = true).
    { apply is_leap_spec. destruct Sp; zdiv. }
    rewrite L. unfold _days_before_year.
    repeat split; try lia; destruct Sp; zdiv.
  - apply orb_false_iff in Sp. rewrite !Z.eqb_neq in Sp.
    set (y := n400 * 400 + 1 + (n100 * 100 + n4 * 4 + n1)).
    set (leapyear := (n1 =? 3) && (negb (n4 =? 24) || (n100 =? 3))).
    assert (L : _is_leap y = leapyear).
    { unfold leapyear, y. apply eq_true_iff_eq.
      rewrite is_leap_spec, andb_true_iff, orb_true_iff, negb_true_iff,
        !Z.eqb_eq, Z.eqb_neq.
      split.
      - intros [A B]. split; [zdiv|].
        destruct (Z.eq_dec n4 24); [right|left; assumption].
        destruct B; zdiv.
      - intros [A B]. split; [zdiv|].
        destruct (Z.eq_dec n4 24); [right|left]; zdiv. }
    pose proof (month_day_spec leapyear r4 ltac:(lia)) as MD.
    destruct (month_day leapyear r4) as [m dd]. cbn [fst snd year month day].
    destruct MD as (Hm & Hd & Hs).
    unfold toordinal, _ymd2ord, _days_before_month, _days_in_month.
    cbn [year month day]. rewrite L.
    repeat split; try lia.
    assert (_days_before_year y = n0 - r4); [|unfold n0 in *; lia].
    unfold _days_before_year, y. zdiv.
Qed.

Lemma days_before_year_10000 : _days_before_year 10000 = 3652059.
Proof. reflexivity. Qed.

Lemma fromordinal_valid n :
  1 <= n <= _MAXORDINAL ->
  valid (fromordinal n) /\ toordinal (fromordinal n) = n.
Proof.
  intros [Hlo Hhi]. unfold fromordinal.
  destruct (ord2ymd_spec n Hlo) as (d & -> & Hy & Hm & Hd & Ho).
  split; [|exact Ho].
  assert (Hmax : year d <= 9999).
  { destruct (Z_le_gt_dec (year d) 9999) as [|Hgt]; [assumption|].
    exfalso.
    assert (3652059 <= _days_before_year (year d)).
    { destruct (Z.eq_dec (year d) 10000) as [->|].
      - rewrite days_before_year_10000. lia.
      - pose proof (days_before_year_mono 10000 (year d) ltac:(lia)) as M.
        pose proof (year_len_bounds 10000).
        rewrite days_before_year_10000 in M. lia. }
    pose proof (days_in_year (year d) _ Hm).
    unfold toordinal, _ymd2ord, _MAXORDINAL in *. lia. }
  unfold valid, MINYEAR, MAXYEAR. lia.
Qed.

Lemma fromordinal_toordinal d :
  valid d -> fromordinal (toordinal d) = d.
Proof.
  intros V. pose proof (toordinal_range d V) as R.
  destruct (fromordinal_valid _ R) as [V' E].
  apply toordinal_inj; assumption.
Qed.

(** [fromordinal] is strictly increasing. *)
Lemma fromordinal_lt a b :
  1 <= a -> a < b -> b <= _MAXORDINAL ->
  date_ltb (fromordinal a) (fromordinal b) = true.
Proof.
  intros Ha Hab Hb.
  destruct (fromordinal_valid a ltac:(lia)) as [Va Ea].
  destruct (fromordinal_valid b ltac:(lia)) as [Vb Eb].
  apply toordinal_lt_iff; [assumption..|]. lia.
Qed.

Lemma date_add_ok d x :
  valid d -> 1 <= toordinal d + x <= _MAXORDINAL ->
  date_add d (mkDelta x) = Ok (fromordinal (toordinal d + x)).
Proof.
  intros V R. unfold date_add. cbn [days].
  destruct (Z.ltb_spec 0 (toordinal d + x)); [|lia].
  destruct (Z.leb_spec (toordinal d + x) _MAXORDINAL); [|lia].
  reflexivity.
Qed.
End CalendarFacts.

(** ** Day strings *)

Module DateStrFacts.
Import PyStr Calendar CalendarFacts StrFacts.

(** [zfill] at the two widths [strftime] uses, digit by digit. *)
Lemma zfill_2 n :
  zfill 2 n = String (digit_char (n / 10 mod 10)) (String (digit_char (n mod 10)) "").
Proof. reflexivity. Qed.

Lemma zfill_4 n :
  zfill 4 n =
  String (digit_char (n / 10 / 10 / 10 mod 10))
    (String (digit_char (n / 10 / 10 mod 10))
       (String (digit_char (n / 10 mod 10))
          (String (digit_char (n mod 10)) ""))).
Proof. reflexivity. Qed.

Lemma is_digit_mod n : is_digit (digit_char (n mod 10)) = true.
Proof. apply is_digit_digit_char, Z.mod_pos_bound. lia. Qed.

Lemma is_valid_date_digits c1 c2 c3 c4 c5 c6 c7 c8 :
  is_digit c1 = true -> is_digit c2 = true -> is_digit c3 = true ->
  is_digit c4 = true -> is_digit c5 = true -> is_digit c6 = true ->
  is_digit c7 = true -> is_digit c8 = true ->
  is_valid_date
    (String c1 (String c2 (String c3 (String c4 (String "-"
      (String c5 (String c6 (String "-" (String c7 (String c8 "")))))))))) = true.
Proof.
  intros H1 H2 H3 H4 H5 H6 H7 H8.
  unfold is_valid_date, Re.re_match, date_pattern.
  cbn. rewrite H1. cbn. rewrite H2. cbn. rewrite H3. cbn. rewrite H4. cbn.
  rewrite H5. cbn. rewrite H6. cbn. rewrite H7. cbn. rewrite H8. cbn.
  reflexivity.
Qed.

(** Every date reads, in ISO form, the way [is_valid_date] accepts. *)
Lemma isoformat_valid d : is_valid_date (isoformat d) = true.
Proof.
  unfold isoformat. rewrite zfill_4, !zfill_2. cbn [String.append].
  apply is_valid_date_digits; apply is_digit_mod.
Qed.

Lemma isoformat_length d : String.length (isoformat d) = 10%nat.
Proof. reflexivity. Qed.

(** The ISO forms are ordered as the dates are. *)
Lemma isoformat_lt d1 d2 :
  valid d1 -> valid d2 -> date_ltb d1 d2 = true ->
  String.ltb (isoformat d1) (isoformat d2) = true.
Proof.
  intros (Hy1 & Hm1 & Hd1) (Hy2 & Hm2 & Hd2) Hlt.
  apply date_ltb_spec in Hlt.
  assert (B1 : day d1 <= 31).
  { pose proof (days_in_year (year d1) _ Hm1).
    revert Hd1. unfold _days_in_month.
    destruct (_ && _); [lia|]. each_month (month d1) Hm1; cbn; lia. }
  assert (B2 : day d2 <= 31).
  { revert Hd2. unfold _days_in_month.
    destruct (_ && _); [lia|]. each_month (month d2) Hm2; cbn; lia. }
  unfold MINYEAR, MAXYEAR in *.
  unfold String.ltb, isoformat.
  rewrite compare_app by (rewrite !length_zfill; reflexivity).
  destruct Hlt as [Hy | [Hy Hlt]].
  { rewrite (compare_zfill 4) by (cbn; lia). reflexivity. }
  rewrite Hy, compare_refl.
  rewrite (compare_app "-" "-") by reflexivity. cbn [String.compare Ascii.compare N.compare N_of_ascii N_of_digits Pos.compare Pos.compare_cont].
  change (String.compare "-" "-") with Eq. cbv iota.
  rewrite compare_app by (rewrite !length_zfill; reflexivity).
  destruct Hlt as [Hm | [Hm Hd]].
  { rewrite (compare_zfill 2) by (cbn; lia). reflexivity. }
  rewrite Hm, compare_refl.
  rewrite (compare_app "-" "-") by reflexivity.
  change (String.compare "-" "-") with Eq. cbv iota.
  rewrite (compare_zfill 2) by (cbn; lia). reflexivity.
Qed.

Lemma split_isoformat d :
  split "-" (isoformat d)
  = [zfill 4 (year d); zfill 2 (month d); zfill 2 (day d)].
Proof.
  unfold isoformat.
  assert (N : forall w n, contains "-" (zfill w n) = false).
  { intros. apply all_digits_contains; [reflexivity | apply all_digits_zfill]. }
  change (split "-" (zfill 4 (year d) +:+ String "-"
            (zfill 2 (month d) +:+ String "-" (zfill 2 (day d))))
          = [zfill 4 (year d); zfill 2 (month d); zfill 2 (day d)]).
  rewrite (split_app_sep "-" (zfill 4 (year d))) by apply N.
  rewrite (split_app_sep "-" (zfill 2 (month d))) by apply N.
  rewrite split_no_sep by apply N. reflexivity.
Qed.

(** The year as [%Y] prints it: four digits from 1000 on. *)
Lemma ndigits_4 fuel n : 1000 <= n <= 9999 -> ndigits (S (S (S fuel))) n = 4%nat.
Proof.
  intros H. cbn [ndigits].
  destruct (Z.ltb_spec n 10); [lia|].
  destruct (Z.ltb_spec (n / 10) 10); [zdiv|].
  destruct (Z.ltb_spec (n / 10 / 10) 10); [zdiv|].
  destruct fuel as [|fuel]; cbn [ndigits]; [reflexivity|].
  destruct (Z.ltb_spec (n / 10 / 10 / 10) 10); [reflexivity | zdiv].
Qed.

Lemma decimal_4 n : 1000 <= n <= 9999 -> decimal n = zfill 4 n.
Proof.
  intros H. unfold decimal.
  assert (L : 9 <= Z.log2 n).
  { change 9 with (Z.log2 1000). apply Z.log2_le_mono. lia. }
  destruct (Z.to_nat (Z.log2 n)) as [|[|[|fuel]]] eqn:E; try lia.
  rewrite ndigits_4 by assumption. reflexivity.
Qed.

(** From the year 1000 on, [strftime] gives the ISO form. *)
Lemma strftime_isoformat d :
  1000 <= year d <= 9999 -> strftime_Ymd d = isoformat d.
Proof.
  intros H. unfold strftime_Ymd, isoformat. rewrite decimal_4 by assumption.
  reflexivity.
Qed.

Lemma strftime_no_slash d : contains "/" (strftime_Ymd d) = false.
Proof.
  unfold strftime_Ymd, decimal.
  assert (N : forall w n, contains "/" (zfill w n) = false).
  { intros. apply all_digits_contains; [reflexivity | apply all_digits_zfill]. }
  rewrite !contains_app, !N. reflexivity.
Qed.

Lemma split_last_archive_url date :
  contains "/" date = false ->
  split_last "/" (archive_url date) = date.
Proof.
  intros H. unfold split_last, archive_url.
  change ("https://wiadomosci.onet.pl/archiwum/" +:+ date)
    with ("https:" +:+ String "/" ("" +:+ String "/"
            ("wiadomosci.onet.pl" +:+ String "/" ("archiwum" +:+ String "/" date)))).
  rewrite (split_app_sep "/" "https:") by reflexivity.
  rewrite (split_app_sep "/" "") by reflexivity.
  rewrite (split_app_sep "/" "wiadomosci.onet.pl") by reflexivity.
  rewrite (split_app_sep "/" "archiwum") by reflexivity.
  rewrite split_no_sep by assumption. reflexivity.
Qed.

Lemma year_digits d : valid d -> 0 <= year d < 10 ^ Z.of_nat 4.
Proof. intros (H & _). unfold MINYEAR, MAXYEAR in H. cbn. lia. Qed.

Lemma month_digits d : valid d -> 0 <= month d < 10 ^ Z.of_nat 2.
Proof. intros (_ & H & _). cbn. lia. Qed.

Lemma day_digits d : valid d -> 0 <= day d < 10 ^ Z.of_nat 2.
Proof.
  intros (_ & Hm & Hd). cbn. revert Hd. unfold _days_in_month.
  destruct (_ && _); [lia|]. each_month (month d) Hm; cbn; lia.
Qed.

Lemma new_date_valid d :
  valid d -> new_date (year d) (month d) (day d) = Ok d.
Proof.
  intros (Hy & Hm & Hd). unfold new_date.
  destruct (Z.leb_spec MINYEAR (year d)); [|lia].
  destruct (Z.leb_spec (year d) MAXYEAR); [|lia].
  destruct (Z.leb_spec 1 (month d)); [|lia].
  destruct (Z.leb_spec (month d) 12); [|lia].
  destruct (Z.leb_spec 1 (day d)); [|lia].
  destruct (Z.leb_spec (day d) (_days_in_month (year d) (month d))); [|lia].
  cbn. destruct d; reflexivity.
Qed.

(** Parsing the ISO form of a date gives the date back. *)
Lemma parse_isoformat d : valid d -> parse_date (isoformat d) = Ok d.
Proof.
  intros V. unfold parse_date. rewrite split_isoformat. cbn [rmap rbind].
  rewrite !int_zfill by
    (try apply year_digits; try apply month_digits; try apply day_digits;
     (assumption || lia)).
  cbn [rbind]. apply new_date_valid, V.
Qed.
End DateStrFacts.

(** ** The Date Range Expander *)

Section DateRange.
Import Calendar CalendarFacts DateStrFacts.

Lemma rmap_ok {A B} (f : A -> result B) (g : A -> B) (l : list A) :
  (forall x, In x l -> f x = Ok (g x)) -> rmap f l = Ok (map g l).
Proof.
  induction l as [|x l IH]; intros H; cbn; [reflexivity|].
  rewrite (H x (or_introl eq_refl)). cbn.
  rewrite IH by (intros y Hy; apply H; right; exact Hy). reflexivity.
Qed.

Lemma in_py_range x n : In x (py_range n) <-> 0 <= x < n.
Proof.
  unfold py_range. rewrite in_map_iff. split.
  - intros (k & <- & Hk). apply in_seq in Hk. lia.
  - intros H. exists (Z.to_nat x). split; [lia|]. apply in_seq. lia.
Qed.

Lemma py_range_nonpos n : n <= 0 -> py_range n = [].
Proof.
  intros H. unfold py_range.
  replace (Z.to_nat n) with O by lia. reflexivity.
Qed.

Lemma length_py_range n : 0 <= n -> Z.of_nat (length (py_range n)) = n.
Proof.
  intros H. unfold py_range. rewrite length_map, length_seq. lia.
Qed.

(** What the comprehension computes: no addition overflows. *)
Lemma date_list_eq start_date end_date :
  valid start_date -> valid end_date ->
  date_list start_date end_date
  = Ok (map (fun x => strftime_Ymd (day_at start_date x))
          (py_range (toordinal end_date - toordinal start_date + 1))).
Proof.
  intros Vs Ve. unfold date_list, date_sub. cbn [days].
  apply rmap_ok. intros x Hx. apply in_py_range in Hx.
  pose proof (toordinal_range _ Vs). pose proof (toordinal_range _ Ve).
  rewrite date_add_ok by (assumption || lia). unfold day_at. cbn [rbind]. reflexivity.
Qed.

Lemma sorted_map_seq {B} (R : B -> B -> Prop) (h : nat -> B) a k :
  (forall i j, (a <= i)%nat -> (i < j)%nat -> (j < a + k)%nat -> R (h i) (h j)) ->
  StronglySorted R (map h (seq a k)).
Proof.
  revert a. induction k as [|k IH]; intros a H; cbn; constructor.
  - apply IH. intros i j ? ? ?. apply H; lia.
  - apply List.Forall_forall. intros y Hy.
    apply in_map_iff in Hy as (j & <- & Hj). apply in_seq in Hj.
    apply H; lia.
Qed.

Lemma last_map_seq {B} (h : nat -> B) k :
  last (map h (seq 0 (S k))) = Some (h k).
Proof.
  rewrite seq_S, map_app. cbn. apply last_snoc.
Qed.

Lemma day_at_valid start_date end_date x :
  valid start_date -> valid end_date ->
  0 <= x <= toordinal end_date - toordinal start_date ->
  valid (day_at start_date x)
  /\ toordinal (day_at start_date x) = toordinal start_date + x.
Proof.
  intros Vs Ve Hx. unfold day_at.
  pose proof (toordinal_range _ Vs). pose proof (toordinal_range _ Ve).
  apply fromordinal_valid. lia.
Qed.
(** A later day is not in an earlier year. *)
Lemma year_mono d1 d2 :
  valid d1 -> valid d2 -> toordinal d1 <= toordinal d2 -> year d1 <= year d2.
Proof.
  intros V1 V2 H.
  destruct (Z_le_gt_dec (year d1) (year d2)) as [|G]; [assumption|].
  assert (L : date_ltb d2 d1 = true) by (apply date_ltb_spec; lia).
  apply (toordinal_lt_iff _ _ V2 V1) in L. lia.
Qed.

(** The days of the range, as dates. *)
Lemma days_of_range start_date end_date :
  valid start_date -> valid end_date ->
  toordinal start_date <= toordinal end_date ->
  let ds := map (day_at start_date)
              (py_range (toordinal end_date - toordinal start_date + 1)) in
  Forall (fun d => valid d /\ year start_date <= year d) ds
  /\ StronglySorted (fun a b => date_ltb a b = true) ds
  /\ head ds = Some start_date
  /\ last ds = Some end_date.
Proof.
  intros Vs Ve Hord. cbv zeta.
  set (n := toordinal end_date - toordinal start_date) in *.
  split; [|split; [|split]].
  - apply List.Forall_forall. intros d Hd.
    apply in_map_iff in Hd as (k & <- & Hk). apply in_py_range in Hk.
    assert (Hk' : 0 <= k <= n) by lia.
    destruct (day_at_valid start_date end_date k Vs Ve Hk') as [V O].
    split; [exact V|]. apply year_mono; [assumption..|]. lia.
  - unfold py_range. rewrite map_map. apply sorted_map_seq.
    intros i j _ Hij Hj.
    assert (Hi' : 0 <= Z.of_nat i <= n) by lia.
    assert (Hj' : 0 <= Z.of_nat j <= n) by lia.
    destruct (day_at_valid start_date end_date _ Vs Ve Hi') as [Vi Oi].
    destruct (day_at_valid start_date end_date _ Vs Ve Hj') as [Vj Oj].
    apply toordinal_lt_iff; [assumption..|]. lia.
  - unfold py_range. replace (Z.to_nat (n + 1)) with (S (Z.to_nat n)) by lia.
    cbn. unfold day_at. rewrite Z.add_0_r.
    rewrite fromordinal_toordinal by assumption. reflexivity.
  - unfold py_range. replace (Z.to_nat (n + 1)) with (S (Z.to_nat n)) by lia.
    rewrite map_map, last_map_seq. unfold day_at.
    replace (toordinal start_date + Z.of_nat (Z.to_nat n))
      with (toordinal end_date) by lia.
    rewrite fromordinal_toordinal by assumption. reflexivity.
Qed.

Lemma sorted_map {A B} (R : A -> A -> Prop) (R' : B -> B -> Prop) (f : A -> B)
    (P : A -> Prop) (l : list A) :
  (forall a b, P a -> P b -> R a b -> R' (f a) (f b)) ->
  Forall P l -> StronglySorted R l -> StronglySorted R' (map f l).
Proof.
  intros H HP HS. induction HS as [|a l HS IH Ha]; cbn; constructor.
  - apply IH. inversion HP; assumption.
  - inversion HP as [|? ? Pa Pl]; subst.
    rewrite List.Forall_forall in *. intros y Hy.
    apply in_map_iff in Hy as (b & <- & Hb). apply H; auto.
Qed.
End DateRange.

(** C2 (amended): for two calendar dates with [start_date <= end_date],
    the list of day strings is computed without error; it is the list of
    the [strftime] forms of [(end_date - start_date).days + 1] calendar
    dates, strictly increasing, the first being the start date and the last
    the end date.  When the start year is 1000 or later, every string
    matches the YYYY-MM-DD pattern, is the ISO form of its date, and the
    strings are strictly increasing as strings.  For
    [end_date < start_date] the list is empty, again without error. *)
Theorem C2_date_range (start_date end_date : Calendar.date) :
  Calendar.valid_date start_date = true ->
  Calendar.valid_date end_date = true ->
  (Calendar.date_leb start_date end_date = true ->
   exists (l : list string) (ds : list Calendar.date),
     date_list start_date end_date = Ok l
     /\ l = map Calendar.strftime_Ymd ds
     /\ Z.of_nat (length l)
        = Calendar.days (Calendar.date_sub end_date start_date) + 1
     /\ Forall (fun d => Calendar.valid_date d = true) ds
     /\ StronglySorted (fun a b => Calendar.date_ltb a b = true) ds
     /\ head ds = Some start_date
     /\ last ds = Some end_date
     /\ (1000 <= Calendar.year start_date ->
         Forall (fun x => is_valid_date x = true) l
         /\ l = map Calendar.isoformat ds
         /\ StronglySorted str_lt l))
  /\ (Calendar.date_ltb end_date start_date = true ->
      date_list start_date end_date = Ok []).
Proof.
  intros Vs Ve.
  apply CalendarFacts.valid_date_spec in Vs, Ve.
  pose proof (date_list_eq _ _ Vs Ve) as E.
  split.
  - intros Hle. unfold Calendar.date_leb in Hle. apply negb_true_iff in Hle.
    assert (Hord : Calendar.toordinal start_date <= Calendar.toordinal end_date).
    { destruct (Z_le_gt_dec (Calendar.toordinal start_date)
                            (Calendar.toordinal end_date)) as [|G]; [assumption|].
      apply Z.gt_lt, (CalendarFacts.toordinal_lt_iff _ _ Ve Vs) in G. congruence. }
    destruct (days_of_range start_date end_date Vs Ve Hord) as (HV & HS & Hh & Hl).
    set (n := Calendar.toordinal end_date - Calendar.toordinal start_date) in *.
    set (ds := map (Calendar.day_at start_date) (py_range (n + 1))) in *.
    assert (Iso : 1000 <= Calendar.year start_date ->
                  map Calendar.strftime_Ymd ds = map Calendar.isoformat ds).
    { intros Hy. apply map_ext_in. intros d Hd.
      rewrite List.Forall_forall in HV. destruct (HV d Hd) as [(Y & _) Hge].
      unfold Calendar.MINYEAR, Calendar.MAXYEAR in Y.
      apply DateStrFacts.strftime_isoformat. lia. }
    exists (map Calendar.strftime_Ymd ds), ds.
    split; [rewrite E; unfold ds; rewrite map_map; reflexivity|].
    split; [reflexivity|].
    split; [|split; [|split; [|split; [|split]]]].
    + unfold ds. rewrite !length_map. cbn [Calendar.date_sub Calendar.days]. fold n.
      apply length_py_range. lia.
    + eapply List.Forall_impl; [|exact HV]. cbn. intros d [V _].
      apply CalendarFacts.valid_date_spec, V.
    + exact HS.
    + exact Hh.
    + exact Hl.
    + intros Hy. rewrite (Iso Hy). split; [|split; [reflexivity|]].
      * apply List.Forall_forall. intros x Hx.
        apply in_map_iff in Hx as (d & <- & _). apply DateStrFacts.isoformat_valid.
      * apply (sorted_map (fun a b => Calendar.date_ltb a b = true) str_lt
                 Calendar.isoformat
                 (fun d => Calendar.valid d
                           /\ Calendar.year start_date <= Calendar.year d));
          [|exact HV|exact HS].
        intros a b [Va _] [Vb _] Hab. apply DateStrFacts.isoformat_lt; assumption.
  - intros Hlt.
    apply (CalendarFacts.toordinal_lt_iff _ _ Ve Vs) in Hlt.
    rewrite E, py_range_nonpos by lia. reflexivity.
Qed.

(** The range from 2024-02-27 to 2024-03-01 crosses a leap day. *)
Lemma C2_date_range_witness :
  (exists (l : list string) (ds : list Calendar.date),
     date_list (Calendar.mkDate 2024 2 27) (Calendar.mkDate 2024 3 1) = Ok l
     /\ l = map Calendar.strftime_Ymd ds
     /\ Z.of_nat (length l) = 4
     /\ head ds = Some (Calendar.mkDate 2024 2 27)
     /\ last ds = Some (Calendar.mkDate 2024 3 1)
     /\ Forall (fun x => is_valid_date x = true) l
     /\ StronglySorted str_lt l)
  /\ date_list (Calendar.mkDate 2024 3 1) (Calendar.mkDate 2024 2 27) = Ok [].
Proof.
  destruct (C2_date_range (Calendar.mkDate 2024 2 27) (Calendar.mkDate 2024 3 1)
              eq_refl eq_refl) as [H _].
  destruct (C2_date_range (Calendar.mkDate 2024 3 1) (Calendar.mkDate 2024 2 27)
              eq_refl eq_refl) as [_ H'].
  split; [|exact (H' eq_refl)].
  destruct (H eq_refl) as (l & ds & E & El & Hlen & _ & _ & Hh & Hl & Hy).
  assert (Y : 1000 <= Calendar.year (Calendar.mkDate 2024 2 27)) by (cbn; lia).
  destruct (Hy Y) as (Hv & _ & Hs).
  exists l, ds. repeat split; assumption.
Defined.

(** C2 as stated fails below the year 1000: [%Y] prints the year without
    leading zeros, so the entry for 999-12-31 has nine characters, does
    not match the YYYY-MM-DD pattern, and sorts after the entry of the
    next day. *)
Lemma C2_counterexample :
  Calendar.valid_date (Calendar.mkDate 999 12 31) = true
  /\ Calendar.valid_date (Calendar.mkDate 1000 1 1) = true
  /\ date_list (Calendar.mkDate 999 12 31) (Calendar.mkDate 1000 1 1)
     = Ok ["999-12-31"; "1000-01-01"]
  /\ is_valid_date "999-12-31" = false
  /\ ~ str_lt "999-12-31" "1000-01-01".
Proof.
  split; [reflexivity|]. split; [reflexivity|].
  split; [vm_compute; reflexivity|]. split; [reflexivity|].
  unfold str_lt. vm_compute. discriminate.
Qed.


(** ** The Archive Fetcher *)

Section Fetcher.
Variable w : World.
Variable headers : list (string * string).

Lemma rmap_length {A B} (f : A -> result B) (l : list A) (l' : list B) :
  rmap f l = Ok l' -> length l' = length l.
Proof.
  revert l'. induction l as [|x l IH]; intros l' H; cbn in H.
  - injection H as <-. reflexivity.
  - destruct (f x); [|discriminate]. cbn in H.
    destruct (rmap f l) as [ys|]; [|discriminate]. cbn in H.
    injection H as <-. cbn. f_equal. apply IH. reflexivity.
Qed.

(** The iteration for a page that cannot be fetched: the handler logs
    and the loop variables are left as they were. *)
Lemma body_fetch_raises loc url s e :
  http_get w (length (requests s)) (archive_request headers url) = Raise e ->
  is_RequestException e = true ->
  get_metadata_body w headers loc url s
  = (Ok loc,
     add_log ERROR ("Error fetching URL " +:+ url +:+ ". Error: " +:+ exn_msg e)
       (add_request (archive_request headers url) s)).
Proof.
  intros H He. unfold get_metadata_body, bind, try_except, requests_get.
  rewrite H, He. reflexivity.
Qed.

Lemma body_status_raises loc url s r :
  http_get w (length (requests s)) (archive_request headers url) = Ok r ->
  400 <= status_code r < 600 ->
  exists e,
    raise_for_status url r = Raise e /\
    get_metadata_body w headers loc url s
    = (Ok loc,
       add_log ERROR ("Error fetching URL " +:+ url +:+ ". Error: " +:+ exn_msg e)
         (add_request (archive_request headers url) s)).
Proof.
  intros H Hs.
  assert (R : exists e, raise_for_status url r = Raise e
                        /\ is_RequestException e = true).
  { unfold raise_for_status.
    destruct (Z.leb_spec 400 (status_code r)); [|lia].
    destruct (Z.ltb_spec (status_code r) 500); cbn.
    - eexists; split; reflexivity.
    - destruct (Z.leb_spec 500 (status_code r)); [|lia].
      destruct (Z.ltb_spec (status_code r) 600); [|lia]. cbn.
      eexists; split; reflexivity. }
  destruct R as (e & R & He). exists e. split; [exact R|].
  unfold get_metadata_body, bind, try_except, requests_get, lift.
  rewrite H, R, He. reflexivity.
Qed.

(** The iteration for a page that is fetched and parsed. *)
Lemma body_fetched loc url s r content :
  http_get w (length (requests s)) (archive_request headers url) = Ok r ->
  raise_for_status url r = Ok tt ->
  parsed r = Ok content ->
  get_metadata_body w headers loc url s
  = match find_dayInArchive content with
    | None =>
        (Raise (mkExn AttributeError "'NoneType' object has no attribute 'find_all'"),
         add_request (archive_request headers url) s)
    | Some day =>
        match rmap contents0_strip (find_all_itemTime day) with
        | Raise e => (Raise e, add_request (archive_request headers url) s)
        | Ok new_times =>
            match rmap title_item (find_all_itemTitle day) with
            | Raise e => (Raise e, add_request (archive_request headers url) s)
            | Ok new_items =>
                let times := times loc ++ new_times in
                let urls := urls loc ++ map fst new_items in
                let titles := titles loc ++ map snd new_items in
                (Ok (mkLocals times urls titles
                       (concat (result_df loc)
                          (frame_of_tuples
                             (zip4 (repeat (PyStr.split_last "/" url) (length titles))
                                times urls titles)
                             metadata_columns))),
                 add_request (archive_request headers url) s)
            end
        end
    end.
Proof.
  intros H Hs Hp.
  unfold get_metadata_body, bind, try_except, requests_get, lift, throw, ret.
  rewrite H, Hs, Hp.
  destruct (find_dayInArchive content) as [day|]; [|reflexivity].
  destruct (rmap contents0_strip _); [|reflexivity].
  destruct (rmap title_item _); reflexivity.
Qed.

Lemma for_each_cons {A L} (x : A) (l : list A) (f : L -> A -> M L) loc s :
  for_each (x :: l) f loc s
  = match f loc x s with
    | (Ok loc', s') => for_each l f loc' s'
    | (Raise e, s') => (Raise e, s')
    end.
Proof. reflexivity. Qed.

Lemma raise_for_status_passes url r :
  ~ (400 <= status_code r < 600) -> raise_for_status url r = Ok tt.
Proof.
  intros H. unfold raise_for_status.
  destruct (Z.leb_spec 400 (status_code r)), (Z.ltb_spec (status_code r) 500),
    (Z.leb_spec 500 (status_code r)), (Z.ltb_spec (status_code r) 600);
    cbn; try reflexivity; lia.
Qed.

(** The iteration for an answer whose status passes: only the parsed body
    counts. *)
Lemma body_passed loc url s r :
  http_get w (length (requests s)) (archive_request headers url) = Ok r ->
  raise_for_status url r = Ok tt ->
  get_metadata_body w headers loc url s
  = match parsed r with
    | Raise e => (Raise e, add_request (archive_request headers url) s)
    | Ok content =>
        match find_dayInArchive content with
        | None =>
            (Raise (mkExn AttributeError
                      "'NoneType' object has no attribute 'find_all'"),
             add_request (archive_request headers url) s)
        | Some day =>
            match rmap contents0_strip (find_all_itemTime day) with
            | Raise e => (Raise e, add_request (archive_request headers url) s)
            | Ok new_times =>
                match rmap title_item (find_all_itemTitle day) with
                | Raise e => (Raise e, add_request (archive_request headers url) s)
                | Ok new_items =>
                    let times := times loc ++ new_times in
                    let urls := urls loc ++ map fst new_items in
                    let titles := titles loc ++ map snd new_items in
                    (Ok (mkLocals times urls titles
                           (concat (result_df loc)
                              (frame_of_tuples
                                 (zip4 (repeat (PyStr.split_last "/" url)
                                          (length titles))
                                    times urls titles)
                                 metadata_columns))),
                     add_request (archive_request headers url) s)
                end
            end
        end
    end.
Proof.
  intros H Hs.
  destruct (parsed r) as [content|e] eqn:Hp.
  - apply (body_fetched loc url s r content H Hs Hp).
  - unfold get_metadata_body, bind, try_except, requests_get, lift, throw, ret.
    rewrite H, Hs, Hp. reflexivity.
Qed.
End Fetcher.

(** C4 (amended): when the request for a day's archive page raises a
    [requests] exception, or is answered with a 4xx or 5xx status, the
    iteration ends normally with the loop variables (and so the table) as
    they were: the day contributes no row.  Exactly one record is added to
    the log, an error naming the URL; one request was issued, no file is
    touched, and the loop goes on with the remaining days.  An answer with
    any other status is handled as the answer with status 200 and the same
    parsed body would be, and nothing is logged for it. *)
Theorem C4_failed_fetch_is_skipped (w : World) (headers : list (string * string))
    (loc : locals) (url : string) (rest : list string) (s : state) :
  ((exists e,
      http_get w (length (requests s)) (archive_request headers url) = Raise e
      /\ is_RequestException e = true)
   \/ (exists r,
         http_get w (length (requests s)) (archive_request headers url) = Ok r
         /\ 400 <= status_code r < 600) ->
   exists e s',
     get_metadata_body w headers loc url s = (Ok loc, s')
     /\ log s'
        = log s ++ [(ERROR, "Error fetching URL " +:+ url +:+ ". Error: "
                            +:+ exn_msg e)]
     /\ requests s' = requests s ++ [archive_request headers url]
     /\ files s' = files s
     /\ for_each (url :: rest) (get_metadata_body w headers) loc s
        = for_each rest (get_metadata_body w headers) loc s')
  /\ (forall r,
        http_get w (length (requests s)) (archive_request headers url) = Ok r ->
        ~ (400 <= status_code r < 600) ->
        log (snd (get_metadata_body w headers loc url s)) = log s
        /\ forall (w' : World) (r' : Response),
             http_get w' (length (requests s)) (archive_request headers url)
             = Ok r' ->
             status_code r' = 200 ->
             parsed r' = parsed r ->
             get_metadata_body w headers loc url s
             = get_metadata_body w' headers loc url s).
Proof.
  split.
  - intros F.
    assert (E : exists e,
               get_metadata_body w headers loc url s
               = (Ok loc,
                  add_log ERROR
                    ("Error fetching URL " +:+ url +:+ ". Error: " +:+ exn_msg e)
                    (add_request (archive_request headers url) s))).
    { destruct F as [(e & H & He) | (r & H & Hs)].
      - exists e. apply (body_fetch_raises w headers loc url s e H He).
      - destruct (body_status_raises w headers loc url s r H Hs) as (e & _ & E).
        exists e. exact E. }
    destruct E as (e & E). exists e. eexists.
    split; [exact E|]. split; [reflexivity|]. split; [reflexivity|].
    split; [reflexivity|]. rewrite for_each_cons, E. reflexivity.
  - intros r H Hs.
    pose proof (raise_for_status_passes url r Hs) as P.
    split.
    + rewrite (body_passed w headers loc url s r H P).
      destruct (parsed r) as [content|e]; [|reflexivity].
      destruct (find_dayInArchive content) as [day|]; [|reflexivity].
      destruct (rmap contents0_strip _); [|reflexivity].
      destruct (rmap title_item _); reflexivity.
    + intros w' r' H' Hs' Hp.
      assert (P' : raise_for_status url r' = Ok tt).
      { apply raise_for_status_passes. lia. }
      rewrite (body_passed w headers loc url s r H P).
      rewrite (body_passed w' headers loc url s r' H' P'), Hp. reflexivity.
Qed.

(** A first day answered with 404, then a second day; and a day answered
    with 300, which is handled as the same page with status 200. *)
Lemma C4_failed_fetch_is_skipped_witness :
  let page := archive_page [("10:00", "https://x/art-1", "T")] in
  let w := table_world [(archive_url "2024-01-01", Ok (mkResponse 404 (Ok page)));
                        (archive_url "2024-01-03", Ok (mkResponse 300 (Ok page)))] in
  let w' := table_world [(archive_url "2024-01-03", ok_page page)] in
  let loc := mkLocals [] [] [] empty_frame in
  let url := archive_url "2024-01-01" in
  let url3 := archive_url "2024-01-03" in
  (exists e s',
     get_metadata_body w user_agent loc url initial_state = (Ok loc, s')
     /\ log s'
        = log initial_state
          ++ [(ERROR, "Error fetching URL " +:+ url +:+ ". Error: " +:+ exn_msg e)]
     /\ requests s' = requests initial_state ++ [archive_request user_agent url]
     /\ files s' = files initial_state
     /\ for_each [url; archive_url "2024-01-02"] (get_metadata_body w user_agent)
          loc initial_state
        = for_each [archive_url "2024-01-02"] (get_metadata_body w user_agent)
            loc s')
  /\ log (snd (get_metadata_body w user_agent loc url3 initial_state))
     = log initial_state
  /\ get_metadata_body w user_agent loc url3 initial_state
     = get_metadata_body w' user_agent loc url3 initial_state.
Proof.
  cbv zeta.
  set (page := archive_page [("10:00", "https://x/art-1", "T")]).
  set (w := table_world
              [(archive_url "2024-01-01", Ok (mkResponse 404 (Ok page)));
               (archive_url "2024-01-03", Ok (mkResponse 300 (Ok page)))]).
  set (loc := mkLocals [] [] [] empty_frame).
  split.
  - destruct (C4_failed_fetch_is_skipped w user_agent loc (archive_url "2024-01-01")
                [archive_url "2024-01-02"] initial_state) as [H _].
    apply H. right. exists (mkResponse 404 (Ok page)).
    split; [reflexivity|]. cbn. lia.
  - destruct (C4_failed_fetch_is_skipped w user_agent loc (archive_url "2024-01-03")
                [] initial_state) as [_ H].
    assert (N : ~ (400 <= status_code (mkResponse 300 (Ok page)) < 600))
      by (cbn; lia).
    destruct (H (mkResponse 300 (Ok page)) eq_refl N) as [L E].
    split; [exact L|].
    apply (E (table_world [(archive_url "2024-01-03", ok_page page)])
             (mkResponse 200 (Ok page)) eq_refl eq_refl eq_refl).
Defined.

(** C4 as stated fails for a status outside 2xx that is no error status: a
    page answered with 300 (which [requests] does not follow and whose
    body is read) is parsed like any other, contributes its row and
    nothing is logged. *)
Lemma C4_counterexample :
  let d := Calendar.mkDate 2024 1 1 in
  let w := table_world
             [(archive_url "2024-01-01",
               Ok (mkResponse 300
                     (Ok (archive_page [("10:00", "https://x/art-1", "T")]))))] in
  exists r df s',
    http_get w 0 (archive_request user_agent (archive_url "2024-01-01")) = Ok r
    /\ ~ (200 <= status_code r < 300)
    /\ no_body (status_code r) = false
    /\ get_metadata w d d user_agent initial_state = (Ok df, s')
    /\ rows df = [[Some "2024-01-01"; Some "10:00"; Some "https://x/art-1"; Some "T"]]
    /\ log s' = [].
Proof.
  cbv zeta. eexists. eexists. eexists.
  split; [reflexivity|]. split; [cbn; lia|]. split; [reflexivity|].
  split; [vm_compute; reflexivity|]. split; reflexivity.
Qed.

(** An answer with status 304 carries no body, whatever the server sent:
    the parsed page has no day container and the run aborts. *)
Example not_modified_has_no_body :
  let d := Calendar.mkDate 2024 1 1 in
  let w := table_world
             [(archive_url "2024-01-01",
               Ok (mkResponse 304
                     (Ok (archive_page [("10:00", "https://x/art-1", "T")]))))] in
  fst (get_metadata w d d user_agent initial_state)
  = Raise (mkExn AttributeError "'NoneType' object has no attribute 'find_all'").
Proof. vm_compute. reflexivity. Qed.

(** C3: when a fetched page has no day container, the iteration raises
    [AttributeError]: nothing is logged, the exception leaves the loop and
    the remaining days are never requested. *)
Theorem C3_missing_container_raises (w : World) (headers : list (string * string))
    (loc : locals) (url : string) (rest : list string) (s : state)
    (r : Response) (content : Soup) :
  http_get w (length (requests s)) (archive_request headers url) = Ok r ->
  raise_for_status url r = Ok tt ->
  parsed r = Ok content ->
  find_dayInArchive content = None ->
  for_each (url :: rest) (get_metadata_body w headers) loc s
  = (Raise (mkExn AttributeError "'NoneType' object has no attribute 'find_all'"),
     add_request (archive_request headers url) s).
Proof.
  intros H Hs Hp Hc.
  rewrite for_each_cons, (body_fetched w headers loc url s r content H Hs Hp), Hc.
  reflexivity.
Qed.

Lemma C3_missing_container_raises_witness :
  let w := table_world
             [(archive_url "2024-01-01", ok_page bare_page);
              (archive_url "2024-01-02",
               ok_page (archive_page [("11:00", "https://x/art-2", "U")]))] in
  let url := archive_url "2024-01-01" in
  http_get w (length (requests initial_state)) (archive_request user_agent url)
  = ok_page bare_page
  /\ raise_for_status url (mkResponse 200 (Ok bare_page)) = Ok tt
  /\ find_dayInArchive bare_page = None
  /\ for_each [url; archive_url "2024-01-02"] (get_metadata_body w user_agent)
       (mkLocals [] [] [] empty_frame) initial_state
     = (Raise (mkExn AttributeError "'NoneType' object has no attribute 'find_all'"),
        add_request (archive_request user_agent url) initial_state).
Proof.
  cbv zeta. split; [reflexivity|]. split; [reflexivity|]. split; [reflexivity|].
  apply (C3_missing_container_raises _ user_agent _ _ _ initial_state
           (mkResponse 200 (Ok bare_page)) bare_page); reflexivity.
Defined.

(** The same input through the whole program: the exception is not caught
    anywhere, so the process ends before any file is written, although the
    second day's page is fine. *)
Example missing_container_aborts_run :
  let w := table_world
             [(archive_url "2024-01-01", ok_page bare_page);
              (archive_url "2024-01-02",
               ok_page (archive_page [("11:00", "https://x/art-2", "U")]))] in
  let run := main w (mkArgs "2024-01-01" "2024-01-02" "out") initial_state in
  fst run = Raise (mkExn AttributeError "'NoneType' object has no attribute 'find_all'")
  /\ map req_url (requests (snd run)) = [archive_url "2024-01-01"]
  /\ files (snd run) = ∅
  /\ log (snd run)
     = [(INFO, "Starting metadata scraping for dates: 2024-01-01 to 2024-01-02")].
Proof. vm_compute. repeat split; reflexivity. Qed.

(** *** One successful day *)

Section OneDay.
Import Calendar CalendarFacts DateStrFacts.

Lemma date_list_single d :
  valid d -> date_list d d = Ok [strftime_Ymd d].
Proof.
  intros V. rewrite (date_list_eq d d V V).
  replace (toordinal d - toordinal d + 1) with 1 by lia.
  change (py_range 1) with [0]. cbn [map].
  unfold day_at. rewrite Z.add_0_r, fromordinal_toordinal by assumption.
  reflexivity.
Qed.

Lemma zip4_rows a b c d :
  Forall (fun t => length t = 4%nat) (zip4 a b c d).
Proof.
  revert b c d. induction a as [|x a IH]; intros [|y b] [|z c] [|t d]; cbn;
    constructor; [reflexivity | apply IH].
Qed.

Lemma zip4_length a b c d :
  length (zip4 a b c d)
  = Nat.min (Nat.min (length a) (length b)) (Nat.min (length c) (length d)).
Proof.
  revert b c d. induction a as [|x a IH]; intros [|y b] [|z c] [|t d]; cbn;
    try reflexivity; try lia.
  rewrite IH. reflexivity.
Qed.

Lemma zip4_tagged tag n b c d :
  Forall (fun t => head t = Some tag) (zip4 (repeat tag n) b c d).
Proof.
  revert b c d. induction n as [|n IH]; intros [|y b] [|z c] [|t d]; cbn;
    constructor; [reflexivity | apply IH].
Qed.

(** Appending to the empty table gives the appended table. *)
Lemma concat_empty_frame tuples :
  Forall (fun t => length t = 4%nat) tuples ->
  concat empty_frame (frame_of_tuples tuples metadata_columns)
  = frame_of_tuples tuples metadata_columns.
Proof.
  intros H. unfold concat, frame_of_tuples. cbn [columns rows empty_frame map app].
  f_equal. induction H as [|t tuples Ht _ IH]; [reflexivity|].
  cbn [map]. rewrite IH. f_equal.
  destruct t as [|a [|b [|c [|e [|]]]]]; try discriminate Ht. reflexivity.
Qed.
End OneDay.

(** The run over a single day whose page is fetched: one request, and the
    table is the [zip] of the day's lists under the day's date. *)
Lemma single_day_run (w : World) (headers : list (string * string))
    (d : Calendar.date) (s : state) (r : Response) (content : Soup)
    (day : DayTag) (new_times : list string) (new_items : list (string * string)) :
  Calendar.valid d ->
  http_get w (length (requests s))
    (archive_request headers (archive_url (Calendar.strftime_Ymd d))) = Ok r ->
  raise_for_status (archive_url (Calendar.strftime_Ymd d)) r = Ok tt ->
  parsed r = Ok content ->
  find_dayInArchive content = Some day ->
  rmap contents0_strip (find_all_itemTime day) = Ok new_times ->
  rmap title_item (find_all_itemTitle day) = Ok new_items ->
  get_metadata w d d headers s
  = (Ok (frame_of_tuples
           (zip4 (repeat (Calendar.strftime_Ymd d) (length new_items))
              new_times (map fst new_items) (map snd new_items))
           metadata_columns),
     add_request
       (archive_request headers (archive_url (Calendar.strftime_Ymd d))) s).
Proof.
  intros V H Hs Hp Hc Ht Hi.
  set (date := Calendar.strftime_Ymd d) in *.
  unfold get_metadata, bind, lift. rewrite (date_list_single d V).
  cbn [map]. fold date. rewrite for_each_cons.
  rewrite (body_fetched w headers _ _ s r content H Hs Hp), Hc, Ht, Hi.
  cbv zeta. cbn [for_each ret times urls titles result_df app].
  unfold ret. cbn [result_df].
  rewrite (DateStrFacts.split_last_archive_url date)
    by apply DateStrFacts.strftime_no_slash.
  rewrite concat_empty_frame by apply zip4_rows.
  rewrite length_map. reflexivity.
Qed.

(** C10: on a run over a single day whose page is fetched and holds T
    time items and U title items, [get_metadata] returns without raising
    and without logging; the table is the [zip] of the day's columns, so
    it has [min T U] rows, all tagged with the day. *)
Theorem C10_single_day_zip_truncates (w : World) (headers : list (string * string))
    (d : Calendar.date) (s : state) (r : Response) (content : Soup)
    (day : DayTag) (new_times : list string) (new_items : list (string * string)) :
  Calendar.valid_date d = true ->
  http_get w (length (requests s))
    (archive_request headers (archive_url (Calendar.strftime_Ymd d))) = Ok r ->
  raise_for_status (archive_url (Calendar.strftime_Ymd d)) r = Ok tt ->
  parsed r = Ok content ->
  find_dayInArchive content = Some day ->
  rmap contents0_strip (find_all_itemTime day) = Ok new_times ->
  rmap title_item (find_all_itemTitle day) = Ok new_items ->
  exists df s',
    get_metadata w d d headers s = (Ok df, s')
    /\ log s' = log s
    /\ columns df = metadata_columns
    /\ rows df
       = map (map Some)
           (zip4 (repeat (Calendar.strftime_Ymd d) (length new_items))
              new_times (map fst new_items) (map snd new_items))
    /\ length (rows df)
       = Nat.min (length (find_all_itemTime day)) (length (find_all_itemTitle day))
    /\ Forall (fun row => head row = Some (Some (Calendar.strftime_Ymd d))) (rows df).
Proof.
  intros V H Hs Hp Hc Ht Hi.
  apply CalendarFacts.valid_date_spec in V.
  set (date := Calendar.strftime_Ymd d) in *.
  pose proof (rmap_length _ _ _ Ht) as Lt.
  pose proof (rmap_length _ _ _ Hi) as Li.
  eexists. eexists. split.
  { apply (single_day_run w headers d s r content day new_times new_items);
      assumption. }
  split; [reflexivity|]. split; [reflexivity|].
  cbn [rows frame_of_tuples]. rewrite !length_map.
  split; [reflexivity|]. split.
  - rewrite zip4_length, !length_map, repeat_length. lia.
  - apply List.Forall_forall. intros row Hrow.
    apply in_map_iff in Hrow as (t & <- & Hin).
    pose proof (zip4_tagged date (length new_items) new_times
                  (map fst new_items) (map snd new_items)) as T.
    rewrite List.Forall_forall in T. specialize (T t Hin).
    destruct t; [discriminate|]. cbn in *. congruence.
Qed.

(** A page with three time items and two title items. *)
Lemma C10_single_day_zip_truncates_witness :
  let day := mkDayTag [mkTimeTag (Ok "10:00"); mkTimeTag (Ok "11:00");
                       mkTimeTag (Ok "12:00")]
                      [mkTitleTag (Ok "https://x/a") (Ok "A");
                       mkTitleTag (Ok "https://x/b") (Ok "B")] in
  let w := table_world
             [(archive_url "2024-01-01", ok_page (mkSoup (Some day) None []))] in
  Calendar.valid_date (Calendar.mkDate 2024 1 1) = true
  /\ exists df s',
       get_metadata w (Calendar.mkDate 2024 1 1) (Calendar.mkDate 2024 1 1)
         user_agent initial_state = (Ok df, s')
       /\ log s' = []
       /\ length (rows df) = 2%nat.
Proof.
  cbv zeta. split; [reflexivity|].
  destruct (C10_single_day_zip_truncates
              (table_world
                 [(archive_url "2024-01-01",
                   ok_page (mkSoup
                     (Some (mkDayTag
                        [mkTimeTag (Ok "10:00"); mkTimeTag (Ok "11:00");
                         mkTimeTag (Ok "12:00")]
                        [mkTitleTag (Ok "https://x/a") (Ok "A");
                         mkTitleTag (Ok "https://x/b") (Ok "B")]))
                     None []))])
              user_agent (Calendar.mkDate 2024 1 1) initial_state
              _ _ _ _ _
              eq_refl eq_refl eq_refl eq_refl eq_refl eq_refl eq_refl)
    as (df & s' & E & Hlog & _ & _ & Hlen & _).
  exists df, s'. split; [exact E|]. split; [exact Hlog | exact Hlen].
Defined.

Lemma zip4_items (date : string) (items : list (string * string * string)) :
  zip4 (repeat date (length items)) (map (fun i => fst (fst i)) items)
    (map (fun i => snd (fst i)) items) (map (fun i => snd i) items)
  = map (fun i => [date; fst (fst i); snd (fst i); snd i]) items.
Proof.
  induction items as [|i items IH]; cbn; [reflexivity|].
  rewrite IH. reflexivity.
Qed.

Lemma archive_page_times (items : list (string * string * string)) :
  rmap contents0_strip (map (fun i => mkTimeTag (Ok (fst (fst i)))) items)
  = Ok (map (fun i => fst (fst i)) items).
Proof.
  induction items as [|i items IH]; cbn; [reflexivity|].
  rewrite IH. reflexivity.
Qed.

Lemma archive_page_titles (items : list (string * string * string)) :
  rmap title_item (map (fun i => mkTitleTag (Ok (snd (fst i))) (Ok (snd i))) items)
  = Ok (map (fun i => (snd (fst i), snd i)) items).
Proof.
  induction items as [|i items IH]; cbn; [reflexivity|].
  rewrite IH. reflexivity.
Qed.

(** The part of C1 that holds: a single day whose page lists N triples
    yields exactly N rows, all tagged with that day. *)
Corollary single_day_rows (w : World) (headers : list (string * string))
    (d : Calendar.date) (s : state) (r : Response)
    (items : list (string * string * string)) lead ps :
  Calendar.valid_date d = true ->
  http_get w (length (requests s))
    (archive_request headers (archive_url (Calendar.strftime_Ymd d))) = Ok r ->
  raise_for_status (archive_url (Calendar.strftime_Ymd d)) r = Ok tt ->
  parsed r = Ok (mkSoup (find_dayInArchive (archive_page items)) lead ps) ->
  exists s',
    get_metadata w d d headers s
    = (Ok (mkFrame metadata_columns
             (map (metadata_row (Calendar.strftime_Ymd d)) items)), s').
Proof.
  intros V H Hs Hp. apply CalendarFacts.valid_date_spec in V.
  eexists.
  rewrite (single_day_run w headers d s r _ _
             (map (fun i => fst (fst i)) items)
             (map (fun i => (snd (fst i), snd i)) items) V H Hs Hp eq_refl
             (archive_page_times items) (archive_page_titles items)).
  rewrite !map_map, length_map. cbn [fst snd].
  rewrite (zip4_items (Calendar.strftime_Ymd d) items).
  unfold frame_of_tuples. rewrite map_map. reflexivity.
Qed.

(** *** Two successful days *)

Lemma reindex_same (row : list cell) :
  length row = 4%nat -> reindex metadata_columns metadata_columns row = row.
Proof.
  intros H. destruct row as [|a [|b [|c [|e [|]]]]]; try discriminate H.
  reflexivity.
Qed.

(** Appending a table with the four columns to another one. *)
Lemma concat_same_columns (a : DataFrame) (tuples : list (list string)) :
  columns a = metadata_columns ->
  Forall (fun row => length row = 4%nat) (rows a) ->
  Forall (fun t => length t = 4%nat) tuples ->
  concat a (frame_of_tuples tuples metadata_columns)
  = mkFrame metadata_columns (rows a ++ map (map Some) tuples).
Proof.
  intros Hc Ha Ht. unfold concat, frame_of_tuples. rewrite Hc.
  cbn [columns rows]. f_equal. f_equal.
  - induction Ha as [|row l Hrow _ IH]; [reflexivity|].
    cbn [map]. rewrite IH. f_equal. apply reindex_same, Hrow.
  - induction Ht as [|t l Hlen _ IH]; [reflexivity|].
    cbn [map]. rewrite IH. f_equal. apply reindex_same.
    rewrite length_map. exact Hlen.
Qed.

(** C1 on two days, as the code runs it: when the pages of two
    consecutive iterations list [items1] and [items2], the table holds the
    first day's items under the first date and then, under the second
    date, the first day's items again followed by the second day's.  The
    second day contributes [length items1 + length items2] rows. *)
Theorem C1_second_day_repeats_first (w : World) (headers : list (string * string))
    (date1 date2 : string) (s : state) (r1 r2 : Response)
    (items1 items2 : list (string * string * string)) :
  PyStr.contains "/" date1 = false ->
  PyStr.contains "/" date2 = false ->
  http_get w (length (requests s))
    (archive_request headers (archive_url date1)) = Ok r1 ->
  http_get w (S (length (requests s)))
    (archive_request headers (archive_url date2)) = Ok r2 ->
  raise_for_status (archive_url date1) r1 = Ok tt ->
  raise_for_status (archive_url date2) r2 = Ok tt ->
  parsed r1 = Ok (archive_page items1) ->
  parsed r2 = Ok (archive_page items2) ->
  exists loc s',
    for_each [archive_url date1; archive_url date2] (get_metadata_body w headers)
      (mkLocals [] [] [] empty_frame) s = (Ok loc, s')
    /\ rows (result_df loc)
       = map (metadata_row date1) items1
         ++ map (metadata_row date2) (items1 ++ items2).
Proof.
  intros N1 N2 H1 H2 S1 S2 P1 P2.
  eexists. eexists. split.
  { rewrite for_each_cons.
    rewrite (body_fetched w headers _ _ s r1 _ H1 S1 P1).
    cbn [find_dayInArchive archive_page find_all_itemTime find_all_itemTitle].
    rewrite archive_page_times, archive_page_titles. cbv zeta.
    rewrite for_each_cons.
    assert (H2' : http_get w
                    (length (requests
                       (add_request (archive_request headers (archive_url date1)) s)))
                    (archive_request headers (archive_url date2)) = Ok r2).
    { cbn [requests add_request]. rewrite length_app. cbn [length].
      rewrite Nat.add_1_r. exact H2. }
    rewrite (body_fetched w headers _ _ _ r2 _ H2' S2 P2).
    cbn [find_dayInArchive archive_page find_all_itemTime find_all_itemTitle].
    rewrite archive_page_times, archive_page_titles. cbv zeta.
    cbn [for_each ret]. unfold ret. reflexivity. }
  cbn [result_df times urls titles app].
  rewrite !DateStrFacts.split_last_archive_url by assumption.
  rewrite !map_map. cbn [fst snd].
  rewrite <- !map_app.
  rewrite !length_map.
  rewrite (zip4_items date1 items1).
  rewrite <- (length_map (fun i : string * string * string => snd i) (items1 ++ items2)).
  rewrite length_map.
  rewrite (zip4_items date2 (items1 ++ items2)).
  rewrite concat_empty_frame
    by (apply List.Forall_forall; intros t Ht;
        apply in_map_iff in Ht as (i & <- & _); reflexivity).
  rewrite concat_same_columns.
  - cbn [rows frame_of_tuples]. rewrite !map_map. reflexivity.
  - reflexivity.
  - cbn [rows frame_of_tuples]. apply List.Forall_forall. intros t Ht.
    rewrite map_map in Ht. apply in_map_iff in Ht as (i & <- & _). reflexivity.
  - apply List.Forall_forall. intros t Ht.
    apply in_map_iff in Ht as (i & <- & _). reflexivity.
Qed.

(** Two days with one item each give three rows. *)
Lemma C1_second_day_repeats_first_witness :
  let w := table_world
             [(archive_url "2024-01-01",
               ok_page (archive_page [("10:00", "https://x/art-1", "T")]));
              (archive_url "2024-01-02",
               ok_page (archive_page [("11:00", "https://x/art-2", "U")]))] in
  exists loc s',
    for_each [archive_url "2024-01-01"; archive_url "2024-01-02"]
      (get_metadata_body w user_agent) (mkLocals [] [] [] empty_frame)
      initial_state = (Ok loc, s')
    /\ rows (result_df loc)
       = [[Some "2024-01-01"; Some "10:00"; Some "https://x/art-1"; Some "T"];
          [Some "2024-01-02"; Some "10:00"; Some "https://x/art-1"; Some "T"];
          [Some "2024-01-02"; Some "11:00"; Some "https://x/art-2"; Some "U"]].
Proof.
  cbv zeta.
  exact (C1_second_day_repeats_first
           (table_world
              [(archive_url "2024-01-01",
                ok_page (archive_page [("10:00", "https://x/art-1", "T")]));
               (archive_url "2024-01-02",
                ok_page (archive_page [("11:00", "https://x/art-2", "U")]))])
           user_agent "2024-01-01" "2024-01-02" initial_state
           (mkResponse 200 (Ok (archive_page [("10:00", "https://x/art-1", "T")])))
           (mkResponse 200 (Ok (archive_page [("11:00", "https://x/art-2", "U")])))
           [("10:00", "https://x/art-1", "T")] [("11:00", "https://x/art-2", "U")]
           eq_refl eq_refl eq_refl eq_refl eq_refl eq_refl eq_refl eq_refl).
Defined.

(** The same through [get_metadata] on the dates themselves. *)
Example two_days_three_rows :
  let w := table_world
             [(archive_url "2024-01-01",
               ok_page (archive_page [("10:00", "https://x/art-1", "T")]));
              (archive_url "2024-01-02",
               ok_page (archive_page [("11:00", "https://x/art-2", "U")]))] in
  fst (get_metadata w (Calendar.mkDate 2024 1 1) (Calendar.mkDate 2024 1 2)
         user_agent initial_state)
  = Ok (mkFrame metadata_columns
          [[Some "2024-01-01"; Some "10:00"; Some "https://x/art-1"; Some "T"];
           [Some "2024-01-02"; Some "10:00"; Some "https://x/art-1"; Some "T"];
           [Some "2024-01-02"; Some "11:00"; Some "https://x/art-2"; Some "U"]]).
Proof. vm_compute. reflexivity. Qed.

(** ** The Article Fetcher *)

Section ArticleFetcher.
Variable w : World.
Variable path : string.
Variable cols : list string.

(** One iteration, once the row's URL has been read: whatever the [try]
    block does, the iteration ends normally unless the exception is not
    an [Exception]. *)
Lemma extract_body_eq (row : list cell) (c : cell) (s : state) :
  row_get cols row "url" = Ok c ->
  extract_body w path cols tt row s
  = match extract_try w path cols row c s with
    | (Ok tt, s') => (Ok tt, s')
    | (Raise e, s') =>
        if is_Exception e
        then (Ok tt,
              add_log ERROR
                ("Error processing URL " +:+ cell_str c +:+ ". Error: " +:+ exn_msg e) s')
        else (Raise e, s')
    end.
Proof.
  intros H. unfold extract_body, bind, lift, try_except, logging. rewrite H.
  destruct (extract_try w path cols row c s) as [[[]|e] s']; [reflexivity|].
  destruct (is_Exception e); reflexivity.
Qed.

(** The [try] block always starts with exactly one request. *)
Lemma extract_try_requests (row : list cell) (c : cell) (s : state) :
  requests (snd (extract_try w path cols row c s))
  = requests s ++ [article_request (cell_str c)].
Proof.
  unfold extract_try, bind, requests_get, lift, logging, throw, write_file.
  destruct (http_get w _ _) as [r|e]; [|reflexivity].
  destruct (parsed r) as [content|e]; [|reflexivity].
  destruct (find_lead content) as [lead|]; [|reflexivity].
  destruct (row_get cols row "date") as [dc|e]; [|reflexivity].
  destruct c as [u|]; [|reflexivity].
  destruct dc as [d|]; [|reflexivity].
  cbn [cell_str requests add_request]. 
  destruct (fs_write w _ _ _); reflexivity.
Qed.

(** The [try] block for a page without a lead. *)
Lemma extract_try_no_lead (row : list cell) (c : cell) (s : state) r content :
  http_get w (length (requests s)) (article_request (cell_str c)) = Ok r ->
  parsed r = Ok content ->
  find_lead content = None ->
  extract_try w path cols row c s
  = (Ok tt,
     add_log WARNING ("No lead found for URL: " +:+ cell_str c)
       (add_request (article_request (cell_str c)) s)).
Proof.
  intros H Hp Hl. unfold extract_try, bind, requests_get, lift, logging.
  rewrite H, Hp, Hl. reflexivity.
Qed.

(** The [try] block for a page with a lead, when the file can be written. *)
Lemma extract_try_saved (row : list cell) (u d : string) (s : state) r content lead :
  row_get cols row "date" = Ok (Some d) ->
  http_get w (length (requests s)) (article_request u) = Ok r ->
  parsed r = Ok content ->
  find_lead content = Some lead ->
  fs_write w (nwrites s) (article_path path d u)
    (lead +:+ " " +:+ PyStr.join " " (find_all_p content)) = WriteOk ->
  extract_try w path cols row (Some u) s
  = (Ok tt,
     add_log INFO ("Data extracted and saved for URL: " +:+ u)
       (add_write (article_path path d u)
          (Some (lead +:+ " " +:+ PyStr.join " " (find_all_p content)))
          (add_request (article_request u) s))).
Proof.
  intros Hd H Hp Hl Hw.
  unfold extract_try, bind, requests_get, lift, logging, write_file.
  cbn [cell_str]. rewrite H, Hp, Hl, Hd. cbn [nwrites add_request].
  rewrite Hw. reflexivity.
Qed.
End ArticleFetcher.

(** [' '.join] puts one space between neighbours. *)
Lemma join_spaces (p : string) (rest : list string) :
  PyStr.join " " (p :: rest)
  = p +:+ Csv.concat_strings (map (String.append " ") rest).
Proof.
  revert p. induction rest as [|q rest IH]; intros p.
  - cbn. rewrite StrFacts.append_nil_r. reflexivity.
  - change (PyStr.join " " (p :: q :: rest))
      with (p +:+ " " +:+ PyStr.join " " (q :: rest)).
    rewrite IH. cbn [map Csv.concat_strings].
    rewrite <- !StrFacts.append_assoc. reflexivity.
Qed.

Lemma full_text_spec (lead : string) (paragraphs : list string) :
  lead +:+ " " +:+ PyStr.join " " paragraphs = spec_article_text lead paragraphs.
Proof.
  destruct paragraphs as [|p rest]; [reflexivity|].
  unfold spec_article_text. rewrite join_spaces. reflexivity.
Qed.

(** C5: for a row whose article page is fetched and has a lead, and whose
    file can be written, the iteration ends normally and the file
    [path/date/<last URL segment>.txt] holds the lead's text, one space,
    and the paragraph texts with one space between neighbours; one request
    was issued, one file written and the success is logged with the
    URL. *)
Theorem C5_article_text (w : World) (path : string) (cols : list string)
    (row : list cell) (u d : string) (s : state) (r : Response)
    (content : Soup) (lead : string) :
  row_get cols row "url" = Ok (Some u) ->
  row_get cols row "date" = Ok (Some d) ->
  http_get w (length (requests s)) (article_request u) = Ok r ->
  parsed r = Ok content ->
  find_lead content = Some lead ->
  (forall text, fs_write w (nwrites s) (article_path path d u) text = WriteOk) ->
  exists s',
    extract_body w path cols tt row s = (Ok tt, s')
    /\ files s' !! article_path path d u
       = Some (spec_article_text lead (find_all_p content))
    /\ (forall p, p <> article_path path d u -> files s' !! p = files s !! p)
    /\ requests s' = requests s ++ [article_request u]
    /\ log s' = log s ++ [(INFO, "Data extracted and saved for URL: " +:+ u)].
Proof.
  intros Hu Hd H Hp Hl Hw.
  rewrite (extract_body_eq w path cols row (Some u) s Hu).
  rewrite (extract_try_saved w path cols row u d s r content lead Hd H Hp Hl
             (Hw _)).
  eexists. split; [reflexivity|].
  cbn [snd files add_log add_write requests add_request log].
  rewrite full_text_spec.
  split; [apply lookup_insert_eq|].
  split; [|split; reflexivity].
  intros p Hne. apply lookup_insert_ne. congruence.
Qed.

(** An article with lead "L" and three paragraphs. *)
Lemma C5_article_text_witness :
  let page := article_page (Some "L") ["P"; "Q"; "R"] in
  let w := table_world [("https://x/art-1", ok_page page)] in
  let row := metadata_row "2024-01-01" ("10:00", "https://x/art-1", "T") in
  exists s',
    extract_body w "out" metadata_columns tt row initial_state = (Ok tt, s')
    /\ files s' !! "out/2024-01-01/art-1.txt" = Some "L P Q R"
    /\ log s' = [(INFO, "Data extracted and saved for URL: https://x/art-1")].
Proof.
  cbv zeta.
  destruct (C5_article_text
              (table_world
                 [("https://x/art-1",
                   ok_page (article_page (Some "L") ["P"; "Q"; "R"]))])
              "out" metadata_columns
              (metadata_row "2024-01-01" ("10:00", "https://x/art-1", "T"))
              "https://x/art-1" "2024-01-01" initial_state
              (mkResponse 200 (Ok (article_page (Some "L") ["P"; "Q"; "R"])))
              (article_page (Some "L") ["P"; "Q"; "R"]) "L"
              eq_refl eq_refl eq_refl eq_refl eq_refl (fun _ => eq_refl))
    as (s' & E & F & _ & _ & L).
  exists s'. split; [exact E|]. split; [exact F|]. exact L.
Defined.

(** The end-to-end run of the specification: one archive day with one
    item, whose article has lead "L" and one paragraph "P". *)
Example end_to_end :
  let w := table_world
             [(archive_url "2024-01-01",
               ok_page (archive_page [("10:00", "https://x/art-1", "T")]));
              ("https://x/art-1", ok_page (article_page (Some "L") ["P"]))] in
  let run := main w (mkArgs "2024-01-01" "2024-01-01" "out") initial_state in
  fst run = Ok 0
  /\ files (snd run) !! "out/2024-01-01/art-1.txt" = Some "L P"
  /\ files (snd run) !! "out/onet_metadata.csv"
     = Some (Csv.to_csv
               (mkFrame metadata_columns
                  [metadata_row "2024-01-01" ("10:00", "https://x/art-1", "T")])).
Proof. vm_compute. repeat split; reflexivity. Qed.

(** C6: for a row whose article page is fetched and has no lead, the
    iteration ends normally; exactly one record is added to the log, a
    warning naming the URL; no write is attempted and the files are as
    before; and the loop goes on with the remaining rows. *)
Theorem C6_no_lead_is_skipped (w : World) (path : string) (cols : list string)
    (row : list cell) (rest : list (list cell)) (c : cell) (s : state)
    (r : Response) (content : Soup) :
  row_get cols row "url" = Ok c ->
  http_get w (length (requests s)) (article_request (cell_str c)) = Ok r ->
  parsed r = Ok content ->
  find_lead content = None ->
  exists s',
    extract_body w path cols tt row s = (Ok tt, s')
    /\ log s' = log s ++ [(WARNING, "No lead found for URL: " +:+ cell_str c)]
    /\ requests s' = requests s ++ [article_request (cell_str c)]
    /\ files s' = files s
    /\ nwrites s' = nwrites s
    /\ for_each (row :: rest) (extract_body w path cols) tt s
       = for_each rest (extract_body w path cols) tt s'.
Proof.
  intros Hu H Hp Hl.
  assert (E : extract_body w path cols tt row s
              = (Ok tt,
                 add_log WARNING ("No lead found for URL: " +:+ cell_str c)
                   (add_request (article_request (cell_str c)) s))).
  { rewrite (extract_body_eq w path cols row c s Hu).
    rewrite (extract_try_no_lead w path cols row c s r content H Hp Hl).
    reflexivity. }
  eexists. split; [exact E|].
  split; [reflexivity|]. split; [reflexivity|]. split; [reflexivity|].
  split; [reflexivity|]. rewrite for_each_cons, E. reflexivity.
Qed.

(** Two rows: the first article has no lead, the second one is saved. *)
Lemma C6_no_lead_is_skipped_witness :
  let w := table_world
             [("https://x/art-1", ok_page (article_page None ["P"]));
              ("https://x/art-2", ok_page (article_page (Some "L") ["Q"]))] in
  let row1 := metadata_row "2024-01-01" ("10:00", "https://x/art-1", "T") in
  let row2 := metadata_row "2024-01-01" ("11:00", "https://x/art-2", "U") in
  find_lead (article_page None ["P"]) = None
  /\ (exists s',
        extract_body w "out" metadata_columns tt row1 initial_state = (Ok tt, s')
        /\ log s' = [(WARNING, "No lead found for URL: https://x/art-1")]
        /\ files s' = ∅
        /\ for_each [row1; row2] (extract_body w "out" metadata_columns) tt
             initial_state
           = for_each [row2] (extract_body w "out" metadata_columns) tt s')
  /\ files (snd (for_each [row1; row2] (extract_body w "out" metadata_columns) tt
                   initial_state))
     = {[ "out/2024-01-01/art-2.txt" := "L Q" ]}.
Proof.
  cbv zeta. split; [reflexivity|].
  destruct (C6_no_lead_is_skipped
              (table_world
                 [("https://x/art-1", ok_page (article_page None ["P"]));
                  ("https://x/art-2", ok_page (article_page (Some "L") ["Q"]))])
              "out" metadata_columns
              (metadata_row "2024-01-01" ("10:00", "https://x/art-1", "T"))
              [metadata_row "2024-01-01" ("11:00", "https://x/art-2", "U")]
              (Some "https://x/art-1") initial_state
              (mkResponse 200 (Ok (article_page None ["P"])))
              (article_page None ["P"])
              eq_refl eq_refl eq_refl eq_refl) as (s' & E & L & _ & Hf & _ & C).
  split.
  - exists s'. split; [exact E|]. split; [exact L|]. split; [exact Hf|]. exact C.
  - vm_compute. reflexivity.
Defined.

(** The [try] block logs only when it ends normally. *)
Lemma extract_try_raises_log (w : World) (path : string) (cols : list string)
    (row : list cell) (c : cell) (s s1 : state) (e : exn) :
  extract_try w path cols row c s = (Raise e, s1) -> log s1 = log s.
Proof.
  unfold extract_try, bind, requests_get, lift, logging, throw, write_file.
  destruct (http_get w _ _) as [r|e0]; [|intros [= _ <-]; reflexivity].
  destruct (parsed r) as [content|e0]; [|intros [= _ <-]; reflexivity].
  destruct (find_lead content) as [lead|]; [|discriminate].
  destruct (row_get cols row "date") as [dc|e0]; [|intros [= _ <-]; reflexivity].
  destruct c as [u|]; [|intros [= _ <-]; reflexivity].
  destruct dc as [d|]; [|intros [= _ <-]; reflexivity].
  cbn [cell_str nwrites add_request].
  destruct (fs_write w _ _ _) as [|e0 lb]; [discriminate|].
  intros [= _ <-]. reflexivity.
Qed.

(** C8: in a table with a [url] column, an exception of class
    [Exception] raised anywhere in the [try] block of a row is caught: the
    iteration ends normally, exactly one record is added to the log, an
    error with the row's URL and the exception's message; exactly one
    request has been issued for the row (no retry), and the loop goes on
    with the remaining rows.  So no [Exception] ever leaves the loop. *)
Theorem C8_row_isolation (w : World) (path : string) (cols : list string) :
  mem_string "url" cols = true ->
  (forall (row : list cell) (rest : list (list cell)) (s s1 : state) (e : exn),
     let c := assoc_cell "url" cols row in
     extract_try w path cols row c s = (Raise e, s1) ->
     is_Exception e = true ->
     exists s',
       extract_body w path cols tt row s = (Ok tt, s')
       /\ log s'
          = log s ++ [(ERROR, "Error processing URL " +:+ cell_str c
                              +:+ ". Error: " +:+ exn_msg e)]
       /\ requests s' = requests s ++ [article_request (cell_str c)]
       /\ files s' = files s1
       /\ nwrites s' = nwrites s1
       /\ for_each (row :: rest) (extract_body w path cols) tt s
          = for_each rest (extract_body w path cols) tt s')
  /\ (forall (rows : list (list cell)) (s s' : state) (e : exn),
        for_each rows (extract_body w path cols) tt s = (Raise e, s') ->
        is_Exception e = false).
Proof.
  intros Hcol.
  assert (Hu : forall row, row_get cols row "url" = Ok (assoc_cell "url" cols row)).
  { intros row. unfold row_get. rewrite Hcol. reflexivity. }
  split.
  - intros row rest s s1 e c Ht He.
    assert (E : extract_body w path cols tt row s
                = (Ok tt,
                   add_log ERROR
                     ("Error processing URL " +:+ cell_str c +:+ ". Error: "
                      +:+ exn_msg e) s1)).
    { rewrite (extract_body_eq w path cols row c s (Hu row)), Ht, He.
      reflexivity. }
    eexists. split; [exact E|].
    cbn [log requests files nwrites add_log].
    split; [rewrite (extract_try_raises_log w path cols row c s s1 e Ht);
            reflexivity|].
    split.
    { pose proof (extract_try_requests w path cols row c s) as R.
      rewrite Ht in R. exact R. }
    split; [reflexivity|]. split; [reflexivity|].
    rewrite for_each_cons, E. reflexivity.
  - intros rows. induction rows as [|row rows IH]; intros s s' e H.
    + discriminate H.
    + rewrite for_each_cons, (extract_body_eq w path cols row _ s (Hu row)) in H.
      destruct (extract_try w path cols row _ s) as [[[]|e1] s1].
      * apply (IH _ _ _ H).
      * destruct (is_Exception e1) eqn:E1.
        -- apply (IH _ _ _ H).
        -- injection H as <- <-. exact E1.
Qed.

(** Two rows in a world where every request fails to connect. *)
Lemma C8_row_isolation_witness :
  let w := table_world [] in
  let row1 := metadata_row "2024-01-01" ("10:00", "https://x/art-1", "T") in
  let row2 := metadata_row "2024-01-01" ("11:00", "https://x/art-2", "U") in
  let e := mkExn ConnectionError "Max retries exceeded" in
  let s1 := add_request (article_request "https://x/art-1") initial_state in
  mem_string "url" metadata_columns = true
  /\ extract_try w "out" metadata_columns row1 (Some "https://x/art-1") initial_state
     = (Raise e, s1)
  /\ is_Exception e = true
  /\ (exists s',
        extract_body w "out" metadata_columns tt row1 initial_state = (Ok tt, s')
        /\ log s'
           = [(ERROR,
               "Error processing URL https://x/art-1. Error: Max retries exceeded")]
        /\ requests s' = [article_request "https://x/art-1"]
        /\ for_each [row1; row2] (extract_body w "out" metadata_columns) tt
             initial_state
           = for_each [row2] (extract_body w "out" metadata_columns) tt s')
  /\ fst (for_each [row1; row2] (extract_body w "out" metadata_columns) tt
            initial_state) = Ok tt.
Proof.
  cbv zeta.
  destruct (C8_row_isolation (table_world []) "out" metadata_columns eq_refl)
    as [Hrow _].
  destruct (Hrow (metadata_row "2024-01-01" ("10:00", "https://x/art-1", "T"))
              [metadata_row "2024-01-01" ("11:00", "https://x/art-2", "U")]
              initial_state
              (add_request (article_request "https://x/art-1") initial_state)
              (mkExn ConnectionError "Max retries exceeded")
              eq_refl eq_refl) as (s' & E & L & R & _ & _ & C).
  split; [reflexivity|]. split; [reflexivity|]. split; [reflexivity|].
  split; [|reflexivity].
  exists s'. split; [exact E|]. split; [exact L|]. split; [exact R|]. exact C.
Defined.

(** ** The Metadata Aggregator *)

Module CsvFacts.
Import PyStr Csv StrFacts.







Lemma app_sep p c s : (p +:+ String c "") +:+ s = p +:+ String c s.
Proof. rewrite append_assoc. reflexivity. Qed.


End CsvFacts.





(** A lone carriage return is no reason to quote a field. *)
Example lone_cr_is_not_quoted :
  let s := String "a" (String Csv.CR "b") in
  Csv.field s = s.
Proof. reflexivity. Qed.

(** ** The entry point *)




(** The pattern's [$] also accepts one trailing line feed, which [int]
    then strips. *)
Example trailing_newline_accepted :
  let s := "2024-01-01" +:+ String Re.newline "" in
  is_valid_date s = true /\ parse_date s = Ok (Calendar.mkDate 2024 1 1).
Proof. split; reflexivity. Qed.

(** ** More on the entry point *)

Section DateShape.
Import PyStr.

Ltac eat_digit s H c E :=
  destruct s as [|c s]; [discriminate H|];
  cbn -[is_digit Ascii.eqb] in H;
  destruct (is_digit c) eqn:E; [|discriminate H];
  cbn -[is_digit Ascii.eqb] in H.

Ltac eat_dash s H c :=
  destruct s as [|c s]; [discriminate H|];
  cbn -[is_digit Ascii.eqb] in H;
  destruct (Ascii.eqb_spec c "-") as [->|]; [|discriminate H];
  cbn -[is_digit Ascii.eqb] in H.

(** What [is_valid_date] accepts, character by character. *)
Lemma valid_date_chars s :
  is_valid_date s = true ->
  exists c1 c2 c3 c4 c5 c6 c7 c8 t,
    s = String c1 (String c2 (String c3 (String c4 (String "-"
          (String c5 (String c6 (String "-" (String c7 (String c8 t)))))))))
    /\ (is_digit c1 && is_digit c2 && is_digit c3 && is_digit c4
        && is_digit c5 && is_digit c6 && is_digit c7 && is_digit c8 = true)
    /\ (t = "" \/ t = String Re.newline "").
Proof.
  unfold is_valid_date, Re.re_match, date_pattern. intros H.
  cbn -[is_digit Ascii.eqb] in H.
  eat_digit s H c1 E1. eat_digit s H c2 E2. eat_digit s H c3 E3.
  eat_digit s H c4 E4. eat_dash s H d1.
  eat_digit s H c5 E5. eat_digit s H c6 E6. eat_dash s H d2.
  eat_digit s H c7 E7. eat_digit s H c8 E8.
  exists c1, c2, c3, c4, c5, c6, c7, c8, s.
  split; [reflexivity|].
  split; [rewrite E1, E2, E3, E4, E5, E6, E7, E8; reflexivity|].
  destruct s as [|c [|c' s]]; [left; reflexivity | | discriminate H].
  destruct (Ascii.eqb_spec c Re.newline) as [->|]; [|discriminate H].
  right; reflexivity.
Qed.

(** The same, field by field. *)
Lemma valid_date_fields s :
  is_valid_date s = true ->
  exists y m d t,
    s = y +:+ "-" +:+ m +:+ "-" +:+ d +:+ t
    /\ String.length y = 4%nat /\ String.length m = 2%nat
    /\ String.length d = 2%nat
    /\ all_digits y = true /\ all_digits m = true /\ all_digits d = true
    /\ (t = "" \/ t = String Re.newline "").
Proof.
  intros H.
  destruct (valid_date_chars s H)
    as (c1 & c2 & c3 & c4 & c5 & c6 & c7 & c8 & t & -> & D & Ht).
  rewrite !andb_true_iff in D.
  destruct D as [[[[[[[D1 D2] D3] D4] D5] D6] D7] D8].
  exists (String c1 (String c2 (String c3 (String c4 "")))),
         (String c5 (String c6 "")), (String c7 (String c8 "")), t.
  cbn [all_digits String.length]. rewrite D1, D2, D3, D4, D5, D6, D7, D8.
  repeat split; try reflexivity. exact Ht.
Qed.

Lemma fields_valid_date y m d t :
  String.length y = 4%nat -> String.length m = 2%nat -> String.length d = 2%nat ->
  all_digits y = true -> all_digits m = true -> all_digits d = true ->
  t = "" \/ t = String Re.newline "" ->
  is_valid_date (y +:+ "-" +:+ m +:+ "-" +:+ d +:+ t) = true.
Proof.
  intros Ly Lm Ld Dy Dm Dd Ht.
  destruct y as [|c1 [|c2 [|c3 [|c4 [|]]]]]; try discriminate Ly.
  destruct m as [|c5 [|c6 [|]]]; try discriminate Lm.
  destruct d as [|c7 [|c8 [|]]]; try discriminate Ld.
  cbn [all_digits] in Dy, Dm, Dd.
  repeat rewrite andb_true_iff in Dy. repeat rewrite andb_true_iff in Dm.
  repeat rewrite andb_true_iff in Dd.
  assert (D1 : is_digit c1 = true) by tauto.
  assert (D2 : is_digit c2 = true) by tauto.
  assert (D3 : is_digit c3 = true) by tauto.
  assert (D4 : is_digit c4 = true) by tauto.
  assert (D5 : is_digit c5 = true) by tauto.
  assert (D6 : is_digit c6 = true) by tauto.
  assert (D7 : is_digit c7 = true) by tauto.
  assert (D8 : is_digit c8 = true) by tauto.
  clear Dy Dm Dd.
  unfold is_valid_date, Re.re_match, date_pattern.
  cbn -[is_digit]. rewrite D1. cbn -[is_digit]. rewrite D2. cbn -[is_digit].
  rewrite D3. cbn -[is_digit]. rewrite D4. cbn -[is_digit]. rewrite D5.
  cbn -[is_digit]. rewrite D6. cbn -[is_digit]. rewrite D7. cbn -[is_digit].
  rewrite D8. cbn -[is_digit].
  destruct Ht as [-> | ->]; reflexivity.
Qed.

(** *** Parsing what was validated *)

Lemma rstrip_app_space a c :
  is_space c = true -> rstrip (a +:+ String c "") = rstrip a.
Proof.
  intros Hc. induction a as [|x a IH]; cbn.
  - rewrite Hc. reflexivity.
  - rewrite IH. reflexivity.
Qed.

Lemma int_digits s :
  all_digits s = true -> s <> "" -> int s = Ok (digits_val 0 s).
Proof.
  intros D N. unfold int, strip.
  rewrite (StrFacts.lstrip_digits s D), (StrFacts.rstrip_digits s D), D.
  destruct s; [congruence | reflexivity].
Qed.

Lemma int_digits_newline s :
  all_digits s = true -> s <> "" ->
  int (s +:+ String Re.newline "") = Ok (digits_val 0 s).
Proof.
  intros D N. unfold int, strip.
  assert (L : lstrip (s +:+ String Re.newline "") = s +:+ String Re.newline "").
  { destruct s as [|x s]; [congruence|]. cbn in *.
    apply andb_true_iff in D as [Dx _].
    rewrite (StrFacts.digit_not_space x Dx). reflexivity. }
  rewrite L, rstrip_app_space by reflexivity.
  rewrite (StrFacts.rstrip_digits s D), D.
  destruct s; [congruence | reflexivity].
Qed.

(** A validated string always splits into three numbers: parsing can only
    fail in the date constructor. *)
Lemma parse_validated s :
  is_valid_date s = true ->
  exists y m d, parse_date s = Calendar.new_date y m d.
Proof.
  intros H.
  destruct (valid_date_fields s H)
    as (y & m & d & t & -> & Ly & Lm & Ld & Dy & Dm & Dd & Ht).
  exists (digits_val 0 y), (digits_val 0 m), (digits_val 0 d).
  assert (Ny : y <> "") by (intros ->; discriminate Ly).
  assert (Nm : m <> "") by (intros ->; discriminate Lm).
  assert (Nd : d <> "") by (intros ->; discriminate Ld).
  unfold parse_date.
  change (y +:+ "-" +:+ m +:+ "-" +:+ d +:+ t)
    with (y +:+ String "-" (m +:+ String "-" (d +:+ t))).
  rewrite (StrFacts.split_app_sep "-" y)
    by (apply StrFacts.all_digits_contains; [reflexivity | exact Dy]).
  rewrite (StrFacts.split_app_sep "-" m)
    by (apply StrFacts.all_digits_contains; [reflexivity | exact Dm]).
  rewrite StrFacts.split_no_sep.
  2:{ rewrite StrFacts.contains_app,
        (StrFacts.all_digits_contains "-" d eq_refl Dd).
      destruct Ht as [-> | ->]; reflexivity. }
  cbn [rmap rbind].
  rewrite (int_digits y Dy Ny), (int_digits m Dm Nm). cbn [rbind].
  destruct Ht as [-> | ->].
  - rewrite StrFacts.append_nil_r, (int_digits d Dd Nd). reflexivity.
  - rewrite (int_digits_newline d Dd Nd). reflexivity.
Qed.

(** The date constructor returns a well-formed date or raises
    [ValueError]. *)
Lemma new_date_cases y m d :
  (exists dd, Calendar.new_date y m d = Ok dd /\ Calendar.valid_date dd = true)
  \/ (exists e, Calendar.new_date y m d = Raise e /\ exn_cls e = ValueError).
Proof.
  unfold Calendar.new_date, Calendar.valid_date.
  destruct ((Calendar.MINYEAR <=? y) && (y <=? Calendar.MAXYEAR)) eqn:Ey; cbn [negb];
    [|right; eexists; split; reflexivity].
  destruct ((1 <=? m) && (m <=? 12)) eqn:Em; cbn [negb];
    [|right; eexists; split; reflexivity].
  destruct ((1 <=? d) && (d <=? Calendar._days_in_month y m)) eqn:Ed; cbn [negb];
    [|right; eexists; split; reflexivity].
  left. eexists. split; [reflexivity|]. cbn [Calendar.year Calendar.month Calendar.day].
  apply andb_true_iff in Ey as [-> ->], Em as [-> ->], Ed as [-> ->]. reflexivity.
Qed.
End DateShape.

(** X1: among the strings of 8-bit code points, [is_valid_date] accepts
    exactly those made of four digits '0'..'9', a dash, two digits, a dash
    and two digits, optionally followed by one line feed. *)
Theorem X1_is_valid_date_iff (s : string) :
  is_valid_date s = true <->
  exists y m d t,
    s = y +:+ "-" +:+ m +:+ "-" +:+ d +:+ t
    /\ String.length y = 4%nat /\ String.length m = 2%nat
    /\ String.length d = 2%nat
    /\ PyStr.all_digits y = true /\ PyStr.all_digits m = true
    /\ PyStr.all_digits d = true
    /\ (t = "" \/ t = String Re.newline "").
Proof.
  split.
  - apply valid_date_fields.
  - intros (y & m & d & t & -> & Ly & Lm & Ld & Dy & Dm & Dd & Ht).
    apply fields_valid_date; assumption.
Qed.

(** X2: the entry point ends in one of three ways.  A date argument that
    does not match the pattern gives exit status 1, exactly one more log
    record (the error about the date format) and nothing else changed: no
    request, no file, no write; two matching arguments either make the date
    constructor raise [ValueError] with the state untouched, or run the
    pipeline on two well-formed dates. *)
Theorem X2_main_three_ways (w : World) (args : Args) (s : state) :
  (is_valid_date (arg_start_date args) && is_valid_date (arg_end_date args) = false
   /\ exists s',
        main w args s = (Ok 1, s')
        /\ log s' = log s ++ [(ERROR, "Dates should be in the format YYYY-MM-DD.")]
        /\ requests s' = requests s
        /\ files s' = files s
        /\ nwrites s' = nwrites s)
  \/ (is_valid_date (arg_start_date args) && is_valid_date (arg_end_date args) = true
      /\ ((exists e, exn_cls e = ValueError /\ main w args s = (Raise e, s))
          \/ (exists start_date_obj end_date_obj,
                Calendar.valid_date start_date_obj = true
                /\ Calendar.valid_date end_date_obj = true
                /\ main w args s
                   = pipeline w args start_date_obj end_date_obj s))).
Proof.
  unfold main.
  destruct (is_valid_date (arg_start_date args)) eqn:V1;
    [|left; split; [reflexivity|]; eexists; repeat split].
  destruct (is_valid_date (arg_end_date args)) eqn:V2;
    [|left; split; [reflexivity|]; eexists; repeat split].
  right. split; [reflexivity|]. cbn [andb negb].
  destruct (parse_validated _ V1) as (y1 & m1 & d1 & P1).
  destruct (parse_validated _ V2) as (y2 & m2 & d2 & P2).
  unfold bind, lift. rewrite P1, P2.
  destruct (new_date_cases y1 m1 d1) as [(ds & -> & Vs) | (e & -> & He)];
    [|left; exists e; split; [exact He | reflexivity]].
  destruct (new_date_cases y2 m2 d2) as [(de & -> & Ve) | (e & -> & He)];
    [|left; exists e; split; [exact He | reflexivity]].
  right. exists ds, de. repeat split; assumption.
Qed.

(** ** More on the Archive Fetcher *)

Section FetcherEffects.
Variable w : World.
Variable headers : list (string * string).

(** What one iteration does to the state: one request, at most one error
    record, no write. *)
Lemma body_effects (loc : locals) (url : string) (s : state) :
  let s' := snd (get_metadata_body w headers loc url s) in
  requests s' = requests s ++ [archive_request headers url]
  /\ files s' = files s /\ nwrites s' = nwrites s
  /\ exists msgs, log s' = log s ++ map (pair ERROR) msgs /\ (length msgs <= 1)%nat.
Proof.
  cbv zeta.
  assert (Q : forall s0 : state,
             s0 = add_request (archive_request headers url) s ->
             requests s0 = requests s ++ [archive_request headers url]
             /\ files s0 = files s /\ nwrites s0 = nwrites s
             /\ exists msgs, log s0 = log s ++ map (pair ERROR) msgs
                             /\ (length msgs <= 1)%nat).
  { intros s0 ->. repeat split. exists []. cbn. rewrite app_nil_r. split; [reflexivity | lia]. }
  assert (E : forall (s0 : state) msg,
             s0 = add_log ERROR msg (add_request (archive_request headers url) s) ->
             requests s0 = requests s ++ [archive_request headers url]
             /\ files s0 = files s /\ nwrites s0 = nwrites s
             /\ exists msgs, log s0 = log s ++ map (pair ERROR) msgs
                             /\ (length msgs <= 1)%nat).
  { intros s0 msg ->. repeat split. exists [msg]. split; [reflexivity | cbn; lia]. }
  unfold get_metadata_body, bind, try_except, requests_get, lift, throw, ret, logging.
  destruct (http_get w _ _) as [r|e].
  - destruct (raise_for_status url r) as [[]|e].
    + destruct (parsed r) as [content|e]; [|apply Q; reflexivity].
      destruct (find_dayInArchive content) as [day|]; [|apply Q; reflexivity].
      destruct (rmap contents0_strip _); [|apply Q; reflexivity].
      destruct (rmap title_item _); apply Q; reflexivity.
    + destruct (is_RequestException e); [eapply E | apply Q]; reflexivity.
  - destruct (is_RequestException e); [eapply E | apply Q]; reflexivity.
Qed.

(** The loop over the archive URLs: requests go out in list order, one per
    URL, until the loop ends or an exception leaves it. *)
Lemma loop_effects (urls_list : list string) (loc : locals) (s : state) :
  let run := for_each urls_list (get_metadata_body w headers) loc s in
  files (snd run) = files s /\ nwrites (snd run) = nwrites s
  /\ exists (k : nat) (msgs : list string),
       (k <= length urls_list)%nat
       /\ requests (snd run)
          = requests s ++ map (archive_request headers) (firstn k urls_list)
       /\ log (snd run) = log s ++ map (pair ERROR) msgs
       /\ (length msgs <= k)%nat
       /\ (forall loc', fst run = Ok loc' -> k = length urls_list).
Proof.
  cbv zeta. revert loc s.
  induction urls_list as [|url urls_list IH]; intros loc s.
  - cbn. repeat split. exists O, []. cbn. rewrite !app_nil_r.
    repeat split; lia.
  - rewrite for_each_cons.
    pose proof (body_effects loc url s) as B. cbv zeta in B.
    destruct (get_metadata_body w headers loc url s) as [[loc1|e] s1];
      cbn [snd] in B; destruct B as (Rq & Fl & Nw & msgs1 & Lg & Ln).
    + destruct (IH loc1 s1) as (Fl' & Nw' & k & msgs & Hk & Rq' & Lg' & Ln' & Hok).
      split; [congruence|]. split; [congruence|].
      exists (S k), (msgs1 ++ msgs). split; [cbn; lia|].
      split; [rewrite Rq', Rq, <- app_assoc; reflexivity|].
      split; [rewrite Lg', Lg, map_app, <- app_assoc; reflexivity|].
      split; [rewrite length_app; lia|].
      intros loc' H. cbn [length]. f_equal. eapply Hok, H.
    + cbn [fst snd]. split; [exact Fl|]. split; [exact Nw|].
      exists 1%nat, msgs1. split; [cbn; lia|].
      split; [exact Rq|]. split; [exact Lg|]. split; [exact Ln|].
      intros loc' H. discriminate H.
Qed.
End FetcherEffects.

(** X3: [get_metadata] writes no file; it issues one request per day, in
    date order, each with the given headers and the timeout of 10, for a
    prefix of the date list, which is the whole list when it returns
    normally; and it logs nothing but error records, at most one per
    requested day. *)
Theorem X3_get_metadata_effects (w : World) (start_date end_date : Calendar.date)
    (headers : list (string * string)) (s : state) (dates : list string) :
  date_list start_date end_date = Ok dates ->
  let run := get_metadata w start_date end_date headers s in
  files (snd run) = files s /\ nwrites (snd run) = nwrites s
  /\ exists (k : nat) (msgs : list string),
       (k <= length dates)%nat
       /\ requests (snd run)
          = requests s
            ++ map (fun date => mkRequest (archive_url date) headers (Some 10))
                 (firstn k dates)
       /\ log (snd run) = log s ++ map (pair ERROR) msgs
       /\ (length msgs <= k)%nat
       /\ (forall df, fst run = Ok df -> k = length dates).
Proof.
  intros D. cbv zeta. unfold get_metadata, bind, lift, ret. rewrite D.
  pose proof (loop_effects w headers (map archive_url dates)
                (mkLocals [] [] [] empty_frame) s) as L. cbv zeta in L.
  destruct (for_each (map archive_url dates) (get_metadata_body w headers)
              (mkLocals [] [] [] empty_frame) s) as [[loc|e] s1];
    cbn [fst snd] in *;
    destruct L as (Fl & Nw & k & msgs & Hk & Rq & Lg & Ln & Hok);
    rewrite length_map in Hk;
    (split; [exact Fl|]; split; [exact Nw|];
     exists k, msgs; split; [exact Hk|];
     split; [rewrite Rq, firstn_map, map_map; reflexivity|];
     split; [exact Lg|]; split; [exact Ln|]).
  - intros df _. rewrite (Hok loc eq_refl), length_map. reflexivity.
  - intros df H. discriminate H.
Qed.

(** Three days: the first is refused, the second has no day container, so
    the third is never requested. *)
Lemma X3_get_metadata_effects_witness :
  let w := table_world [(archive_url "2024-01-02", ok_page bare_page)] in
  let run := get_metadata w (Calendar.mkDate 2024 1 1) (Calendar.mkDate 2024 1 3)
               user_agent initial_state in
  date_list (Calendar.mkDate 2024 1 1) (Calendar.mkDate 2024 1 3)
  = Ok ["2024-01-01"; "2024-01-02"; "2024-01-03"]
  /\ files (snd run) = ∅
  /\ map req_url (requests (snd run))
     = [archive_url "2024-01-01"; archive_url "2024-01-02"]
  /\ exists (k : nat) (msgs : list string),
       (k <= 3)%nat
       /\ requests (snd run)
          = map (fun date => mkRequest (archive_url date) user_agent (Some 10))
              (firstn k ["2024-01-01"; "2024-01-02"; "2024-01-03"])
       /\ log (snd run) = map (pair ERROR) msgs.
Proof.
  cbv zeta.
  destruct (X3_get_metadata_effects
              (table_world [(archive_url "2024-01-02", ok_page bare_page)])
              (Calendar.mkDate 2024 1 1) (Calendar.mkDate 2024 1 3)
              user_agent initial_state
              ["2024-01-01"; "2024-01-02"; "2024-01-03"] eq_refl)
    as (Fl & _ & k & msgs & Hk & Rq & Lg & _).
  split; [reflexivity|]. split; [exact Fl|]. split; [reflexivity|].
  exists k, msgs. split; [exact Hk|]. split; [exact Rq | exact Lg].
Defined.

(** *** The table of any run *)

Section FetcherTable.
Variable w : World.
Variable headers : list (string * string).

Lemma rmap_in {A B} (f : A -> result B) (l : list A) (l' : list B) :
  rmap f l = Ok l' -> forall y, In y l' -> exists x, In x l /\ f x = Ok y.
Proof.
  revert l'. induction l as [|x l IH]; intros l' H y Hy; cbn in H.
  - injection H as <-. destruct Hy.
  - destruct (f x) as [b|] eqn:E; [|discriminate]. cbn in H.
    destruct (rmap f l) as [ys|]; [|discriminate]. cbn in H.
    injection H as <-. destruct Hy as [<-|Hy].
    + exists x. split; [left; reflexivity | exact E].
    + destruct (IH ys eq_refl y Hy) as (x' & Hx' & E').
      exists x'. split; [right; exact Hx' | exact E'].
Qed.

(** Every entry of the date list is the printed form of a date, so it
    holds no slash. *)
Lemma date_list_no_slash start_date end_date dates :
  date_list start_date end_date = Ok dates ->
  forall date, In date dates -> PyStr.contains "/" date = false.
Proof.
  intros D date Hin. unfold date_list in D.
  destruct (rmap_in _ _ _ D date Hin) as (x & _ & E).
  destruct (Calendar.date_add start_date (Calendar.mkDelta x)) as [d|];
    [|discriminate E].
  cbn in E. injection E as <-. apply DateStrFacts.strftime_no_slash.
Qed.

Lemma zip4_shape tag n b c d :
  Forall (fun t => exists x y z, t = [tag; x; y; z])
    (zip4 (repeat tag n) b c d).
Proof.
  revert b c d. induction n as [|n IH]; intros [|y b] [|z c] [|t d]; cbn;
    constructor; [eauto | apply IH].
Qed.

(** Appending a day's rows keeps the table well formed. *)
Lemma concat_table_ok dates df date n b c d :
  In date dates -> table_ok dates df ->
  table_ok dates
    (concat df (frame_of_tuples (zip4 (repeat date n) b c d) metadata_columns)).
Proof.
  intros Hin [Hcols Hrows].
  pose proof (zip4_shape date n b c d) as Z.
  assert (Hnew : Forall (fun row => exists d0 t u ti,
                           row = [Some d0; Some t; Some u; Some ti] /\ In d0 dates)
                   (map (map Some) (zip4 (repeat date n) b c d))).
  { apply List.Forall_forall. intros row Hrow.
    apply in_map_iff in Hrow as (t & <- & Ht).
    rewrite List.Forall_forall in Z. destruct (Z t Ht) as (x & y & z & ->).
    exists date, x, y, z. split; [reflexivity | exact Hin]. }
  destruct Hcols as [-> | Hc].
  - rewrite concat_empty_frame by apply zip4_rows.
    split; [right; reflexivity | exact Hnew].
  - rewrite concat_same_columns; [| exact Hc | | apply zip4_rows].
    + split; [right; reflexivity|]. cbn [rows].
      apply Forall_app. split; [exact Hrows | exact Hnew].
    + apply List.Forall_forall. intros row Hrow.
      rewrite List.Forall_forall in Hrows.
      destruct (Hrows row Hrow) as (d0 & t & u & ti & -> & _). reflexivity.
Qed.

Lemma body_table_ok dates date (loc loc' : locals) (s s' : state) :
  In date dates -> PyStr.contains "/" date = false ->
  table_ok dates (result_df loc) ->
  get_metadata_body w headers loc (archive_url date) s = (Ok loc', s') ->
  table_ok dates (result_df loc').
Proof.
  intros Hin Hns Hok.
  unfold get_metadata_body, bind, try_except, requests_get, lift, throw, ret, logging.
  destruct (http_get w _ _) as [r|e].
  - destruct (raise_for_status (archive_url date) r) as [[]|e].
    + destruct (parsed r) as [content|e]; [|discriminate].
      destruct (find_dayInArchive content) as [day|]; [|discriminate].
      destruct (rmap contents0_strip _); [|discriminate].
      destruct (rmap title_item _); [|discriminate].
      intros H. injection H as <- _. cbn [result_df].
      rewrite (DateStrFacts.split_last_archive_url date Hns).
      apply concat_table_ok; assumption.
    + destruct (is_RequestException e); [|discriminate].
      intros H. injection H as <- _. exact Hok.
  - destruct (is_RequestException e); [|discriminate].
    intros H. injection H as <- _. exact Hok.
Qed.

Lemma loop_table_ok dates (days : list string) (loc loc' : locals) (s s' : state) :
  (forall date, In date days ->
                In date dates /\ PyStr.contains "/" date = false) ->
  table_ok dates (result_df loc) ->
  for_each (map archive_url days) (get_metadata_body w headers) loc s
  = (Ok loc', s') ->
  table_ok dates (result_df loc').
Proof.
  revert loc s. induction days as [|date days IH]; intros loc s Hd Hok H.
  - cbn in H. injection H as <- _. exact Hok.
  - cbn [map] in H. rewrite for_each_cons in H.
    destruct (get_metadata_body w headers loc (archive_url date) s)
      as [[loc1|e] s1] eqn:B; [|discriminate H].
    destruct (Hd date (or_introl eq_refl)) as [Hin Hns].
    apply (IH loc1 s1); [intros d' Hd'; apply Hd; right; exact Hd' | | exact H].
    apply (body_table_ok dates date loc loc1 s s1); assumption.
Qed.
End FetcherTable.

(** The table [get_metadata] returns is well formed. *)
Lemma get_metadata_table_ok (w : World) (start_date end_date : Calendar.date)
    (headers : list (string * string)) (s s' : state) (df : DataFrame) :
  get_metadata w start_date end_date headers s = (Ok df, s') ->
  exists dates, date_list start_date end_date = Ok dates /\ table_ok dates df.
Proof.
  unfold get_metadata, bind, lift, ret.
  destruct (date_list start_date end_date) as [dates|e] eqn:D; [|discriminate].
  destruct (for_each (map archive_url dates) (get_metadata_body w headers)
              (mkLocals [] [] [] empty_frame) s) as [[loc|e] s1] eqn:L;
    [|discriminate].
  intros H. injection H as <- _.
  exists dates. split; [reflexivity|].
  apply (loop_table_ok w headers dates dates (mkLocals [] [] [] empty_frame)
           loc s s1); [| | exact L].
  - intros date Hin. split; [exact Hin|].
    apply (date_list_no_slash start_date end_date dates D date Hin).
  - split; [left; reflexivity | constructor].
Qed.

(** X4: whenever [get_metadata] returns, its table is well formed: it is
    the column-less empty table or has exactly the columns date, time,
    url, title; every row has four present cells, and its date is one of
    the days of the range. *)
Theorem X4_get_metadata_table (w : World) (start_date end_date : Calendar.date)
    (headers : list (string * string)) (s s' : state) (df : DataFrame) :
  get_metadata w start_date end_date headers s = (Ok df, s') ->
  exists dates,
    date_list start_date end_date = Ok dates
    /\ (df = empty_frame \/ columns df = ["date"; "time"; "url"; "title"])
    /\ Forall (fun row => exists d t u ti,
                 row = [Some d; Some t; Some u; Some ti] /\ In d dates)
         (rows df).
Proof.
  intros H.
  destruct (get_metadata_table_ok w start_date end_date headers s s' df H)
    as (dates & D & Hcols & Hrows).
  exists dates. split; [exact D|]. split; [exact Hcols | exact Hrows].
Qed.

(** Two days, the second one refused. *)
Lemma X4_get_metadata_table_witness :
  let w := table_world
             [(archive_url "2024-01-01",
               ok_page (archive_page [("10:00", "https://x/art-1", "T")]))] in
  let run := get_metadata w (Calendar.mkDate 2024 1 1) (Calendar.mkDate 2024 1 2)
               user_agent initial_state in
  let df := mkFrame metadata_columns
              [metadata_row "2024-01-01" ("10:00", "https://x/art-1", "T")] in
  run = (Ok df, snd run)
  /\ exists dates,
       date_list (Calendar.mkDate 2024 1 1) (Calendar.mkDate 2024 1 2) = Ok dates
       /\ (df = empty_frame \/ columns df = ["date"; "time"; "url"; "title"])
       /\ Forall (fun row => exists d t u ti,
                    row = [Some d; Some t; Some u; Some ti] /\ In d dates)
            (rows df).
Proof.
  cbv zeta.
  assert (E : get_metadata
                (table_world
                   [(archive_url "2024-01-01",
                     ok_page (archive_page [("10:00", "https://x/art-1", "T")]))])
                (Calendar.mkDate 2024 1 1) (Calendar.mkDate 2024 1 2)
                user_agent initial_state
              = (Ok (mkFrame metadata_columns
                       [metadata_row "2024-01-01" ("10:00", "https://x/art-1", "T")]),
                 snd (get_metadata
                        (table_world
                           [(archive_url "2024-01-01",
                             ok_page (archive_page
                                        [("10:00", "https://x/art-1", "T")]))])
                        (Calendar.mkDate 2024 1 1) (Calendar.mkDate 2024 1 2)
                        user_agent initial_state))).
  { vm_compute. reflexivity. }
  split; [exact E|].
  exact (X4_get_metadata_table _ _ _ _ _ _ _ E).
Defined.

(** X11: the date is read back from the archive URL it was put in: for
    every entry of the date list, the last segment of its URL is the
    entry itself. *)
Theorem X11_archive_date_round_trip (start_date end_date : Calendar.date)
    (dates : list string) :
  date_list start_date end_date = Ok dates ->
  Forall (fun date => PyStr.split_last "/" (archive_url date) = date) dates.
Proof.
  intros D. apply List.Forall_forall. intros date Hin.
  apply DateStrFacts.split_last_archive_url.
  apply (date_list_no_slash start_date end_date dates D date Hin).
Qed.

Lemma X11_archive_date_round_trip_witness :
  date_list (Calendar.mkDate 2023 12 31) (Calendar.mkDate 2024 1 1)
  = Ok ["2023-12-31"; "2024-01-01"]
  /\ Forall (fun date => PyStr.split_last "/" (archive_url date) = date)
       ["2023-12-31"; "2024-01-01"].
Proof.
  split; [reflexivity|].
  exact (X11_archive_date_round_trip (Calendar.mkDate 2023 12 31)
           (Calendar.mkDate 2024 1 1) ["2023-12-31"; "2024-01-01"] eq_refl).
Defined.

(** *** The rows of any run without a fault *)

Section FetcherRows.
Variable w : World.
Variable headers : list (string * string).

(** The step of the loop on a day whose fetch fails. *)
Lemma skip_step (loc : locals) (url : string) (rest : list string) (s : state) :
  fetch_fails w (length (requests s)) headers url ->
  exists e,
    for_each (url :: rest) (get_metadata_body w headers) loc s
    = for_each rest (get_metadata_body w headers) loc
        (add_log ERROR ("Error fetching URL " +:+ url +:+ ". Error: " +:+ exn_msg e)
           (add_request (archive_request headers url) s)).
Proof.
  intros [(e & H & He) | (r & H & Hs)].
  - exists e. rewrite for_each_cons, (body_fetch_raises w headers loc url s e H He).
    reflexivity.
  - destruct (body_status_raises w headers loc url s r H Hs) as (e & _ & E).
    exists e. rewrite for_each_cons, E. reflexivity.
Qed.

(** The loop on days that are skipped or list their items, started with
    the items [prev] of the days before in the three lists and with the
    rows [sofar] in the table. *)
Lemma loop_rows (days : list (string * option (list (string * string * string))))
    (prev : list (string * string * string)) (sofar : list (list cell))
    (df : DataFrame) (s : state) :
  (forall date, In date (map fst days) -> PyStr.contains "/" date = false) ->
  answers w headers (length (requests s)) days ->
  (df = empty_frame /\ sofar = []) \/
  (df = mkFrame metadata_columns sofar
   /\ Forall (fun row => length row = 4%nat) sofar) ->
  exists loc s',
    for_each (map (fun day => archive_url (fst day)) days)
      (get_metadata_body w headers)
      (mkLocals (map (fun i => fst (fst i)) prev) (map (fun i => snd (fst i)) prev)
         (map (fun i => snd i) prev) df) s
    = (Ok loc, s')
    /\ rows (result_df loc) = sofar ++ acc_rows prev (fetched_days days)
    /\ length (log s') = (length (log s) + length (skipped_days days))%nat.
Proof.
  revert prev sofar df s.
  induction days as [|[date [items|]] days IH]; intros prev sofar df s Hns Ha Hdf.
  - exists (mkLocals (map (fun i => fst (fst i)) prev)
              (map (fun i => snd (fst i)) prev) (map (fun i => snd i) prev) df), s.
    cbn. rewrite app_nil_r. split; [reflexivity|]. split; [|lia].
    destruct Hdf as [[-> ->] | [-> _]]; reflexivity.
  - (* a day whose page lists [items] *)
    cbn [answers] in Ha. destruct Ha as [(r & lead & ps & H & Hs & Hp) Ha].
    assert (Hdate : PyStr.contains "/" date = false)
      by (apply Hns; left; reflexivity).
    cbn [map fst]. rewrite for_each_cons.
    rewrite (body_fetched w headers _ _ s r _ H Hs Hp).
    cbn [find_dayInArchive archive_page find_all_itemTime find_all_itemTitle].
    rewrite archive_page_times, archive_page_titles. cbv zeta.
    cbn [times urls titles result_df].
    rewrite (DateStrFacts.split_last_archive_url date Hdate).
    rewrite !map_map. cbn [fst snd].
    rewrite <- !map_app, length_map, (zip4_items date (prev ++ items)).
    set (new := map (metadata_row date) (prev ++ items)).
    assert (Hnew4 : Forall (fun t : list string => length t = 4%nat)
                      (map (fun i : string * string * string =>
                              [date; fst (fst i); snd (fst i); snd i])
                         (prev ++ items))).
    { apply List.Forall_forall. intros t Ht.
      apply in_map_iff in Ht as (i & <- & _). reflexivity. }
    assert (Hc : concat df
                   (frame_of_tuples
                      (map (fun i : string * string * string =>
                              [date; fst (fst i); snd (fst i); snd i])
                         (prev ++ items)) metadata_columns)
                 = mkFrame metadata_columns (sofar ++ new)).
    { destruct Hdf as [[-> ->] | [-> H4]].
      - rewrite concat_empty_frame by exact Hnew4.
        unfold frame_of_tuples, new. rewrite map_map. reflexivity.
      - rewrite concat_same_columns; [| reflexivity | exact H4 | exact Hnew4].
        unfold new. rewrite map_map. reflexivity. }
    rewrite Hc.
    destruct (IH (prev ++ items) (sofar ++ new) (mkFrame metadata_columns (sofar ++ new))
                (add_request (archive_request headers (archive_url date)) s))
      as (loc & s' & E & Hrows & Hlog).
    + intros d Hd. apply Hns. right. exact Hd.
    + cbn [requests add_request]. rewrite length_app. cbn [length].
      rewrite Nat.add_1_r. exact Ha.
    + right. split; [reflexivity|]. apply Forall_app. split.
      * destruct Hdf as [[_ ->] | [_ H4]]; [constructor | exact H4].
      * apply List.Forall_forall. intros t Ht.
        apply in_map_iff in Ht as (i & <- & _). reflexivity.
    + exists loc, s'. split; [exact E|]. split.
      * rewrite Hrows. cbn [fetched_days acc_rows]. fold new.
        rewrite <- app_assoc. reflexivity.
      * rewrite Hlog. cbn [skipped_days]. reflexivity.
  - (* a day whose fetch fails *)
    cbn [answers] in Ha. destruct Ha as [Hf Ha].
    cbn [map fst].
    destruct (skip_step
                (mkLocals (map (fun i => fst (fst i)) prev)
                   (map (fun i => snd (fst i)) prev) (map (fun i => snd i) prev) df)
                (archive_url date)
                (map (fun day => archive_url (fst day)) days) s Hf) as (e & E).
    rewrite E.
    destruct (IH prev sofar df
                (add_log ERROR
                   ("Error fetching URL " +:+ archive_url date +:+ ". Error: "
                    +:+ exn_msg e)
                   (add_request (archive_request headers (archive_url date)) s)))
      as (loc & s' & E' & Hrows & Hlog).
    + intros d Hd. apply Hns. right. exact Hd.
    + cbn [requests add_request add_log]. rewrite length_app. cbn [length].
      rewrite Nat.add_1_r. exact Ha.
    + exact Hdf.
    + exists loc, s'. split; [exact E'|]. split; [exact Hrows|].
      rewrite Hlog. cbn [log add_log add_request skipped_days length].
      rewrite length_app. cbn [length]. lia.
Qed.
End FetcherRows.

(** X5: the table of a run in which every day either fails to be fetched
    or has a page that lists (time, url, title) items.  Failed days are
    skipped, one error record each; every fetched day contributes, under
    its own date, the items of all fetched days so far, in page order. *)
Theorem X5_get_metadata_rows (w : World) (start_date end_date : Calendar.date)
    (headers : list (string * string)) (s : state)
    (days : list (string * option (list (string * string * string)))) :
  date_list start_date end_date = Ok (map fst days) ->
  answers w headers (length (requests s)) days ->
  exists df s',
    get_metadata w start_date end_date headers s = (Ok df, s')
    /\ rows df = acc_rows [] (fetched_days days)
    /\ length (log s') = (length (log s) + length (skipped_days days))%nat.
Proof.
  intros D Ha.
  destruct (loop_rows w headers days [] [] empty_frame s) as (loc & s' & E & R & L).
  - intros date Hin.
    apply (date_list_no_slash start_date end_date (map fst days) D date Hin).
  - exact Ha.
  - left. split; reflexivity.
  - exists (result_df loc), s'. split; [|split; [exact R | exact L]].
    unfold get_metadata, bind, lift, ret. rewrite D, map_map.
    cbn [map] in E. rewrite E. reflexivity.
Qed.

(** Three days: one item, a refused request, one item.  The third day
    repeats the first day's item under its own date. *)
Lemma X5_get_metadata_rows_witness :
  let w := table_world
             [(archive_url "2024-01-01",
               ok_page (archive_page [("10:00", "https://x/art-1", "T")]));
              (archive_url "2024-01-03",
               ok_page (archive_page [("11:00", "https://x/art-3", "V")]))] in
  let days := [("2024-01-01", Some [("10:00", "https://x/art-1", "T")]);
               ("2024-01-02", None);
               ("2024-01-03", Some [("11:00", "https://x/art-3", "V")])] in
  date_list (Calendar.mkDate 2024 1 1) (Calendar.mkDate 2024 1 3)
  = Ok (map fst days)
  /\ answers w user_agent 0 days
  /\ exists df s',
       get_metadata w (Calendar.mkDate 2024 1 1) (Calendar.mkDate 2024 1 3)
         user_agent initial_state = (Ok df, s')
       /\ rows df
          = [metadata_row "2024-01-01" ("10:00", "https://x/art-1", "T");
             metadata_row "2024-01-03" ("10:00", "https://x/art-1", "T");
             metadata_row "2024-01-03" ("11:00", "https://x/art-3", "V")]
       /\ length (log s') = 1%nat.
Proof.
  cbv zeta.
  assert (A : answers
                (table_world
                   [(archive_url "2024-01-01",
                     ok_page (archive_page [("10:00", "https://x/art-1", "T")]));
                    (archive_url "2024-01-03",
                     ok_page (archive_page [("11:00", "https://x/art-3", "V")]))])
                user_agent 0
                [("2024-01-01", Some [("10:00", "https://x/art-1", "T")]);
                 ("2024-01-02", None);
                 ("2024-01-03", Some [("11:00", "https://x/art-3", "V")])]).
  { cbn [answers]. split; [|split; [|split; [|exact I]]].
    - eexists. exists None, []. repeat split; reflexivity.
    - left. eexists. split; reflexivity.
    - eexists. exists None, []. repeat split; reflexivity. }
  split; [reflexivity|]. split; [exact A|].
  exact (X5_get_metadata_rows _ (Calendar.mkDate 2024 1 1) (Calendar.mkDate 2024 1 3)
           user_agent initial_state
           [("2024-01-01", Some [("10:00", "https://x/art-1", "T")]);
            ("2024-01-02", None);
            ("2024-01-03", Some [("11:00", "https://x/art-3", "V")])]
           eq_refl A).
Defined.

(** ** More on the Article Fetcher *)

Section ArticleLoop.
Variable w : World.
Variable path : string.
Variable cols : list string.

Ltac one_record :=
  eexists; eexists; split; [reflexivity|];
  cbn [requests log nwrites add_log add_request add_write cell_str];
  repeat split; lia.

(** In a world that raises nothing but [Exception]s, an iteration always
    ends normally, after one request, at most one write and exactly one
    log record. *)
Lemma extract_body_total (row : list cell) (s : state) :
  mem_string "url" cols = true ->
  only_exceptions w ->
  exists s' record,
    extract_body w path cols tt row s = (Ok tt, s')
    /\ requests s'
       = requests s ++ [article_request (cell_str (assoc_cell "url" cols row))]
    /\ log s' = log s ++ [record]
    /\ (nwrites s' <= S (nwrites s))%nat.
Proof.
  intros Hcol (Hget & Hparse & Hwrite).
  unfold extract_body, bind, lift, try_except, row_get at 1. rewrite Hcol.
  set (c := assoc_cell "url" cols row).
  unfold extract_try, bind, requests_get, lift, logging, throw, write_file.
  destruct (http_get w (length (requests s)) (article_request (cell_str c)))
    as [r|e] eqn:G.
  2:{ rewrite (Hget _ _ _ G). one_record. }
  destruct (parsed r) as [content|e] eqn:P.
  2:{ rewrite (Hparse _ _ _ _ G P). one_record. }
  destruct (find_lead content) as [lead|]; [|one_record].
  destruct (row_get cols row "date") as [dc|e] eqn:Rd.
  2:{ assert (is_Exception e = true) as ->.
      { unfold row_get in Rd. destruct (mem_string "date" cols); [discriminate|].
        injection Rd as <-. reflexivity. }
      one_record. }
  destruct c as [u|]; [|one_record].
  destruct dc as [d|]; [|one_record].
  cbn [nwrites add_request].
  destruct (fs_write w (nwrites s) _ _) as [|e left_behind] eqn:W.
  - one_record.
  - rewrite (Hwrite _ _ _ _ _ W). one_record.
Qed.

Lemma extract_loop_total (table : list (list cell)) (s : state) :
  mem_string "url" cols = true \/ table = [] ->
  only_exceptions w ->
  exists s' records,
    for_each table (extract_body w path cols) tt s = (Ok tt, s')
    /\ requests s'
       = requests s
         ++ map (fun row => article_request (cell_str (assoc_cell "url" cols row)))
              table
    /\ log s' = log s ++ records
    /\ length records = length table
    /\ (nwrites s' <= nwrites s + length table)%nat.
Proof.
  intros [Hcol | ->] Hw.
  2:{ exists s, []. cbn. rewrite !app_nil_r. repeat split; lia. }
  revert s. induction table as [|row table IH]; intros s.
  - exists s, []. cbn. rewrite !app_nil_r. repeat split; lia.
  - destruct (extract_body_total row s Hcol Hw) as (s1 & rec1 & E1 & R1 & L1 & N1).
    destruct (IH s1) as (s' & recs & E & R & L & Ln & N).
    exists s', (rec1 :: recs). rewrite for_each_cons, E1. split; [exact E|].
    split; [rewrite R, R1, <- app_assoc; reflexivity|].
    split; [rewrite L, L1, <- app_assoc; reflexivity|].
    cbn [length]. split; lia.
Qed.
End ArticleLoop.

(** X8: in a world that raises nothing but [Exception]s, the article
    stage always returns normally, for a table that has a [url] column or
    no rows.  It issues exactly one request per row, in row order, without
    headers or timeout; it logs a start record, exactly one record per
    row and a finish record; and it attempts at most one write per row. *)
Theorem X8_article_stage_completes (w : World) (start_date end_date : Calendar.date)
    (path : string) (metadata : DataFrame) (s : state) :
  mem_string "url" (columns metadata) = true \/ rows metadata = [] ->
  only_exceptions w ->
  exists s' records,
    extract_and_save_articles w start_date end_date path metadata s = (Ok tt, s')
    /\ requests s'
       = requests s
         ++ map (fun row =>
                   mkRequest (cell_str (assoc_cell "url" (columns metadata) row))
                     [] None)
              (rows metadata)
    /\ log s'
       = log s
         ++ [(INFO, "Starting data extraction for dates: "
                    +:+ Calendar.isoformat start_date +:+ " to "
                    +:+ Calendar.isoformat end_date)]
         ++ records
         ++ [(INFO, "Finished data extraction for dates: "
                    +:+ Calendar.isoformat start_date +:+ " to "
                    +:+ Calendar.isoformat end_date)]
    /\ length records = length (rows metadata)
    /\ (nwrites s' <= nwrites s + length (rows metadata))%nat.
Proof.
  intros Hcol Hw.
  destruct (extract_loop_total w path (columns metadata) (rows metadata)
              (add_log INFO
                 ("Starting data extraction for dates: "
                  +:+ Calendar.isoformat start_date +:+ " to "
                  +:+ Calendar.isoformat end_date) s) Hcol Hw)
    as (s1 & records & E & R & L & Ln & N).
  eexists. exists records. split.
  { unfold extract_and_save_articles, bind, logging. rewrite E. reflexivity. }
  cbn [requests log nwrites add_log] in *.
  split; [exact R|]. split; [rewrite L, <- !app_assoc; reflexivity|].
  split; [exact Ln | exact N].
Qed.

(** Three rows: a refused request, a page without lead, a saved article. *)
Lemma X8_article_stage_completes_witness :
  let w := table_world
             [("https://x/art-2", ok_page (article_page None ["P"]));
              ("https://x/art-3", ok_page (article_page (Some "L") ["Q"]))] in
  let df := mkFrame metadata_columns
              [metadata_row "2024-01-01" ("10:00", "https://x/art-1", "T");
               metadata_row "2024-01-01" ("11:00", "https://x/art-2", "U");
               metadata_row "2024-01-01" ("12:00", "https://x/art-3", "V")] in
  let run := extract_and_save_articles w (Calendar.mkDate 2024 1 1)
               (Calendar.mkDate 2024 1 1) "out" df initial_state in
  only_exceptions w
  /\ fst run = Ok tt
  /\ map req_url (requests (snd run))
     = ["https://x/art-1"; "https://x/art-2"; "https://x/art-3"]
  /\ length (log (snd run)) = 5%nat
  /\ files (snd run) = {[ "out/2024-01-01/art-3.txt" := "L Q" ]}.
Proof.
  cbv zeta.
  assert (W : only_exceptions
                (table_world
                   [("https://x/art-2", ok_page (article_page None ["P"]));
                    ("https://x/art-3", ok_page (article_page (Some "L") ["Q"]))])).
  { split; [|split].
    - intros n req e H. cbn in H.
      repeat (destruct (String.eqb _ _) in H; [discriminate H|]).
      injection H as <-. reflexivity.
    - intros n req r e H P. cbn in H.
      repeat (destruct (String.eqb _ _) in H;
              [injection H as <-; discriminate P|]).
      discriminate H.
    - intros n p t e lb H. discriminate H. }
  split; [exact W|].
  destruct (X8_article_stage_completes _ (Calendar.mkDate 2024 1 1)
              (Calendar.mkDate 2024 1 1) "out"
              (mkFrame metadata_columns
                 [metadata_row "2024-01-01" ("10:00", "https://x/art-1", "T");
                  metadata_row "2024-01-01" ("11:00", "https://x/art-2", "U");
                  metadata_row "2024-01-01" ("12:00", "https://x/art-3", "V")])
              initial_state (or_introl eq_refl) W)
    as (s' & records & E & R & L & Ln & _).
  rewrite E. cbn [fst snd]. split; [reflexivity|].
  split; [rewrite R; reflexivity|].
  split; [rewrite L, !length_app, Ln; reflexivity|].
  injection E as <-. vm_compute. reflexivity.
Defined.

(** ** The stages together *)

Section Stages.
Variable w : World.

(** The pipeline, one stage after the other. *)
Lemma pipeline_eq (args : Args) (start_date_obj end_date_obj : Calendar.date)
    (s : state) :
  pipeline w args start_date_obj end_date_obj s
  = match get_metadata w start_date_obj end_date_obj user_agent
            (add_log INFO
               ("Starting metadata scraping for dates: "
                +:+ arg_start_date args +:+ " to " +:+ arg_end_date args) s) with
    | (Raise e, s1) => (Raise e, s1)
    | (Ok metadata, s1) =>
        match create_metadata_file w start_date_obj end_date_obj (arg_path args)
                metadata s1 with
        | (Raise e, s2) => (Raise e, s2)
        | (Ok tt, s2) =>
            match extract_and_save_articles w start_date_obj end_date_obj
                    (arg_path args) metadata s2 with
            | (Raise e, s3) => (Raise e, s3)
            | (Ok tt, s3) => (Ok 0, s3)
            end
        end
    end.
Proof.
  unfold pipeline, bind, logging, ret.
  destruct (get_metadata w _ _ _ _) as [[metadata|e] s1]; [|reflexivity].
  destruct (create_metadata_file w _ _ _ _ _) as [[[]|e] s2]; [|reflexivity].
  destruct (extract_and_save_articles w _ _ _ _ _) as [[[]|e] s3]; reflexivity.
Qed.

Lemma main_parsed (args : Args) (start_date_obj end_date_obj : Calendar.date)
    (s : state) :
  is_valid_date (arg_start_date args) = true ->
  is_valid_date (arg_end_date args) = true ->
  parse_date (arg_start_date args) = Ok start_date_obj ->
  parse_date (arg_end_date args) = Ok end_date_obj ->
  main w args s = pipeline w args start_date_obj end_date_obj s.
Proof.
  intros V1 V2 P1 P2. unfold main, bind, lift.
  rewrite V1, V2, P1, P2. reflexivity.
Qed.

(** The article stage in a world that raises nothing but [Exception]s. *)
Lemma extract_stage (path : string) (cols : list string)
    (start_date end_date : Calendar.date) (table : list (list cell)) (s : state) :
  mem_string "url" cols = true \/ table = [] ->
  only_exceptions w ->
  exists s',
    extract_and_save_articles w start_date end_date path (mkFrame cols table) s
    = (Ok tt, s')
    /\ requests s'
       = requests s
         ++ map (fun row => mkRequest (cell_str (assoc_cell "url" cols row)) [] None)
              table.
Proof.
  intros Hcol Hw.
  destruct (extract_loop_total w path cols table
              (add_log INFO
                 ("Starting data extraction for dates: "
                  +:+ Calendar.isoformat start_date +:+ " to "
                  +:+ Calendar.isoformat end_date) s) Hcol Hw)
    as (s1 & records & E & R & _).
  eexists. split.
  { unfold extract_and_save_articles, bind, logging. cbn [rows columns].
    rewrite E. reflexivity. }
  exact R.
Qed.

(** A table [get_metadata] returned has a [url] column or no rows. *)
Lemma table_ok_url dates df :
  table_ok dates df ->
  mem_string "url" (columns df) = true \/ rows df = [].
Proof.
  intros [[-> | ->] _]; [right | left]; reflexivity.
Qed.
End Stages.

(** X6: for two calendar dates with the end before the start, the program
    requests nothing, writes the metadata file as one empty line, logs its
    four progress records and exits with status 0. *)
Theorem X6_reversed_range_run (w : World) (args : Args) (s : state)
    (start_date_obj end_date_obj : Calendar.date) :
  Calendar.valid_date start_date_obj = true ->
  Calendar.valid_date end_date_obj = true ->
  Calendar.date_ltb end_date_obj start_date_obj = true ->
  arg_start_date args = Calendar.isoformat start_date_obj ->
  arg_end_date args = Calendar.isoformat end_date_obj ->
  fs_write w (nwrites s) (arg_path args +:+ "/onet_metadata.csv")
    (String Csv.LF "") = WriteOk ->
  exists s',
    main w args s = (Ok 0, s')
    /\ requests s' = requests s
    /\ files s'
       = <[arg_path args +:+ "/onet_metadata.csv" := String Csv.LF ""]> (files s)
    /\ log s'
       = log s
         ++ [(INFO, "Starting metadata scraping for dates: "
                    +:+ arg_start_date args +:+ " to " +:+ arg_end_date args);
             (INFO, "New file created: " +:+ arg_path args +:+ "/onet_metadata.csv");
             (INFO, "Starting data extraction for dates: "
                    +:+ arg_start_date args +:+ " to " +:+ arg_end_date args);
             (INFO, "Finished data extraction for dates: "
                    +:+ arg_start_date args +:+ " to " +:+ arg_end_date args)].
Proof.
  intros Vs Ve Hlt Es Ee Hw.
  pose proof Vs as Vs'. pose proof Ve as Ve'.
  apply CalendarFacts.valid_date_spec in Vs', Ve'.
  assert (D : date_list start_date_obj end_date_obj = Ok []).
  { rewrite (date_list_eq _ _ Vs' Ve').
    apply (CalendarFacts.toordinal_lt_iff _ _ Ve' Vs') in Hlt.
    rewrite py_range_nonpos by lia. reflexivity. }
  rewrite (main_parsed w args start_date_obj end_date_obj s).
  2:{ rewrite Es. apply DateStrFacts.isoformat_valid. }
  2:{ rewrite Ee. apply DateStrFacts.isoformat_valid. }
  2:{ rewrite Es. apply DateStrFacts.parse_isoformat, Vs'. }
  2:{ rewrite Ee. apply DateStrFacts.parse_isoformat, Ve'. }
  unfold pipeline, get_metadata, create_metadata_file, extract_and_save_articles,
    bind, lift, ret, logging, write_file.
  rewrite D. cbn [map for_each ret result_df nwrites add_log].
  unfold ret. cbn [result_df].
  change (Csv.to_csv empty_frame) with (String Csv.LF "").
  cbn [nwrites add_log]. rewrite Hw. cbn [rows empty_frame for_each]. unfold ret.
  eexists. split; [reflexivity|].
  cbn [requests files log add_log add_write].
  split; [reflexivity|]. split; [reflexivity|].
  rewrite <- Es, <- Ee, <- !app_assoc. reflexivity.
Qed.

Lemma X6_reversed_range_run_witness :
  let run := main (table_world []) (mkArgs "2024-01-02" "2024-01-01" "out")
               initial_state in
  Calendar.date_ltb (Calendar.mkDate 2024 1 1) (Calendar.mkDate 2024 1 2) = true
  /\ exists s',
       run = (Ok 0, s')
       /\ requests s' = []
       /\ files s' = {[ "out/onet_metadata.csv" := String Csv.LF "" ]}
       /\ length (log s') = 4%nat.
Proof.
  cbv zeta. split; [reflexivity|].
  destruct (X6_reversed_range_run (table_world [])
              (mkArgs "2024-01-02" "2024-01-01" "out") initial_state
              (Calendar.mkDate 2024 1 2) (Calendar.mkDate 2024 1 1)
              eq_refl eq_refl eq_refl eq_refl eq_refl eq_refl)
    as (s' & E & R & F & L).
  exists s'. split; [exact E|]. split; [exact R|]. split; [exact F|].
  rewrite L. reflexivity.
Defined.

(** X7: a failure to write the metadata file is fatal.  The exception
    leaves the program, no "New file created" record is logged and no
    article is requested. *)
Theorem X7_csv_failure_is_fatal (w : World) (args : Args) (s s1 : state)
    (start_date_obj end_date_obj : Calendar.date) (metadata : DataFrame)
    (e : exn) (left_behind : option string) :
  is_valid_date (arg_start_date args) = true ->
  is_valid_date (arg_end_date args) = true ->
  parse_date (arg_start_date args) = Ok start_date_obj ->
  parse_date (arg_end_date args) = Ok end_date_obj ->
  get_metadata w start_date_obj end_date_obj user_agent
    (add_log INFO
       ("Starting metadata scraping for dates: "
        +:+ arg_start_date args +:+ " to " +:+ arg_end_date args) s)
  = (Ok metadata, s1) ->
  fs_write w (nwrites s1) (arg_path args +:+ "/onet_metadata.csv")
    (Csv.to_csv metadata) = WriteFails e left_behind ->
  exists s',
    main w args s = (Raise e, s')
    /\ requests s' = requests s1
    /\ log s' = log s1
    /\ nwrites s' = S (nwrites s1).
Proof.
  intros V1 V2 P1 P2 G W.
  rewrite (main_parsed w args _ _ s V1 V2 P1 P2), pipeline_eq, G.
  unfold create_metadata_file, bind, write_file, logging. rewrite W.
  eexists. split; [reflexivity|]. repeat split.
Qed.

(** X9: when both dates are accepted, the archive stage returns and the
    metadata file is written, then, in a world that raises nothing but
    [Exception]s, the program exits with status 0 whatever happens to the
    individual articles, after exactly one article request per table row
    in row order. *)
Theorem X9_main_exits_zero (w : World) (args : Args) (s s1 : state)
    (start_date_obj end_date_obj : Calendar.date) (metadata : DataFrame) :
  is_valid_date (arg_start_date args) = true ->
  is_valid_date (arg_end_date args) = true ->
  parse_date (arg_start_date args) = Ok start_date_obj ->
  parse_date (arg_end_date args) = Ok end_date_obj ->
  only_exceptions w ->
  get_metadata w start_date_obj end_date_obj user_agent
    (add_log INFO
       ("Starting metadata scraping for dates: "
        +:+ arg_start_date args +:+ " to " +:+ arg_end_date args) s)
  = (Ok metadata, s1) ->
  fs_write w (nwrites s1) (arg_path args +:+ "/onet_metadata.csv")
    (Csv.to_csv metadata) = WriteOk ->
  exists s',
    main w args s = (Ok 0, s')
    /\ requests s'
       = requests s1
         ++ map (fun row =>
                   mkRequest (cell_str (assoc_cell "url" (columns metadata) row))
                     [] None)
              (rows metadata).
Proof.
  intros V1 V2 P1 P2 Hw G W.
  destruct (get_metadata_table_ok _ _ _ _ _ _ _ G) as (dates & _ & T).
  rewrite (main_parsed w args _ _ s V1 V2 P1 P2), pipeline_eq, G.
  unfold create_metadata_file, bind, write_file, logging. rewrite W.
  destruct metadata as [cols table].
  destruct (extract_stage w (arg_path args) cols start_date_obj end_date_obj table
              (add_log INFO
                 ("New file created: " +:+ arg_path args +:+ "/onet_metadata.csv")
                 (add_write (arg_path args +:+ "/onet_metadata.csv")
                    (Some (Csv.to_csv (mkFrame cols table))) s1))
              (table_ok_url dates _ T) Hw)
    as (s' & E & R).
  rewrite E. exists s'. split; [reflexivity | exact R].
Qed.

Lemma X7_csv_failure_is_fatal_witness :
  let w := readonly_world
             [(archive_url "2024-01-01",
               ok_page (archive_page [("10:00", "https://x/art-1", "T")]));
              ("https://x/art-1", ok_page (article_page (Some "L") ["P"]))] in
  let run := main w (mkArgs "2024-01-01" "2024-01-01" "out") initial_state in
  fs_write w 0 "out/onet_metadata.csv"
    (Csv.to_csv
       (mkFrame metadata_columns
          [metadata_row "2024-01-01" ("10:00", "https://x/art-1", "T")]))
  = WriteFails (mkExn OSError "Permission denied") None
  /\ exists s',
       run = (Raise (mkExn OSError "Permission denied"), s')
       /\ map req_url (requests s') = [archive_url "2024-01-01"]
       /\ log s'
          = [(INFO, "Starting metadata scraping for dates: 2024-01-01 to 2024-01-01")].
Proof.
  cbv zeta. split; [reflexivity|].
  destruct (X7_csv_failure_is_fatal
              (readonly_world
                 [(archive_url "2024-01-01",
                   ok_page (archive_page [("10:00", "https://x/art-1", "T")]));
                  ("https://x/art-1", ok_page (article_page (Some "L") ["P"]))])
              (mkArgs "2024-01-01" "2024-01-01" "out") initial_state
              (add_request (archive_request user_agent (archive_url "2024-01-01"))
                 (add_log INFO
                    "Starting metadata scraping for dates: 2024-01-01 to 2024-01-01"
                    initial_state))
              (Calendar.mkDate 2024 1 1) (Calendar.mkDate 2024 1 1)
              (mkFrame metadata_columns
                 [metadata_row "2024-01-01" ("10:00", "https://x/art-1", "T")])
              (mkExn OSError "Permission denied") None
              eq_refl eq_refl eq_refl eq_refl eq_refl eq_refl)
    as (s' & E & R & L & _).
  exists s'. split; [exact E|]. split; [rewrite R; reflexivity|].
  rewrite L. reflexivity.
Defined.

(** One archive item whose article cannot be fetched: the run still ends
    with status 0. *)
Lemma X9_main_exits_zero_witness :
  let w := table_world
             [(archive_url "2024-01-01",
               ok_page (archive_page [("10:00", "https://x/art-1", "T")]))] in
  let run := main w (mkArgs "2024-01-01" "2024-01-01" "out") initial_state in
  only_exceptions w
  /\ exists s',
       run = (Ok 0, s')
       /\ map req_url (requests s') = [archive_url "2024-01-01"; "https://x/art-1"].
Proof.
  cbv zeta.
  assert (W : only_exceptions
                (table_world
                   [(archive_url "2024-01-01",
                     ok_page (archive_page [("10:00", "https://x/art-1", "T")]))])).
  { split; [|split].
    - intros n req e H. cbn in H.
      repeat (destruct (String.eqb _ _) in H; [discriminate H|]).
      injection H as <-. reflexivity.
    - intros n req r e H P. cbn in H.
      repeat (destruct (String.eqb _ _) in H;
              [injection H as <-; discriminate P|]).
      discriminate H.
    - intros n p t e lb H. discriminate H. }
  split; [exact W|].
  destruct (X9_main_exits_zero _
              (mkArgs "2024-01-01" "2024-01-01" "out") initial_state
              (add_request (archive_request user_agent (archive_url "2024-01-01"))
                 (add_log INFO
                    "Starting metadata scraping for dates: 2024-01-01 to 2024-01-01"
                    initial_state))
              (Calendar.mkDate 2024 1 1) (Calendar.mkDate 2024 1 1)
              (mkFrame metadata_columns
                 [metadata_row "2024-01-01" ("10:00", "https://x/art-1", "T")])
              eq_refl eq_refl eq_refl eq_refl W eq_refl eq_refl)
    as (s' & E & R).
  exists s'. split; [exact E|]. rewrite R. reflexivity.
Defined.

(** ** Where an article is written *)

Section ArticlePath.
Import PyStr.




End ArticlePath.


Section FetcherHeader.
Variable w : World.
Variable headers : list (string * string).

Lemma raise_for_status_raises url r e :
  raise_for_status url r = Raise e -> 400 <= status_code r < 600.
Proof.
  unfold raise_for_status.
  destruct (Z.leb_spec 400 (status_code r)), (Z.ltb_spec (status_code r) 500),
    (Z.leb_spec 500 (status_code r)), (Z.ltb_spec (status_code r) 600);
    cbn; try discriminate; lia.
Qed.

Lemma raise_for_status_ok url r :
  raise_for_status url r = Ok tt -> ~ (400 <= status_code r < 600).
Proof.
  unfold raise_for_status.
  destruct (Z.leb_spec 400 (status_code r)), (Z.ltb_spec (status_code r) 500),
    (Z.leb_spec 500 (status_code r)), (Z.ltb_spec (status_code r) 600);
    cbn; try discriminate; lia.
Qed.

Lemma concat_columns dates df tuples :
  table_ok dates df ->
  columns (concat df (frame_of_tuples tuples metadata_columns)) = metadata_columns.
Proof.
  intros [[-> | Hc] _]; unfold concat; cbn [columns frame_of_tuples].
  - reflexivity.
  - rewrite Hc. reflexivity.
Qed.

(** An iteration that ends normally either skipped a day whose fetch
    failed, or appended to the table, which then has the four columns. *)
Lemma body_cases dates (loc loc' : locals) (url : string) (s s' : state) :
  table_ok dates (result_df loc) ->
  get_metadata_body w headers loc url s = (Ok loc', s') ->
  (fetch_fails w (length (requests s)) headers url /\ loc' = loc)
  \/ (~ fetch_fails w (length (requests s)) headers url
      /\ columns (result_df loc') = metadata_columns).
Proof.
  intros Hok.
  unfold get_metadata_body, bind, try_except, requests_get, lift, throw, ret, logging.
  destruct (http_get w _ _) as [r|e] eqn:G.
  - destruct (raise_for_status url r) as [[]|e] eqn:R.
    + destruct (parsed r) as [content|e]; [|discriminate].
      destruct (find_dayInArchive content) as [day|]; [|discriminate].
      destruct (rmap contents0_strip _); [|discriminate].
      destruct (rmap title_item _); [|discriminate].
      intros H. injection H as <- _. right. split.
      * intros [(e & G' & _) | (r' & G' & Hs)]; unfold fetch_fails in *.
        -- congruence.
        -- assert (r' = r) by congruence. subst r'.
           apply (raise_for_status_ok url r R), Hs.
      * cbn [result_df]. apply (concat_columns dates), Hok.
    + destruct (is_RequestException e); [|discriminate].
      intros H. injection H as <- _. left. split; [|reflexivity].
      right. exists r. split; [exact G|]. apply (raise_for_status_raises url r e R).
  - destruct (is_RequestException e) eqn:He; [|discriminate].
    intros H. injection H as <- _. left. split; [|reflexivity].
    left. exists e. split; [exact G | exact He].
Qed.

(** The loop: the table stays as it was when every fetch fails, and has
    the four columns at the end as soon as one fetch does not fail. *)
Lemma loop_header dates (days : list string) (loc loc' : locals) (s s' : state) :
  (forall date, In date days ->
                In date dates /\ PyStr.contains "/" date = false) ->
  table_ok dates (result_df loc) ->
  for_each (map archive_url days) (get_metadata_body w headers) loc s
  = (Ok loc', s') ->
  ((forall i date, nth_error days i = Some date ->
                   fetch_fails w (length (requests s) + i) headers
                     (archive_url date)) ->
   loc' = loc)
  /\ ((exists i date, nth_error days i = Some date
                      /\ ~ fetch_fails w (length (requests s) + i) headers
                           (archive_url date)) ->
      columns (result_df loc') = metadata_columns)
  /\ (columns (result_df loc) = metadata_columns ->
      columns (result_df loc') = metadata_columns).
Proof.
  revert loc s. induction days as [|date days IH]; intros loc s Hd Hok H.
  - cbn in H. injection H as <- _.
    split; [reflexivity|]. split; [|tauto].
    intros (i & date & Hi & _). destruct i; discriminate Hi.
  - cbn [map] in H. rewrite for_each_cons in H.
    destruct (get_metadata_body w headers loc (archive_url date) s)
      as [[loc1|e] s1] eqn:B; [|discriminate H].
    destruct (Hd date (or_introl eq_refl)) as [Hin Hns].
    pose proof (body_table_ok w headers dates date loc loc1 s s1 Hin Hns Hok B)
      as Hok1.
    pose proof (body_effects w headers loc (archive_url date) s) as Eff.
    cbv zeta in Eff. rewrite B in Eff. cbn [snd] in Eff.
    destruct Eff as (Rq & _).
    assert (Len : length (requests s1) = S (length (requests s))).
    { rewrite Rq, length_app. cbn. lia. }
    destruct (IH loc1 s1 (fun d' Hd' => Hd d' (or_intror Hd')) Hok1 H)
      as (All & Some1 & Keep).
    destruct (body_cases dates loc loc1 (archive_url date) s s1 Hok B)
      as [[F ->] | [NF Hc]].
    + split; [|split].
      * intros Hall. apply All. intros i d' Hi.
        rewrite Len. replace (S (length (requests s)) + i)%nat
          with (length (requests s) + S i)%nat by lia.
        apply Hall. exact Hi.
      * intros (i & d' & Hi & Hnf). destruct i as [|i].
        -- cbn in Hi. injection Hi as <-. rewrite Nat.add_0_r in Hnf. tauto.
        -- apply Some1. exists i, d'. split; [exact Hi|].
           rewrite Len. replace (S (length (requests s)) + i)%nat
             with (length (requests s) + S i)%nat by lia.
           exact Hnf.
      * exact Keep.
    + split; [|split].
      * intros Hall. exfalso. apply NF.
        specialize (Hall O date eq_refl). rewrite Nat.add_0_r in Hall. exact Hall.
      * intros _. apply Keep, Hc.
      * intros _. apply Keep, Hc.
Qed.
End FetcherHeader.

(** X12: for a run of [get_metadata] that returns, over the days of its
    date list: when the fetch of every day failed, the table is the
    column-less one, it has no rows and its CSV text is one empty line;
    when the fetch of at least one day did not fail, the CSV text begins
    with the header line [date,time,url,title]. *)
Theorem X12_csv_header_of_run (w : World) (start_date end_date : Calendar.date)
    (headers : list (string * string)) (s s' : state) (df : DataFrame) :
  get_metadata w start_date end_date headers s = (Ok df, s') ->
  exists days,
    date_list start_date end_date = Ok days
    /\ ((forall i date, nth_error days i = Some date ->
                        fetch_fails w (length (requests s) + i) headers
                          (archive_url date)) ->
        rows df = [] /\ Csv.to_csv df = String Csv.LF "")
    /\ ((exists i date, nth_error days i = Some date
                        /\ ~ fetch_fails w (length (requests s) + i) headers
                             (archive_url date)) ->
        exists body,
          Csv.to_csv df = "date,time,url,title" +:+ String Csv.LF body).
Proof.
  unfold get_metadata, bind, lift, ret.
  destruct (date_list start_date end_date) as [days|e] eqn:D; [|discriminate].
  destruct (for_each (map archive_url days) (get_metadata_body w headers)
              (mkLocals [] [] [] empty_frame) s) as [[loc|e] s1] eqn:L;
    [|discriminate].
  intros H. injection H as <- _.
  exists days. split; [reflexivity|].
  destruct (loop_header w headers days days (mkLocals [] [] [] empty_frame)
              loc s s1) as (All & Some1 & _); [| |exact L|].
  - intros date Hin. split; [exact Hin|].
    apply (date_list_no_slash start_date end_date days D date Hin).
  - split; [left; reflexivity | constructor].
  - split.
    + intros Hall. rewrite (All Hall). split; reflexivity.
    + intros Hsome. unfold Csv.to_csv. rewrite (Some1 Hsome).
      change (Csv.writerow metadata_columns)
        with ("date,time,url,title" +:+ String Csv.LF "").
      eexists. rewrite CsvFacts.app_sep. reflexivity.
Qed.

(** Two days that both fail to be fetched give the empty line; a day
    whose page lists nothing still gives the header. *)
Lemma X12_csv_header_of_run_witness :
  let d1 := Calendar.mkDate 2024 1 1 in
  let d2 := Calendar.mkDate 2024 1 2 in
  let w := table_world [(archive_url "2024-01-02", ok_page (archive_page []))] in
  (exists df s',
     get_metadata w d1 d1 user_agent initial_state = (Ok df, s')
     /\ rows df = [] /\ Csv.to_csv df = String Csv.LF "")
  /\ (exists df s' body,
        get_metadata w d1 d2 user_agent initial_state = (Ok df, s')
        /\ Csv.to_csv df = "date,time,url,title" +:+ String Csv.LF body).
Proof.
  cbv zeta.
  set (w := table_world [(archive_url "2024-01-02", ok_page (archive_page []))]).
  split.
  - assert (E : get_metadata w (Calendar.mkDate 2024 1 1) (Calendar.mkDate 2024 1 1)
                  user_agent initial_state
                = (Ok empty_frame,
                   snd (get_metadata w (Calendar.mkDate 2024 1 1)
                          (Calendar.mkDate 2024 1 1) user_agent initial_state))).
    { vm_compute. reflexivity. }
    destruct (X12_csv_header_of_run _ _ _ _ _ _ _ E) as (days & D & All & _).
    vm_compute in D. injection D as <-.
    eexists. eexists. split; [exact E|]. apply All.
    intros i date Hi. destruct i as [|[|i]]; [|discriminate Hi..].
    injection Hi as <-. left. eexists. split; reflexivity.
  - assert (E : get_metadata w (Calendar.mkDate 2024 1 1) (Calendar.mkDate 2024 1 2)
                  user_agent initial_state
                = (Ok (mkFrame metadata_columns []),
                   snd (get_metadata w (Calendar.mkDate 2024 1 1)
                          (Calendar.mkDate 2024 1 2) user_agent initial_state))).
    { vm_compute. reflexivity. }
    destruct (X12_csv_header_of_run _ _ _ _ _ _ _ E) as (days & D & _ & Some1).
    vm_compute in D. injection D as <-.
    destruct Some1 as (body & B).
    + exists 1%nat, "2024-01-02". split; [reflexivity|].
      intros [(e & G & _) | (r & G & Hs)].
      * discriminate G.
      * injection G as <-. cbn in Hs. lia.
    + eexists. eexists. exists body. split; [exact E | exact B].
Defined.

(** ** What the article stage leaves alone *)

Section ArticleFiles.
Variable w : World.
Variable path : string.
Variable cols : list string.

Lemma extract_body_files (row : list cell) (s : state) (p : string) :
  (forall u d, assoc_cell "url" cols row = Some u ->
               assoc_cell "date" cols row = Some d ->
               p <> article_path path d u) ->
  files (snd (extract_body w path cols tt row s)) !! p = files s !! p.
Proof.
  intros Hp.
  unfold extract_body, extract_try, bind, lift, try_except, requests_get,
    logging, throw, write_file, row_get.
  destruct (mem_string "url" cols); [|reflexivity]. cbv beta iota zeta.
  destruct (http_get w _ _) as [r|e]; [|destruct (is_Exception e); reflexivity].
  destruct (parsed r) as [content|e]; [|destruct (is_Exception e); reflexivity].
  destruct (find_lead content) as [lead|]; [|reflexivity].
  destruct (mem_string "date" cols);
    [|cbv beta iota zeta; reflexivity].
  cbv beta iota zeta.
  destruct (assoc_cell "url" cols row) as [u|] eqn:Eu; [|reflexivity].
  destruct (assoc_cell "date" cols row) as [d|] eqn:Ed; [|reflexivity].
  specialize (Hp u d eq_refl eq_refl).
  cbn [nwrites add_request].
  destruct (fs_write w _ _ _) as [|e [t|]].
  - cbn [snd files add_log add_write add_request].
    apply lookup_insert_ne. congruence.
  - destruct (is_Exception e); cbn [snd files add_log add_write add_request];
      apply lookup_insert_ne; congruence.
  - destruct (is_Exception e); reflexivity.
Qed.

Lemma extract_loop_files (table : list (list cell)) (s : state) (p : string) :
  (forall row u d, In row table ->
                   assoc_cell "url" cols row = Some u ->
                   assoc_cell "date" cols row = Some d ->
                   p <> article_path path d u) ->
  files (snd (for_each table (extract_body w path cols) tt s)) !! p = files s !! p.
Proof.
  revert s. induction table as [|row table IH]; intros s Hp; [reflexivity|].
  rewrite for_each_cons.
  pose proof (extract_body_files row s p
                (fun u d => Hp row u d (or_introl eq_refl))) as B.
  destruct (extract_body w path cols tt row s) as [[[]|e] s1]; cbn [snd] in B.
  - rewrite IH; [exact B|]. intros r u d Hin. apply Hp. right. exact Hin.
  - exact B.
Qed.
End ArticleFiles.

(** X13: the article stage leaves every file alone that is not the
    article file of one of the table's rows: its content, or its absence,
    is after the stage what it was before, however the stage ends. *)
Theorem X13_article_stage_touches_only_articles (w : World)
    (start_date end_date : Calendar.date) (path : string) (metadata : DataFrame)
    (s : state) (p : string) :
  (forall row u d, In row (rows metadata) ->
                   assoc_cell "url" (columns metadata) row = Some u ->
                   assoc_cell "date" (columns metadata) row = Some d ->
                   p <> article_path path d u) ->
  files (snd (extract_and_save_articles w start_date end_date path metadata s)) !! p
  = files s !! p.
Proof.
  intros Hp. unfold extract_and_save_articles, bind, logging.
  pose proof (extract_loop_files w path (columns metadata) (rows metadata)
                (add_log INFO
                   ("Starting data extraction for dates: "
                    +:+ Calendar.isoformat start_date +:+ " to "
                    +:+ Calendar.isoformat end_date) s) p Hp) as L.
  destruct (for_each (rows metadata) _ tt _) as [[[]|e] s1]; exact L.
Qed.

(** The metadata file survives the article stage. *)
Lemma X13_article_stage_touches_only_articles_witness :
  let w := table_world [("https://x/art-1", ok_page (article_page (Some "L") ["P"]))] in
  let df := mkFrame metadata_columns
              [metadata_row "2024-01-01" ("10:00", "https://x/art-1", "T")] in
  let s := add_write "out/onet_metadata.csv" (Some (Csv.to_csv df)) initial_state in
  let run := extract_and_save_articles w (Calendar.mkDate 2024 1 1)
               (Calendar.mkDate 2024 1 1) "out" df s in
  "out/onet_metadata.csv" <> article_path "out" "2024-01-01" "https://x/art-1"
  /\ files (snd run) !! "out/onet_metadata.csv" = Some (Csv.to_csv df)
  /\ files (snd run) !! "out/2024-01-01/art-1.txt" = Some "L P".
Proof.
  cbv zeta. split; [discriminate|]. split; [|vm_compute; reflexivity].
  rewrite (X13_article_stage_touches_only_articles
             (table_world
                [("https://x/art-1", ok_page (article_page (Some "L") ["P"]))])
             (Calendar.mkDate 2024 1 1) (Calendar.mkDate 2024 1 1) "out"
             (mkFrame metadata_columns
                [metadata_row "2024-01-01" ("10:00", "https://x/art-1", "T")])
             _ "out/onet_metadata.csv").
  - vm_compute. reflexivity.
  - intros row u d [<- | []] Hu Hd. injection Hu as <-. injection Hd as <-.
    discriminate.
Defined.

(** ** Sanity checks of the embedding *)

Example date_list_feb :
  date_list (Calendar.mkDate 2024 2 27) (Calendar.mkDate 2024 3 1)
  = Ok ["2024-02-27"; "2024-02-28"; "2024-02-29"; "2024-03-01"].
Proof. vm_compute. reflexivity. Qed.

Example date_list_rev :
  date_list (Calendar.mkDate 2024 3 1) (Calendar.mkDate 2024 2 27) = Ok [].
Proof. vm_compute. reflexivity. Qed.

Example ord_max : Calendar.toordinal (Calendar.mkDate 9999 12 31) = 3652059
  /\ Calendar.fromordinal 3652059 = Calendar.mkDate 9999 12 31
  /\ Calendar.fromordinal 1 = Calendar.mkDate 1 1 1
  /\ Calendar.fromordinal 146097 = Calendar.mkDate 400 12 31.
Proof. vm_compute. repeat split. Qed.

Example is_valid_date_ex :
  is_valid_date "2024-01-01" = true
  /\ is_valid_date "2024-13-45" = true
  /\ is_valid_date "2024-1-01" = false
  /\ is_valid_date "2024-01-011" = false
  /\ is_valid_date "x2024-01-01" = false
  /\ is_valid_date "" = false.
Proof. vm_compute. repeat split. Qed.


Example strftime_years :
  Calendar.strftime_Ymd (Calendar.mkDate 2024 1 5) = "2024-01-05"
  /\ Calendar.strftime_Ymd (Calendar.mkDate 999 12 31) = "999-12-31"
  /\ Calendar.strftime_Ymd (Calendar.mkDate 1 1 1) = "1-01-01"
  /\ Calendar.isoformat (Calendar.mkDate 999 12 31) = "0999-12-31"
  /\ PyStr.decimal 9999 = "9999" /\ PyStr.decimal 10 = "10"
  /\ PyStr.decimal 9 = "9".
Proof. vm_compute. repeat split. Qed.

Example article_text_ex :
  spec_article_text "L" [] = "L "
  /\ spec_article_text "L" ["P"] = "L P"
  /\ spec_article_text "L" ["P"; "Q"] = "L P Q".
Proof. vm_compute. repeat split. Qed.
